(** * financial_tracker: the sheet reader, the data processor, the dashboard

    A shallow embedding of [financial_tracker/data_reader.py],
    [financial_tracker/data_processor.py] and
    [financial_tracker/visualizer.py], with the part of pandas they call,
    and the properties of the specification proved about it.

    Layout:
    - Python exceptions, logging and a state monad in which a raised
      exception keeps the mutations made before it;
    - scalars and frames: the cells of a [pd.DataFrame], its column labels,
      its index, and the pandas operations the two classes call;
    - [GoogleSheetsReader] and [DataProcessor], method by method;
    - Python values, Dash components and Plotly figures, and
      [FinancialVisualizer] with its callbacks;
    - [Sample]: whole amounts and ISO dates, to run the model;
    - the properties, section by section: filters, reader, construction,
      queries and the table, index, missing columns, summaries;
    - further properties of the reader and the processor, of the way from
      the sheet to the summaries, and of the dashboard;
    - the model and the theorems on concrete sheets. *)

From Stdlib Require Import List String ZArith Bool Arith Lia Permutation Sorted.
Import ListNotations.
Open Scope string_scope.
Open Scope list_scope.

(* ================================================================== *)
(** * Exceptions, outcomes, logging *)

(** The exception classes the two modules can meet.  [KeyError] is the
    lookup error among them.  [ApiError] stands for whatever the Google
    client raises (missing credentials file, transport error, HTTP error):
    the source only ever catches [Exception]. *)
Inductive exn : Type :=
| KeyError (key : string)
| ValueError (msg : string)
| TypeError (msg : string)
| AttributeError (msg : string)
| ApiError (msg : string).

(** [str(e)] as the f-strings of the log messages print it. *)
Definition exn_str (e : exn) : string :=
  match e with
  | KeyError k => String.append "'" (String.append k "'")
  | ValueError m | TypeError m | AttributeError m | ApiError m => m
  end.

Inductive outcome (A : Type) : Type :=
| Ok (a : A)
| Raise (e : exn).
Arguments Ok {A} a.
Arguments Raise {A} e.

Inductive level : Type := INFO | WARNING | ERROR.

Definition log_entry : Type := (level * string)%type.

(** ** The monad of a method body

    A method runs on its object [S] and on the log.  Python keeps every
    mutation made before an exception is raised, so the state is returned
    on both outcomes. *)
Definition M (S A : Type) : Type :=
  S * list log_entry -> outcome A * (S * list log_entry).

Definition ret {S A} (a : A) : M S A := fun st => (Ok a, st).

Definition bind {S A B} (m : M S A) (k : A -> M S B) : M S B :=
  fun st =>
    match m st with
    | (Ok a, st') => k a st'
    | (Raise e, st') => (Raise e, st')
    end.

Definition raise {S A} (e : exn) : M S A := fun st => (Raise e, st).

(** [try: body except Exception as e: handler e]. *)
Definition try_except {S A} (body : M S A) (handler : exn -> M S A) : M S A :=
  fun st =>
    match body st with
    | (Ok a, st') => (Ok a, st')
    | (Raise e, st') => handler e st'
    end.

Definition get_self {S} : M S S := fun st => (Ok (fst st), st).

Definition set_self {S} (s : S) : M S unit := fun st => (Ok tt, (s, snd st)).

Definition logging {S} (l : level) (msg : string) : M S unit :=
  fun st => (Ok tt, (fst st, snd st ++ [(l, msg)])).

(** A pure computation that may raise, run inside a method. *)
Definition lift {S A} (o : outcome A) : M S A := fun st => (o, st).

Declare Scope py_scope.
Delimit Scope py_scope with py.
Notation "x <- m ;; k" := (bind m (fun x => k))
  (at level 61, m at next level, right associativity) : py_scope.
Notation "m ;;; k" := (bind m (fun _ => k))
  (at level 61, right associativity) : py_scope.

(** The same for pure code that may raise. *)
Definition obind {A B} (o : outcome A) (k : A -> outcome B) : outcome B :=
  match o with
  | Ok a => k a
  | Raise e => Raise e
  end.

(* ================================================================== *)
(** * Scalars

    What pandas does to one scalar is not code of this repository: the
    grammar of [pd.to_numeric] and [pd.to_datetime], float arithmetic, the
    calendar.  The model takes these as an interface.  [num] stands for the
    numbers of a numeric column; a timestamp is its count of nanoseconds
    since the epoch and a monthly period its ordinal, as pandas stores
    them. *)
Class Scalars : Type := {
  num : Type;
  num_eqb : num -> num -> bool;
  num_eqb_eq : forall x y, num_eqb x y = true <-> x = y;
  num_leb : num -> num -> bool;
  zero : num;
  add : num -> num -> num;
  (** the aggregations "mean" and "median" of a group *)
  mean : list num -> num;
  median : list num -> num;
  (** one string through [pd.to_numeric]; [None] when it is malformed *)
  parse_numeric : string -> option num;
  (** one string through [pd.to_datetime]; [None] when it is malformed *)
  parse_datetime : string -> option Z;
  (** a number read as an offset from the epoch; [None] out of bounds *)
  datetime_of_num : num -> option Z;
  (** [Timestamp.to_period("M")] and [Period.strftime("%Y-%m")] *)
  to_period_M : Z -> Z;
  strftime_Ym : Z -> string
}.

(** Addition is exact: what a sum over the same rows in another order needs.
    Integer columns satisfy it (also with 64-bit wrap-around); float
    rounding does not, and is outside this model. *)
Class ExactSum (Sc : Scalars) : Prop := {
  add_comm : forall x y : num, add x y = add y x;
  add_assoc : forall x y z : num, add x (add y z) = add (add x y) z;
  add_zero_l : forall x : num, add zero x = x
}.

Section Frames.

Context {Sc : Scalars}.

(** One cell of a frame.  [Null] is [None], [NaN] and [NaT] alike: pandas
    treats the three as missing. *)
Inductive cell : Type :=
| Null
| Str (s : string)
| Num (x : num)
| Timestamp (ns : Z)
| Period (ordinal : Z).

Definition cell_eqb (a b : cell) : bool :=
  match a, b with
  | Null, Null => true
  | Str s, Str t => String.eqb s t
  | Num x, Num y => num_eqb x y
  | Timestamp x, Timestamp y => Z.eqb x y
  | Period x, Period y => Z.eqb x y
  | _, _ => false
  end.

Definition isnull (c : cell) : bool :=
  match c with Null => true | _ => false end.

(** The order in which [groupby(..., sort=True)] lists its keys: numbers
    before strings when a column mixes them. *)
Definition cell_rank (c : cell) : nat :=
  match c with
  | Num _ => 0 | Timestamp _ => 1 | Period _ => 2 | Str _ => 3 | Null => 4
  end.

Definition cell_leb (a b : cell) : bool :=
  match a, b with
  | Num x, Num y => num_leb x y
  | Timestamp x, Timestamp y => Z.leb x y
  | Period x, Period y => Z.leb x y
  | Str s, Str t => String.leb s t
  | _, _ => Nat.leb (cell_rank a) (cell_rank b)
  end.

(** A row label of the index: a position of the default [RangeIndex], or a
    cell once a column was made the index. *)
Inductive ilabel : Type :=
| Pos (i : nat)
| Lab (c : cell).

Record row : Type := mkRow {
  label : ilabel;
  cells : list cell
}.

(** [pd.DataFrame]: column labels in order (pandas allows a label to occur
    several times), the name of the index, and the rows. *)
Record frame : Type := mkFrame {
  columns : list string;
  index_name : option string;
  rows : list row
}.

End Frames.

(** One corner of pandas is left open.  What a boolean frame selects
    from a table whose labels repeat depends on the version of pandas
    and on the types of the columns.  No method of the processor decides
    it, so the model takes it as given. *)
Class Unspecified (Sc : Scalars) : Type := {
  where_frame_mask : frame -> list (list bool) -> outcome frame
}.

Fixpoint mapM {A B : Type} (f : A -> outcome B) (l : list A) : outcome (list B) :=
  match l with
  | [] => Ok []
  | x :: l' => obind (f x) (fun y => obind (mapM f l') (fun ys => Ok (y :: ys)))
  end.

(* ================================================================== *)
(** * pandas

    The operations of pandas that the reader and the processor call, on
    the frames above.  Where pandas treats a label that occurs several
    times among the columns differently from a label that occurs once,
    the model says so. *)
Module pd.
Section Pandas.

Context {Sc : Scalars} {Un : Unspecified Sc}.

(** [pd.DataFrame()]. *)
Definition empty : frame := mkFrame [] None [].

(** ** Construction from a list of rows *)

Definition width (data : list (list string)) : nat :=
  fold_right (fun r w => Nat.max (List.length r) w) 0 data.

(** A short row is filled up with missing values. *)
Definition pad (w : nat) (r : list cell) : list cell :=
  r ++ repeat Null (w - List.length r).

Fixpoint number_rows (i : nat) (data : list (list cell)) : list row :=
  match data with
  | [] => []
  | r :: data' => mkRow (Pos i) r :: number_rows (S i) data'
  end.

(** [pd.DataFrame(data, columns=header)] for a list of lists: the widest
    row decides the number of columns, which has to be the number of
    labels passed. *)
Definition DataFrame (data : list (list string)) (header : list string)
  : outcome frame :=
  match data with
  | [] => Ok (mkFrame header None [])
  | _ :: _ =>
      if Nat.eqb (width data) (List.length header)
      then Ok (mkFrame header None
                 (number_rows 0 (map (fun r => pad (width data) (map Str r)) data)))
      else Raise (ValueError "columns passed, passed data had a different number of columns")
  end.

(** ** Labels *)

Fixpoint positions_from (i : nat) (name : string) (cols : list string) : list nat :=
  match cols with
  | [] => []
  | c :: cols' =>
      if String.eqb c name then i :: positions_from (S i) name cols'
      else positions_from (S i) name cols'
  end.

(** The positions at which the label [name] occurs. *)
Definition positions (name : string) (cols : list string) : list nat :=
  positions_from 0 name cols.

(** [name in df.columns]. *)
Definition contains (name : string) (df : frame) : bool :=
  existsb (String.eqb name) (columns df).

Definition column (j : nat) (df : frame) : list cell :=
  map (fun r => nth j (cells r) Null) (rows df).

(** [df[name]] is a Series when the label occurs once and a frame of all
    the columns of that label when it occurs several times. *)
Inductive selection : Type :=
| Series (values : list cell)
| SubFrame (cols : list (list cell)).

Definition getitem (df : frame) (name : string) : outcome selection :=
  match positions name (columns df) with
  | [] => Raise (KeyError name)
  | [j] => Ok (Series (column j df))
  | js => Ok (SubFrame (map (fun j => column j df) js))
  end.

(** ** Coercions *)

(** One value through [pd.to_datetime(..., errors="coerce")]: whatever is
    not a date becomes [NaT]. *)
Definition to_datetime_coerce1 (c : cell) : option Z :=
  match c with
  | Null => None
  | Str s => parse_datetime s
  | Num x => datetime_of_num x
  | Timestamp ns => Some ns
  | Period _ => None
  end.

(** One value through [pd.to_datetime(...)], whose default is
    [errors="raise"]. *)
Definition to_datetime_raise1 (c : cell) : outcome (option Z) :=
  match c with
  | Null => Ok None
  | Str s =>
      match parse_datetime s with
      | Some ns => Ok (Some ns)
      | None => Raise (ValueError "Unknown datetime string format")
      end
  | Num x =>
      match datetime_of_num x with
      | Some ns => Ok (Some ns)
      | None => Raise (ValueError "Out of bounds nanosecond timestamp")
      end
  | Timestamp ns => Ok (Some ns)
  | Period _ => Raise (TypeError "Period is not convertible to datetime")
  end.

Inductive errors_mode : Type := errors_raise | errors_coerce.

(** [pd.to_datetime(arg, errors=...)]: a datetime64 array, [None] for
    [NaT].  Given a frame it assembles dates from columns named year,
    month and day, and refuses labels that occur twice, whatever
    [errors] says. *)
Definition to_datetime (arg : selection) (errors : errors_mode)
  : outcome (list (option Z)) :=
  match arg with
  | SubFrame _ => Raise (ValueError "cannot assemble with duplicate keys")
  | Series vs =>
      match errors with
      | errors_coerce => Ok (map to_datetime_coerce1 vs)
      | errors_raise => mapM to_datetime_raise1 vs
      end
  end.

(** One value through [pd.to_numeric(..., errors="coerce")]. *)
Definition to_numeric_coerce1 (c : cell) : option num :=
  match c with
  | Str s => parse_numeric s
  | Num x => Some x
  | Null | Timestamp _ | Period _ => None
  end.

(** [pd.to_numeric(arg, errors="coerce")]: a float64 array, [None] for
    [NaN].  Only one-dimensional arguments are accepted. *)
Definition to_numeric (arg : selection) : outcome (list (option num)) :=
  match arg with
  | SubFrame _ => Raise (TypeError "arg must be a list, tuple, 1-d array, or Series")
  | Series vs => Ok (map to_numeric_coerce1 vs)
  end.

Definition of_datetime (v : option Z) : cell :=
  match v with Some ns => Timestamp ns | None => Null end.

Definition of_numeric (v : option num) : cell :=
  match v with Some x => Num x | None => Null end.

Definition of_period (v : option Z) : cell :=
  match v with Some p => Period p | None => Null end.

(** [series.dt.to_period("M")] on a datetime64 array. *)
Definition dt_to_period_M (vs : list (option Z)) : list (option Z) :=
  map (option_map to_period_M) vs.

(** ** Assignment of a column *)

(** The cells of one row after [df[name] = ...] put [v] in it, when the
    label exists: every column of that label receives the value. *)
Fixpoint set_at (name : string) (cols : list string) (cs : list cell) (v : cell)
  : list cell :=
  match cols, cs with
  | c :: cols', x :: cs' =>
      (if String.eqb c name then v else x) :: set_at name cols' cs' v
  | _, _ => cs
  end.

(** [df[name] = values], the values in the order of the rows: an existing
    label is overwritten in place, a new one is appended as last column. *)
Definition setitem (df : frame) (name : string) (values : list cell) : frame :=
  if contains name df
  then mkFrame (columns df) (index_name df)
         (map (fun rv => mkRow (label (fst rv)) (set_at name (columns df) (cells (fst rv)) (snd rv)))
              (combine (rows df) values))
  else mkFrame (columns df ++ [name]) (index_name df)
         (map (fun rv => mkRow (label (fst rv)) (cells (fst rv) ++ [snd rv]))
              (combine (rows df) values)).

(** ** Missing values *)

Definition fill0 (c : cell) : cell :=
  match c with Null => Num zero | _ => c end.

(** [df.fillna(0, inplace=True)]: every missing cell of every column
    becomes 0; the index is not touched. *)
Definition fillna0 (df : frame) : frame :=
  mkFrame (columns df) (index_name df)
    (map (fun r => mkRow (label r) (map fill0 (cells r))) (rows df)).

(** ** The index *)

Fixpoint remove_nth {A : Type} (j : nat) (l : list A) : list A :=
  match j, l with
  | _, [] => []
  | 0, _ :: l' => l'
  | S j', x :: l' => x :: remove_nth j' l'
  end.

(** [df.set_index(name, inplace=True)]: the column leaves the columns and
    its cells become the row labels, replacing the index there was.  A
    label that occurs several times selects a frame, of which pandas
    makes no index: it raises before anything is changed. *)
Definition set_index (df : frame) (name : string) : outcome frame :=
  match positions name (columns df) with
  | [] => Raise (KeyError name)
  | [j] =>
      Ok (mkFrame (remove_nth j (columns df)) (Some name)
            (map (fun r => mkRow (Lab (nth j (cells r) Null)) (remove_nth j (cells r)))
                 (rows df)))
  | _ => Raise (ValueError "Index data must be 1-dimensional")
  end.

(** ** Selection of rows *)

(** [df[name] == s], element by element: a boolean Series, or a boolean
    frame when the label occurs several times. *)
Inductive mask : Type :=
| RowMask (bs : list bool)
| FrameMask (bss : list (list bool)).

Definition eq_str1 (s : string) (c : cell) : bool :=
  match c with Str t => String.eqb t s | _ => false end.

Definition eq_str (arg : selection) (s : string) : mask :=
  match arg with
  | Series vs => RowMask (map (eq_str1 s) vs)
  | SubFrame cols => FrameMask (map (map (eq_str1 s)) cols)
  end.

Fixpoint select_rows (bs : list bool) (rs : list row) : list row :=
  match bs, rs with
  | b :: bs', r :: rs' => if b then r :: select_rows bs' rs' else select_rows bs' rs'
  | _, _ => []
  end.

(** [df[mask]]: a boolean Series keeps the rows where it is true, with
    their labels and in their order.  A boolean frame goes through
    [df.where], which has to align it with [df] on labels that repeat;
    the outcome is left open. *)
Definition getitem_mask (df : frame) (m : mask) : outcome frame :=
  match m with
  | RowMask bs => Ok (mkFrame (columns df) (index_name df) (select_rows bs (rows df)))
  | FrameMask bss => where_frame_mask df bss
  end.

(** ** groupby

    [df.groupby(key)[val].sum().reset_index()] and its sibling with
    [agg(["mean", "median"])]. *)

(** The default index has no name: only an index made of a column is
    grouped by, and its labels are cells. *)
Definition label_cell (l : ilabel) : cell :=
  match l with Lab c => c | Pos _ => Null end.

Definition index_is (df : frame) (key : string) : bool :=
  match index_name df with
  | Some n => String.eqb n key
  | None => false
  end.

(** The keys [df.groupby(key)] groups by, one per row: a column of that
    label, or the index when it has that name. *)
Definition grouper (df : frame) (key : string) : outcome (list cell) :=
  match positions key (columns df) with
  | [] =>
      if index_is df key
      then Ok (map (fun r => label_cell (label r)) (rows df))
      else Raise (KeyError key)
  | [j] =>
      if index_is df key
      then Raise (ValueError "is both an index level and a column label, which is ambiguous")
      else Ok (column j df)
  | _ =>
      if index_is df key
      then Raise (ValueError "is both an index level and a column label, which is ambiguous")
      else Raise (ValueError "Grouper not 1-dimensional")
  end.

(** [groupby(key)[val]]: the columns of label [val]. *)
Definition select_values (df : frame) (val : string) : outcome (list nat) :=
  match positions val (columns df) with
  | [] => Raise (KeyError (String.append "Column not found: " val))
  | js => Ok js
  end.

(** A cell as a term of a numeric aggregation; a missing value is skipped.
    Construction of the processor makes the summed column numeric; a sum
    over strings is not modelled further than as a [TypeError]. *)
Definition summand (c : cell) : outcome (option num) :=
  match c with
  | Num x => Ok (Some x)
  | Null => Ok None
  | _ => Raise (TypeError "unsupported operand type(s) for +")
  end.

Definition addv (t : num) (v : option num) : num :=
  match v with Some x => add t x | None => t end.

(** One row enters the running sums: the sum of its group starts at zero
    when the key is new. *)
Fixpoint group_add (k : cell) (v : option num) (acc : list (cell * num))
  : list (cell * num) :=
  match acc with
  | [] => [(k, addv zero v)]
  | (k', t) :: acc' =>
      if cell_eqb k k' then (k', addv t v) :: acc'
      else (k', t) :: group_add k v acc'
  end.

(** The sums per key after one pass over the rows; a row whose key is
    missing belongs to no group ([dropna=True]). *)
Definition group_sums (kvs : list (cell * option num)) : list (cell * num) :=
  fold_left
    (fun acc kv => if isnull (fst kv) then acc else group_add (fst kv) (snd kv) acc)
    kvs [].

Fixpoint insert_key {V : Type} (kv : cell * V) (l : list (cell * V))
  : list (cell * V) :=
  match l with
  | [] => [kv]
  | kv' :: l' =>
      if cell_leb (fst kv) (fst kv') then kv :: l else kv' :: insert_key kv l'
  end.

(** The groups in the order of their keys ([sort=True]). *)
Definition sort_keys {V : Type} (l : list (cell * V)) : list (cell * V) :=
  fold_right insert_key [] l.

Fixpoint lookup_key {V : Type} (k : cell) (l : list (cell * V)) : option V :=
  match l with
  | [] => None
  | (k', v) :: l' => if cell_eqb k k' then Some v else lookup_key k l'
  end.

Definition sum_table (ks : list cell) (vs : list (option num)) : list (cell * num) :=
  sort_keys (group_sums (combine ks vs)).

Definition total_cell (k : cell) (t : list (cell * num)) : cell :=
  match lookup_key k t with Some x => Num x | None => Num zero end.

(** [df.groupby(key)[val].sum().reset_index()]: one row per key, the key
    first and then the sum of each selected column, under a fresh
    [RangeIndex]. *)
Definition groupby_sum (df : frame) (key val : string) : outcome frame :=
  obind (grouper df key) (fun ks =>
  obind (select_values df val) (fun js =>
  obind (mapM (fun j => mapM summand (column j df)) js) (fun vss =>
  match map (sum_table ks) vss with
  | [] => Ok (mkFrame [key] None [])
  | t :: ts =>
      Ok (mkFrame (key :: map (fun _ => val) js) None
            (number_rows 0
               (map (fun kt => fst kt :: Num (snd kt)
                                 :: map (total_cell (fst kt)) ts) t)))
  end))).

Definition pushv (vs : list num) (v : option num) : list num :=
  match v with Some x => vs ++ [x] | None => vs end.

Fixpoint group_push (k : cell) (v : option num) (acc : list (cell * list num))
  : list (cell * list num) :=
  match acc with
  | [] => [(k, pushv [] v)]
  | (k', vs) :: acc' =>
      if cell_eqb k k' then (k', pushv vs v) :: acc'
      else (k', vs) :: group_push k v acc'
  end.

Definition group_values (kvs : list (cell * option num)) : list (cell * list num) :=
  fold_left
    (fun acc kv => if isnull (fst kv) then acc else group_push (fst kv) (snd kv) acc)
    kvs [].

Definition values_table (ks : list cell) (vs : list (option num))
  : list (cell * list num) :=
  sort_keys (group_values (combine ks vs)).

(** The aggregate of a group; of a group with no value it is [NaN]. *)
Definition agg_cell (f : list num -> num) (vs : list num) : cell :=
  match vs with [] => Null | _ :: _ => Num (f vs) end.

Definition mean_median_cells (k : cell) (t : list (cell * list num)) : list cell :=
  match lookup_key k t with
  | Some vs => [agg_cell mean vs; agg_cell median vs]
  | None => [Null; Null]
  end.

(** [df.groupby(key)[val].agg(["mean", "median"]).reset_index()]. *)
Definition groupby_mean_median (df : frame) (key val : string) : outcome frame :=
  obind (grouper df key) (fun ks =>
  obind (select_values df val) (fun js =>
  obind (mapM (fun j => mapM summand (column j df)) js) (fun vss =>
  match map (values_table ks) vss with
  | [] => Ok (mkFrame [key] None [])
  | t :: ts =>
      Ok (mkFrame (key :: flat_map (fun _ => ["mean"; "median"]) js) None
            (number_rows 0
               (map (fun kt => fst kt :: agg_cell mean (snd kt) :: agg_cell median (snd kt)
                                 :: flat_map (fun t' => mean_median_cells (fst kt) t') ts) t)))
  end))).

(** [df.columns = names]. *)
Definition set_columns (df : frame) (names : list string) : outcome frame :=
  if Nat.eqb (List.length names) (List.length (columns df))
  then Ok (mkFrame names (index_name df) (rows df))
  else Raise (ValueError "Length mismatch").

(** [series.dt.strftime("%Y-%m")] on the periods of a column. *)
Definition strftime1 (c : cell) : outcome cell :=
  match c with
  | Period p => Ok (Str (strftime_Ym p))
  | Null => Ok Null
  | _ => Raise (AttributeError "Can only use .dt accessor with datetimelike values")
  end.

Definition dt_strftime_Ym (arg : selection) : outcome (list cell) :=
  match arg with
  | Series vs => mapM strftime1 vs
  | SubFrame _ => Raise (AttributeError "'DataFrame' object has no attribute 'dt'")
  end.

End Pandas.
End pd.

(* ================================================================== *)
(** * The Google Sheets client

    The reader talks to the network through three calls.  What they answer
    is the environment of the program: loading the service-account file,
    building the service, and executing the request for a range.  The
    answer of [execute] is the "values" entry of the returned dictionary,
    when it has one. *)
Inductive credentials : Type :=
| Credentials (file : string) (scopes : list string).

Inductive service : Type :=
| Resource (name version : string) (creds : credentials).

Record google_api : Type := {
  from_service_account_file : string -> list string -> outcome credentials;
  build : string -> string -> credentials -> outcome service;
  execute : service -> string -> string -> outcome (option (list (list string)))
}.

(* ================================================================== *)
(** * data_reader.py *)
Module GoogleSheetsReader.
Section Reader.

Context {Sc : Scalars}.
Variable api : google_api.

Record t : Type := mk {
  credentials_file : string;
  spreadsheet_id : string;
  sheet_range : string;
  spreadsheet_service : option service;
  data : option frame
}.

Definition set_spreadsheet_service (s : option service) : M t unit :=
  (self <- get_self ;;
   set_self (mk (credentials_file self) (spreadsheet_id self) (sheet_range self)
               s (data self)))%py.

Definition set_data (d : option frame) : M t unit :=
  (self <- get_self ;;
   set_self (mk (credentials_file self) (spreadsheet_id self) (sheet_range self)
               (spreadsheet_service self) d))%py.

Definition _authorize : M t service :=
  let scope := ["https://www.googleapis.com/auth/spreadsheets"] in
  try_except
    (self <- get_self ;;
     creds <- lift (from_service_account_file api (credentials_file self) scope) ;;
     logging INFO "Credentials successfully loaded." ;;;
     lift (build api "sheets" "v4" creds))%py
    (fun e =>
       logging ERROR (String.append "Failed to load credentials: " (exn_str e)) ;;;
       raise e)%py.

Definition _get_data : M t frame :=
  try_except
    (self <- get_self ;;
     sheet <- match spreadsheet_service self with
              | None =>
                  s <- _authorize ;;
                  set_spreadsheet_service (Some s) ;;;
                  ret s
              | Some s => ret s
              end ;;
     self <- get_self ;;
     result <- lift (execute api sheet (spreadsheet_id self) (sheet_range self)) ;;
     let values := match result with Some v => v | None => [] end in
     match values with
     | [] =>
         logging WARNING "No data found in the specified range." ;;;
         ret pd.empty
     | header :: body =>
         df <- lift (pd.DataFrame body header) ;;
         logging INFO "Data successfully retrieved from Google Sheets." ;;;
         ret df
     end)%py
    (fun e =>
       logging ERROR
         (String.append "Failed to retrieve data from Google Sheets: " (exn_str e)) ;;;
       ret pd.empty)%py.

Definition __post_init__ : M t unit :=
  try_except
    (s <- _authorize ;;
     set_spreadsheet_service (Some s) ;;;
     logging INFO "Authorization successful." ;;;
     df <- _get_data ;;
     set_data (Some df))%py
    (fun e =>
       logging ERROR
         (String.append "Failed to authorize Google Sheets API: " (exn_str e)) ;;;
       raise e)%py.

(** The call [GoogleSheetsReader(credentials_file, spreadsheet_id,
    sheet_range)]: the generated [__init__] stores the fields, with no
    service and no data, and runs [__post_init__]; the caller gets the
    object unless that raised. *)
Definition new (credentials_file spreadsheet_id sheet_range : string)
    (log : list log_entry) : outcome t * list log_entry :=
  match __post_init__ (mk credentials_file spreadsheet_id sheet_range None None, log) with
  | (Ok _, (self, log')) => (Ok self, log')
  | (Raise e, (_, log')) => (Raise e, log')
  end.

End Reader.
End GoogleSheetsReader.

(** What the argument of [DataProcessor(...)] can be, as far as
    [isinstance] tells. *)
Inductive object {Sc : Scalars} : Type :=
| reader_object (r : GoogleSheetsReader.t)
| other_object.

(** The object [o] once the frame its [data] is bound to was changed in
    place, to [df]; its other attributes are as they were. *)
Definition holding {Sc : Scalars} (o : object) (df : frame) : object :=
  match o with
  | reader_object r =>
      reader_object
        (GoogleSheetsReader.mk (GoogleSheetsReader.credentials_file r)
           (GoogleSheetsReader.spreadsheet_id r) (GoogleSheetsReader.sheet_range r)
           (GoogleSheetsReader.spreadsheet_service r) (Some df))
  | other_object => other_object
  end.

Fixpoint for_in {S A : Type} (l : list A) (body : A -> M S unit) : M S unit :=
  match l with
  | [] => ret tt
  | x :: l' => (body x ;;; for_in l' body)%py
  end.

(* ================================================================== *)
(** * data_processor.py *)
Module DataProcessor.
Section Processor.

Context {Sc : Scalars} {Un : Unspecified Sc}.

(** [data] is declared with [init=False]: it is unset until
    [__post_init__] binds it, to the frame [sheets_reader.data] is bound
    to.  No method binds either attribute again, and every change of the
    table is made in place, so from then on [self.data] and
    [self.sheets_reader.data] are one object.  The model keeps that
    frame in one place, with the reader, and records of [data] whether
    it is bound. *)
Record t : Type := mk {
  sheets_reader : object;
  data_bound : bool
}.

(** What [self.data] is bound to. *)
Definition data (self : t) : option frame :=
  match sheets_reader self, data_bound self with
  | reader_object r, true => GoogleSheetsReader.data r
  | _, _ => None
  end.

(** The processor once its table was changed in place, to [df]: the
    reader it holds sees the change. *)
Definition with_table (self : t) (df : frame) : t :=
  mk (holding (sheets_reader self) df) (data_bound self).

(** [self.data] where a frame is needed: an attribute that is unset, or
    [None], has no columns. *)
Definition the_data : M t frame :=
  (self <- get_self ;;
   match data self with
   | Some df => ret df
   | None => raise (AttributeError "data")
   end)%py.

(** A change of the table in place ([self.data[col] = ...], and the
    calls with [inplace=True]), after which it is [df]. *)
Definition set_data (df : frame) : M t unit :=
  (self <- get_self ;;
   set_self (with_table self df))%py.

Definition _check_and_convert_data_types : M t unit :=
  (df <- the_data ;;
   (if pd.contains "date" df
    then
      col <- lift (pd.getitem df "date") ;;
      dates <- lift (pd.to_datetime col pd.errors_coerce) ;;
      set_data (pd.setitem df "date" (map pd.of_datetime dates))
    else ret tt) ;;;
   let numeric_cols := ["sum rub"; "sum currency"] in
   for_in numeric_cols (fun col =>
     df <- the_data ;;
     if pd.contains col df
     then
       values <- lift (pd.getitem df col) ;;
       numbers <- lift (pd.to_numeric values) ;;
       set_data (pd.setitem df col (map pd.of_numeric numbers))
     else ret tt) ;;;
   logging INFO "Data types checked and converted where necessary.")%py.

Definition _replace_nan : M t unit :=
  (df <- the_data ;;
   set_data (pd.fillna0 df) ;;;
   logging INFO "NaN values replaced with zeros in the DataFrame.")%py.

Definition __post_init__ : M t unit :=
  (self <- get_self ;;
   match sheets_reader self with
   | other_object =>
       logging ERROR "Provided data must be an instance of GoogleSheetsReader." ;;;
       raise (ValueError "Invalid data type. Must be GoogleSheetsReader.")
   | reader_object r =>
       set_self (mk (sheets_reader self) true) ;;;
       _check_and_convert_data_types ;;;
       _replace_nan
   end)%py.

(** The call [DataProcessor(sheets_reader)].  The caller gets the
    processor unless [__post_init__] raised; what the reader it passed
    in then holds is in the state [__post_init__] ends in. *)
Definition new (sheets_reader : object) (log : list log_entry)
  : outcome t * list log_entry :=
  match __post_init__ (mk sheets_reader false, log) with
  | (Ok _, (self, log')) => (Ok self, log')
  | (Raise e, (_, log')) => (Raise e, log')
  end.

Definition set_index (column_name : string) : M t unit :=
  (df <- the_data ;;
   if pd.contains column_name df
   then
     df' <- lift (pd.set_index df column_name) ;;
     set_data df' ;;;
     logging INFO
       (String.append "Column '" (String.append column_name "' set as index."))
   else
     logging ERROR
       (String.append "Column '" (String.append column_name "' not found in DataFrame.")) ;;;
     raise (ValueError
       (String.append "Column '" (String.append column_name "' not found in DataFrame."))))%py.

Definition filter_by_category (category : string) : M t frame :=
  (df <- the_data ;;
   col <- lift (pd.getitem df "category") ;;
   lift (pd.getitem_mask df (pd.eq_str col category)))%py.

Definition filter_by_period (period : string) : M t frame :=
  (df <- the_data ;;
   col <- lift (pd.getitem df "period") ;;
   lift (pd.getitem_mask df (pd.eq_str col period)))%py.

Definition get_category_summary : M t frame :=
  (df <- the_data ;;
   lift (pd.groupby_sum df "category" "sum rub"))%py.

Definition get_subcategory_summary (category : string) : M t frame :=
  (filtered_data <- filter_by_category category ;;
   lift (pd.groupby_sum filtered_data "subcategory" "sum rub"))%py.

Definition get_monthly_summary : M t frame :=
  (df <- the_data ;;
   col <- lift (pd.getitem df "date") ;;
   dates <- lift (pd.to_datetime col pd.errors_raise) ;;
   set_data (pd.setitem df "month" (map pd.of_period (pd.dt_to_period_M dates))) ;;;
   df <- the_data ;;
   monthly_totals <- lift (pd.groupby_sum df "month" "sum rub") ;;
   months <- lift (pd.getitem monthly_totals "month") ;;
   formatted <- lift (pd.dt_strftime_Ym months) ;;
   ret (pd.setitem monthly_totals "month" formatted))%py.

Definition get_category_mean_median : M t frame :=
  try_except
    (df <- the_data ;;
     summary <- lift (pd.groupby_mean_median df "category" "sum rub") ;;
     summary <- lift (pd.set_columns summary
                        ["category"; "mean_expense"; "median_expense"]) ;;
     logging INFO "Calculated mean and median expenses by category." ;;;
     ret summary)%py
    (fun e =>
       logging ERROR
         (String.append "Failed to calculate mean and median expenses: " (exn_str e)) ;;;
       ret pd.empty)%py.

End Processor.
End DataProcessor.

(* ================================================================== *)
(** * Python values, Dash and Plotly

    What [visualizer.py] exchanges with Dash and Plotly: the values of a
    click and of keyword arguments, the components of the layout, and
    figures. *)

(** A value as JSON carries it.  A number with a fraction is written
    [digits * 10 ^ exponent], as its literal is. *)
#[warnings="-register-all"]
Inductive pyval : Type :=
| PNone
| PBool (b : bool)
| PInt (z : Z)
| PFloat (digits exponent : Z)
| PStr (s : string)
| PList (items : list pyval)
| PDict (items : list (string * pyval)).

(** [bool(v)], what [if v:] tests. *)
Definition truthy (v : pyval) : bool :=
  match v with
  | PNone => false
  | PBool b => b
  | PInt z => negb (Z.eqb z 0)
  | PFloat d _ => negb (Z.eqb d 0)
  | PStr s => negb (String.eqb s "")
  | PList l => match l with [] => false | _ :: _ => true end
  | PDict d => match d with [] => false | _ :: _ => true end
  end.

(** [if s:] for an [Optional[str]]. *)
Definition selected (s : option string) : option string :=
  match s with
  | Some c => if String.eqb c "" then None else Some c
  | None => None
  end.

Fixpoint lookup_item (k : string) (d : list (string * pyval)) : option pyval :=
  match d with
  | [] => None
  | (k', v) :: d' => if String.eqb k' k then Some v else lookup_item k d'
  end.

(** What the handlers subscript a value with: a string, as in
    [v["points"]], or a position from the start, as in [v[0]]. *)
Inductive key : Type :=
| Name (s : string)
| Index (n : nat).

(** A subscription that raised: the value and what it was subscripted
    with.  The class of the exception ([KeyError], [IndexError],
    [TypeError]) and its text are the interpreter's; the handlers catch
    [Exception] and print the text. *)
Inductive subscript_error : Type :=
| SubscriptError (v : pyval) (k : key)
| SliceError (v : pyval) (stop : nat).

(** What the interpreter prints: [str(e)] of such an exception, and
    [str(v)] of a value inside an f-string. *)
Class Interpreter : Type := {
  error_text : subscript_error -> string;
  repr : pyval -> string
}.

Definition py_str {Py : Interpreter} (v : pyval) : string :=
  match v with
  | PStr s => s
  | _ => repr v
  end.

(** [v[k]]: a dict is looked up by a string, a list and a string are
    indexed by a position; anything else raises. *)
Definition subscript (v : pyval) (k : key) : pyval + subscript_error :=
  match v, k with
  | PDict d, Name s =>
      match lookup_item s d with
      | Some x => inl x
      | None => inr (SubscriptError v k)
      end
  | PList l, Index n =>
      match nth_error l n with
      | Some x => inl x
      | None => inr (SubscriptError v k)
      end
  | PStr s, Index n =>
      match String.get n s with
      | Some a => inl (PStr (String a EmptyString))
      | None => inr (SubscriptError v k)
      end
  | _, _ => inr (SubscriptError v k)
  end.

(** [v[:stop]]: a prefix of a string or of a list. *)
Definition slice_to (v : pyval) (stop : nat) : pyval + subscript_error :=
  match v with
  | PStr s => inl (PStr (substring 0 stop s))
  | PList l => inl (PList (firstn stop l))
  | _ => inr (SliceError v stop)
  end.

Definition sbind {A B : Type} (r : A + subscript_error) (k : A -> B + subscript_error)
  : B + subscript_error :=
  match r with
  | inl a => k a
  | inr e => inr e
  end.

Section Components.

Context {Sc : Scalars}.

(** One entry of the [options] of a dropdown. *)
Record dropdown_option : Type := mkOption {
  option_label : cell;
  option_value : cell
}.

(** The components of [dash.html] and [dash.dcc] the layout is made of. *)
#[warnings="-register-all"]
Inductive component : Type :=
| Div (children : list component) (className : string)
| H1 (children : string) (className : string)
| Dropdown (id : string) (options : list dropdown_option) (placeholder : string)
    (className : string)
| Graph (id : string).

(** [Output(id, property)] and [Input(id, property)]. *)
Record dependency : Type := mkDependency {
  component_id : string;
  component_property : string
}.

(** [Series.unique()]: the values in the order of their first
    appearance.  A frame has no such method. *)
Fixpoint unique_from (seen : list cell) (vs : list cell) : list cell :=
  match vs with
  | [] => []
  | v :: vs' =>
      if existsb (cell_eqb v) seen then unique_from seen vs'
      else v :: unique_from (v :: seen) vs'
  end.

Definition unique (arg : pd.selection) : outcome (list cell) :=
  match arg with
  | pd.Series vs => Ok (unique_from [] vs)
  | pd.SubFrame _ => Raise (AttributeError "'DataFrame' object has no attribute 'unique'")
  end.

(** [df.empty]: no columns or no rows. *)
Definition is_empty (df : frame) : bool :=
  match columns df, rows df with
  | _ :: _, _ :: _ => false
  | _, _ => true
  end.

End Components.

(** What Plotly makes of its arguments is not code of this repository;
    the model takes figures as an interface.  [go_Figure] is
    [go.Figure()], the figure without traces. *)
Class Plotly (Sc : Scalars) : Type := {
  figure : Type;
  trace : Type;
  go_Figure : figure;
  (** [px.pie(data, names=, values=, title=, template=)] *)
  px_pie : frame -> string -> string -> string -> string -> outcome figure;
  (** [px.bar(data, x=, y=, title=, template=)] *)
  px_bar : frame -> string -> string -> string -> string -> outcome figure;
  (** [go.Bar(x=, y=, name=, marker_color=)] *)
  go_Bar : pd.selection -> pd.selection -> string -> string -> outcome trace;
  add_trace : figure -> trace -> outcome figure;
  (** [fig.update_traces] and [fig.update_layout] with their keyword
      arguments *)
  update_traces : figure -> list (string * pyval) -> outcome figure;
  update_layout : figure -> list (string * pyval) -> outcome figure
}.

(* ================================================================== *)
(** * visualizer.py *)
Module FinancialVisualizer.
Section Visualizer.

Context {Sc : Scalars} {Un : Unspecified Sc} {Pl : Plotly Sc} {Py : Interpreter}.

(** The functions [setup_callbacks] defines and hands to Dash. *)
Inductive callback_function : Type :=
| update_pie_chart_f
| update_bar_chart_f
| update_category_on_click_f
| update_period_on_click_f
| update_comparison_chart_f.

Record registration : Type := mkRegistration {
  output : dependency;
  input : dependency;
  function : callback_function
}.

(** [dash.Dash(__name__)], as far as the class uses it: the layout and
    the callbacks registered. *)
Record Dash : Type := mkDash {
  layout : option component;
  callback_map : list registration
}.

Record t : Type := mk {
  processor : DataProcessor.t;
  app : Dash
}.

(** A method of [self.processor], run on the processor the visualizer
    holds. *)
Definition on_processor {A : Type} (m : M DataProcessor.t A) : M t A :=
  fun st =>
    match m (processor (fst st), snd st) with
    | (o, (dp, log)) => (o, (mk dp (app (fst st)), log))
    end.

Definition set_layout (c : component) : M t unit :=
  (self <- get_self ;;
   set_self (mk (processor self) (mkDash (Some c) (callback_map (app self)))))%py.

(** The decorator [@self.app.callback(output, input)]. *)
Definition callback (o i : dependency) (f : callback_function) : M t unit :=
  (self <- get_self ;;
   set_self (mk (processor self)
               (mkDash (layout (app self))
                  (callback_map (app self) ++ [mkRegistration o i f]))))%py.

Definition Output := mkDependency.
Definition Input := mkDependency.

Definition create_graph_container (graph_id : string) : component :=
  Div [Graph graph_id] "graph-container".

Definition create_dropdown_container
    (dropdown_id : string) (options : list dropdown_option) (placeholder : string)
  : component :=
  Div [Dropdown dropdown_id options placeholder "dropdown-dark"] "dropdown-container".

(** ** The callbacks *)

Definition pie_legend : list (string * pyval) :=
  [ ("orientation", PStr "v");
    ("yanchor", PStr "top");
    ("y", PInt 1);
    ("xanchor", PStr "left");
    ("x", PFloat 11 (-1));
    ("font", PDict [("size", PInt 12)]);
    ("itemsizing", PStr "constant");
    ("title_text", PStr "Categories") ].

Definition pie_layout : list (string * pyval) :=
  [ ("margin", PDict [("t", PInt 30); ("b", PInt 30); ("l", PInt 30); ("r", PInt 180)]);
    ("height", PInt 500);
    ("legend", PDict pie_legend);
    ("showlegend", PBool true);
    ("uniformtext_minsize", PInt 10);
    ("uniformtext_mode", PStr "hide") ].

Definition pie_traces : list (string * pyval) :=
  [ ("hole", PFloat 1 (-1));
    ("marker", PDict [("line", PDict [("color", PStr "#000000");
                                      ("width", PFloat 5 (-1))])]) ].

Definition update_pie_chart (selected_category : option string) : M t figure :=
  try_except
    (fig <- match selected selected_category with
            | Some category =>
                data <- on_processor (DataProcessor.get_subcategory_summary category) ;;
                lift (px_pie data "subcategory" "sum rub"
                        (String.append "Expenses for " category) "plotly_dark")
            | None =>
                data <- on_processor DataProcessor.get_category_summary ;;
                lift (px_pie data "category" "sum rub" "Expenses by Category"
                        "plotly_dark")
            end ;;
     fig <- lift (update_traces fig [("textinfo", PStr "percent+label")]) ;;
     fig <- lift (update_layout fig pie_layout) ;;
     fig <- lift (update_traces fig pie_traces) ;;
     ret fig)%py
    (fun e =>
       logging ERROR (String.append "Failed to update pie chart: " (exn_str e)) ;;;
       ret go_Figure)%py.

Definition bar_layout : list (string * pyval) :=
  [ ("plot_bgcolor", PStr "#1f1f1f");
    ("paper_bgcolor", PStr "#1f1f1f");
    ("font_color", PStr "white") ].

Definition update_bar_chart (selected_period : option string) : M t figure :=
  try_except
    (fig <- match selected selected_period with
            | Some period =>
                data <- on_processor (DataProcessor.filter_by_period period) ;;
                data <- lift (pd.groupby_sum data "category" "sum rub") ;;
                lift (px_bar data "category" "sum rub"
                        (String.append "Expenses for " period) "plotly_dark")
            | None =>
                data <- on_processor DataProcessor.get_monthly_summary ;;
                lift (px_bar data "month" "sum rub" "Monthly Expenses" "plotly_dark")
            end ;;
     fig <- lift (update_layout fig bar_layout) ;;
     ret fig)%py
    (fun e =>
       logging ERROR (String.append "Failed to update bar chart: " (exn_str e)) ;;;
       ret go_Figure)%py.

(** The two click handlers touch neither the processor nor the app: they
    map the click to a value and log. *)
Definition update_category_on_click (clickData : pyval) (log : list log_entry)
  : pyval * list log_entry :=
  if truthy clickData
  then
    match sbind (subscript clickData (Name "points")) (fun points =>
          sbind (subscript points (Index 0)) (fun point =>
          subscript point (Name "label")))
    with
    | inl selected_category =>
        (selected_category,
         log ++ [(INFO, String.append "Selected category from pie chart: "
                          (py_str selected_category))])
    | inr e =>
        (PNone,
         log ++ [(ERROR, String.append "Failed to update category from pie chart click: "
                           (error_text e))])
    end
  else (PNone, log).

Definition update_period_on_click (clickData : pyval) (log : list log_entry)
  : pyval * list log_entry :=
  if truthy clickData
  then
    match sbind (subscript clickData (Name "points")) (fun points =>
          sbind (subscript points (Index 0)) (fun point =>
          sbind (subscript point (Name "x")) (fun selected_period =>
          slice_to selected_period 7)))
    with
    | inl formatted_period =>
        (formatted_period,
         log ++ [(INFO, String.append "Selected period from bar chart: "
                          (py_str formatted_period))])
    | inr e =>
        (PNone,
         log ++ [(ERROR, String.append "Failed to update period from bar chart click: "
                           (error_text e))])
    end
  else (PNone, log).

Definition comparison_layout : list (string * pyval) :=
  [ ("barmode", PStr "group");
    ("title", PStr "Comparison of Mean and Median Expenses by Category");
    ("xaxis_title", PStr "Category");
    ("yaxis_title", PStr "Expense (RUB)");
    ("template", PStr "plotly_dark");
    ("legend", PDict [("x", PFloat 9 (-1)); ("y", PInt 1);
                      ("traceorder", PStr "normal");
                      ("font", PDict [("size", PInt 12)])]) ].

Definition update_comparison_chart (selected_category : option string) : M t figure :=
  try_except
    (data <- on_processor DataProcessor.get_category_mean_median ;;
     let fig := go_Figure in
     x <- lift (pd.getitem data "category") ;;
     y <- lift (pd.getitem data "mean_expense") ;;
     bar <- lift (go_Bar x y "Mean Expense" "indianred") ;;
     fig <- lift (add_trace fig bar) ;;
     x <- lift (pd.getitem data "category") ;;
     y <- lift (pd.getitem data "median_expense") ;;
     bar <- lift (go_Bar x y "Median Expense" "lightsalmon") ;;
     fig <- lift (add_trace fig bar) ;;
     fig <- lift (update_layout fig comparison_layout) ;;
     ret fig)%py
    (fun e =>
       logging ERROR (String.append "Failed to update comparison chart: " (exn_str e)) ;;;
       ret go_Figure)%py.

Definition setup_callbacks : M t unit :=
  (callback (Output "category_pie_chart" "figure") (Input "category_dropdown" "value")
     update_pie_chart_f ;;;
   callback (Output "monthly_bar_chart" "figure") (Input "period_dropdown" "value")
     update_bar_chart_f ;;;
   callback (Output "category_dropdown" "value") (Input "category_pie_chart" "clickData")
     update_category_on_click_f ;;;
   callback (Output "period_dropdown" "value") (Input "monthly_bar_chart" "clickData")
     update_period_on_click_f ;;;
   callback (Output "comparison_chart" "figure") (Input "category_dropdown" "value")
     update_comparison_chart_f)%py.

(** [[{"label": v, "value": v} for v in self.processor.data[name].unique()]]. *)
Definition options_of (name : string) : M t (list dropdown_option) :=
  (df <- on_processor DataProcessor.the_data ;;
   col <- lift (pd.getitem df name) ;;
   values <- lift (unique col) ;;
   ret (map (fun v => mkOption v v) values))%py.

Definition setup_layout : M t unit :=
  (categories <- options_of "category" ;;
   periods <- options_of "period" ;;
   set_layout
     (Div [ H1 "Financial Dashboard" "header";
            Div [ create_dropdown_container "category_dropdown" categories
                    "Select a category";
                  create_dropdown_container "period_dropdown" periods
                    "Select a period" ]
                "flex-around";
            Div [ create_graph_container "category_pie_chart";
                  create_graph_container "monthly_bar_chart" ]
                "flex-container";
            Div [ create_graph_container "comparison_chart" ] "flex-container" ]
          "container") ;;;
   setup_callbacks)%py.

Definition __post_init__ : M t unit :=
  (df <- on_processor DataProcessor.the_data ;;
   (if is_empty df
    then logging WARNING "No data available for visualization."
    else logging INFO "Data loaded successfully for visualization.") ;;;
   setup_layout)%py.

(** The call [FinancialVisualizer(processor)]. *)
Definition new (processor : DataProcessor.t) (log : list log_entry)
  : outcome t * list log_entry :=
  match __post_init__ (mk processor (mkDash None []), log) with
  | (Ok _, (self, log')) => (Ok self, log')
  | (Raise e, (_, log')) => (Raise e, log')
  end.

End Visualizer.
End FinancialVisualizer.

(* ================================================================== *)
(** * An instance of the scalars: whole amounts and ISO dates

    Amounts are integers, dates are written [YYYY-MM-DD].  The instance
    runs the model on concrete sheets. *)
Module Sample.

Definition digit (a : Ascii.ascii) : option Z :=
  let n := Ascii.nat_of_ascii a in
  if andb (Nat.leb 48 n) (Nat.leb n 57) then Some (Z.of_nat (n - 48)) else None.

Fixpoint digits (s : string) (acc : Z) : option Z :=
  match s with
  | EmptyString => Some acc
  | String a s' =>
      match digit a with
      | Some d => digits s' (10 * acc + d)%Z
      | None => None
      end
  end.

Definition natural (s : string) : option Z :=
  match s with
  | EmptyString => None
  | _ => digits s 0%Z
  end.

Definition integer (s : string) : option Z :=
  match s with
  | String a s' =>
      if Ascii.eqb a (Ascii.ascii_of_nat 45)
      then option_map Z.opp (natural s')
      else natural s
  | EmptyString => None
  end.

Definition days_from_civil (y m d : Z) : Z :=
  (let y' := if m <=? 2 then y - 1 else y in
   let era := y' / 400 in
   let yoe := y' - era * 400 in
   let doy := (153 * (if 2 <? m then m - 3 else m + 9) + 2) / 5 + d - 1 in
   let doe := yoe * 365 + yoe / 4 - yoe / 100 + doy in
   era * 146097 + doe - 719468)%Z.

(** Year and month of a day counted from the epoch. *)
Definition civil_from_days (z : Z) : Z * Z :=
  (let z := z + 719468 in
   let era := z / 146097 in
   let doe := z - era * 146097 in
   let yoe := (doe - doe / 1460 + doe / 36524 - doe / 146096) / 365 in
   let doy := doe - (365 * yoe + yoe / 4 - yoe / 100) in
   let mp := (5 * doy + 2) / 153 in
   let m := if mp <? 10 then mp + 3 else mp - 9 in
   ((if m <=? 2 then yoe + era * 400 + 1 else yoe + era * 400), m))%Z.

Definition ns_per_day : Z := 86400000000000.

Definition iso_date (s : string) : option Z :=
  if andb (Nat.eqb (String.length s) 10)
          (andb (String.eqb (substring 4 1 s) "-") (String.eqb (substring 7 1 s) "-"))
  then
    match natural (substring 0 4 s), natural (substring 5 2 s), natural (substring 8 2 s) with
    | Some y, Some m, Some d =>
        if (andb (andb (1 <=? m) (m <=? 12)) (andb (1 <=? d) (d <=? 31)))%Z
        then Some (days_from_civil y m d * ns_per_day)%Z
        else None
    | _, _, _ => None
    end
  else None.

Definition month_ordinal (ns : Z) : Z :=
  (let ym := civil_from_days (ns / ns_per_day) in
   (fst ym - 1970) * 12 + (snd ym - 1))%Z.

Definition decimal_digit (d : Z) : string :=
  String (Ascii.ascii_of_nat (48 + Z.to_nat d)) EmptyString.

Definition two_digits (n : Z) : string :=
  String.append (decimal_digit (n / 10)) (decimal_digit (n mod 10)).

Definition year_month (p : Z) : string :=
  (let y := 1970 + p / 12 in
   let m := p mod 12 + 1 in
   String.append (two_digits (y / 100))
     (String.append (two_digits (y mod 100)) (String.append "-" (two_digits m))))%Z.

Definition total (l : list Z) : Z := fold_left Z.add l 0%Z.

Fixpoint insert_sorted (x : Z) (l : list Z) : list Z :=
  match l with
  | [] => [x]
  | y :: l' => if (x <=? y)%Z then x :: l else y :: insert_sorted x l'
  end.

(** Mean and median rounded down to a whole amount. *)
Definition whole_mean (l : list Z) : Z := (total l / Z.of_nat (List.length l))%Z.

Definition whole_median (l : list Z) : Z :=
  let s := fold_right insert_sorted [] l in
  let n := List.length l in
  if Nat.even n
  then ((nth (n / 2 - 1) s 0 + nth (n / 2) s 0) / 2)%Z
  else nth (n / 2) s 0%Z.

#[export] Instance scalars : Scalars := {|
  num := Z;
  num_eqb := Z.eqb;
  num_eqb_eq := Z.eqb_eq;
  num_leb := Z.leb;
  zero := 0%Z;
  add := Z.add;
  mean := whole_mean;
  median := whole_median;
  parse_numeric := integer;
  parse_datetime := iso_date;
  datetime_of_num := fun x => Some x;
  to_period_M := month_ordinal;
  strftime_Ym := year_month
|}.

(** In this instance the open corner raises. *)
#[export] Instance corners : Unspecified scalars := {|
  where_frame_mask := fun _ _ =>
    Raise (ValueError "cannot reindex on an axis with duplicate labels")
|}.

#[export] Instance exact : ExactSum scalars.
Proof.
  constructor; intros; cbn; lia.
Qed.

(** A service account that loads, and a sheet that answers [values]. *)
Definition online (values : option (list (list string))) : google_api := {|
  from_service_account_file := fun file scopes => Ok (Credentials file scopes);
  build := fun name version creds => Ok (Resource name version creds);
  execute := fun _ _ _ => Ok values
|}.

(** A credentials file that is not there. *)
Definition no_credentials : google_api := {|
  from_service_account_file := fun file _ => Raise (ApiError "No such file or directory");
  build := fun name version creds => Ok (Resource name version creds);
  execute := fun _ _ _ => Ok None
|}.

(** A request that fails on the network. *)
Definition offline : google_api := {|
  from_service_account_file := fun file scopes => Ok (Credentials file scopes);
  build := fun name version creds => Ok (Resource name version creds);
  execute := fun _ _ _ => Raise (ApiError "HttpError 503")
|}.

Definition sheet : list (list string) :=
  [ ["date"; "category"; "subcategory"; "period"; "sum rub"; "sum currency"];
    ["2024-01-15"; "food"; "groceries"; "p1"; "100"; "1"];
    ["2024-01-20"; "food"; "cafe"; "p1"; "250"; "3"];
    ["2024-02-03"; "rent"; "flat"; "p2"; "900"; "10"];
    ["not a date"; "food"; "groceries"; "p2"; "n/a"; "2"];
    ["2024-02-10"; "food"; "groceries"; "p2"; "50" ] ].

End Sample.

(* ================================================================== *)
(** * Lemmas on cells, labels and rows *)
Section Basics.

Context {Sc : Scalars}.

Lemma cell_eqb_eq (a b : cell) : cell_eqb a b = true <-> a = b.
Proof.
  destruct a, b; simpl; split; intro H;
    try discriminate; try reflexivity.
  - apply String.eqb_eq in H. now subst.
  - injection H as ->. apply String.eqb_refl.
  - apply num_eqb_eq in H. now subst.
  - injection H as ->. now apply num_eqb_eq.
  - apply Z.eqb_eq in H. now subst.
  - injection H as ->. apply Z.eqb_refl.
  - apply Z.eqb_eq in H. now subst.
  - injection H as ->. apply Z.eqb_refl.
Qed.

Lemma cell_eqb_refl (a : cell) : cell_eqb a a = true.
Proof. now apply cell_eqb_eq. Qed.

Lemma cell_eqb_neq (a b : cell) : cell_eqb a b = false <-> a <> b.
Proof.
  split.
  - intros H E. apply cell_eqb_eq in E. congruence.
  - intro H. destruct (cell_eqb a b) eqn:E; [|reflexivity].
    apply cell_eqb_eq in E. contradiction.
Qed.

Lemma cell_eqb_sym (a b : cell) : cell_eqb a b = cell_eqb b a.
Proof.
  destruct (cell_eqb a b) eqn:E.
  - apply cell_eqb_eq in E. subst. symmetry. apply cell_eqb_refl.
  - symmetry. apply cell_eqb_neq. apply cell_eqb_neq in E. congruence.
Qed.

Lemma eq_str1_cell_eqb (s : string) (c : cell) :
  pd.eq_str1 s c = cell_eqb c (Str s).
Proof. destruct c; reflexivity. Qed.

(** A boolean Series computed from the rows selects what [filter] keeps. *)
Lemma select_rows_filter (f : row -> bool) (rs : list row) :
  pd.select_rows (map f rs) rs = filter f rs.
Proof.
  induction rs as [|r rs IH]; simpl; [reflexivity|].
  destruct (f r); now rewrite IH.
Qed.

Lemma positions_from_ge (i : nat) (name : string) (cols : list string) (j : nat) :
  In j (pd.positions_from i name cols) -> i <= j.
Proof.
  revert i. induction cols as [|c cols IH]; simpl; intros i H; [contradiction|].
  destruct (String.eqb c name).
  - destruct H as [H|H]; [lia|]. apply IH in H. lia.
  - apply IH in H. lia.
Qed.

Lemma positions_from_nil (i : nat) (name : string) (cols : list string) :
  pd.positions_from i name cols = [] <-> ~ In name cols.
Proof.
  revert i. induction cols as [|c cols IH]; simpl; intro i.
  - tauto.
  - destruct (String.eqb c name) eqn:E.
    + apply String.eqb_eq in E. split; [discriminate|]. intro H. exfalso. auto.
    + apply String.eqb_neq in E. rewrite IH. tauto.
Qed.

Lemma positions_nil (name : string) (cols : list string) :
  pd.positions name cols = [] <-> ~ In name cols.
Proof. apply positions_from_nil. Qed.

Lemma contains_In (name : string) (df : frame) :
  pd.contains name df = true <-> In name (columns df).
Proof.
  unfold pd.contains. rewrite existsb_exists. split.
  - intros [x [H E]]. apply String.eqb_eq in E. now subst.
  - intro H. exists name. split; [assumption|apply String.eqb_refl].
Qed.

Lemma contains_positions (name : string) (df : frame) :
  pd.contains name df = false <-> pd.positions name (columns df) = [].
Proof.
  rewrite positions_nil, <- contains_In.
  destruct (pd.contains name df); split; congruence.
Qed.


Lemma mapM_length {A B : Type} (f : A -> outcome B) (l : list A) (l' : list B) :
  mapM f l = Ok l' -> List.length l' = List.length l.
Proof.
  revert l'. induction l as [|x l IH]; simpl; intros l' H.
  - injection H as <-. reflexivity.
  - destruct (f x); simpl in H; [|discriminate].
    destruct (mapM f l); simpl in H; [|discriminate].
    injection H as <-. simpl. f_equal. now apply IH.
Qed.

End Basics.

(* ================================================================== *)
(** * Running a method body *)
Section Running.

Context {Sc : Scalars}.

Lemma bind_Ok {S A B : Type} (m : M S A) (k : A -> M S B) st a st' :
  m st = (Ok a, st') -> bind m k st = k a st'.
Proof. intro H. unfold bind. now rewrite H. Qed.

Lemma bind_Raise {S A B : Type} (m : M S A) (k : A -> M S B) st e st' :
  m st = (Raise e, st') -> bind m k st = (Raise e, st').
Proof. intro H. unfold bind. now rewrite H. Qed.

Lemma bind_lift {S A B : Type} (o : outcome A) (k : A -> M S B) st :
  bind (lift o) k st = match o with Ok a => k a st | Raise e => (Raise e, st) end.
Proof. unfold bind, lift. now destruct o. Qed.

Lemma bind_lift_lift {S A B : Type} (o : outcome A) (f : A -> outcome B)
    (st : S * list log_entry) :
  bind (lift o) (fun a => lift (f a)) st = lift (obind o f) st.
Proof. unfold bind, lift. now destruct o. Qed.

Lemma the_data_Some (dp : DataProcessor.t) (log : list log_entry) (df : frame) :
  DataProcessor.data dp = Some df ->
  DataProcessor.the_data (dp, log) = (Ok df, (dp, log)).
Proof.
  intro H. unfold DataProcessor.the_data, bind, get_self. cbn [fst]. now rewrite H.
Qed.

Lemma the_data_None (dp : DataProcessor.t) (log : list log_entry) :
  DataProcessor.data dp = None ->
  DataProcessor.the_data (dp, log) = (Raise (AttributeError "data"), (dp, log)).
Proof.
  intro H. unfold DataProcessor.the_data, bind, get_self. cbn [fst]. now rewrite H.
Qed.

(** A processor that has a table holds a reader, whose table it is. *)
Lemma data_inv (dp : DataProcessor.t) (df : frame) :
  DataProcessor.data dp = Some df ->
  exists r,
    dp = DataProcessor.mk (reader_object r) true
    /\ GoogleSheetsReader.data r = Some df.
Proof.
  destruct dp as [[r|] [|]]; cbn; try discriminate. intro H. now exists r.
Qed.

Lemma data_with_table (dp : DataProcessor.t) (df0 df : frame) :
  DataProcessor.data dp = Some df0 ->
  DataProcessor.data (DataProcessor.with_table dp df) = Some df.
Proof.
  intro H. destruct (data_inv dp df0 H) as [r [-> _]]. reflexivity.
Qed.

Lemma with_table_twice (dp : DataProcessor.t) (df df' : frame) :
  DataProcessor.with_table (DataProcessor.with_table dp df) df'
  = DataProcessor.with_table dp df'.
Proof. now destruct dp as [[r|] b]. Qed.

Lemma with_table_same (dp : DataProcessor.t) (df : frame) :
  DataProcessor.data dp = Some df -> DataProcessor.with_table dp df = dp.
Proof.
  intro H. destruct (data_inv dp df H) as [r [-> Hr]].
  destruct r as [cf sid rng svc d]. cbn in Hr. subst d. reflexivity.
Qed.

Lemma sheets_reader_with_table (dp : DataProcessor.t) (df : frame) :
  DataProcessor.sheets_reader (DataProcessor.with_table dp df)
  = holding (DataProcessor.sheets_reader dp) df.
Proof. reflexivity. Qed.

Lemma set_data_run (dp : DataProcessor.t) (log : list log_entry) (df : frame) :
  DataProcessor.set_data df (dp, log) = (Ok tt, (DataProcessor.with_table dp df, log)).
Proof. reflexivity. Qed.

End Running.

(* ================================================================== *)
(** * The filters *)
Section Filters.

Context {Sc : Scalars} {Un : Unspecified Sc}.

(** The rows of [df] whose cell in column [i] is the string [s]. *)
Definition matching_rows (i : nat) (s : string) (df : frame) : list row :=
  filter (fun r => cell_eqb (nth i (cells r) Null) (Str s)) (rows df).

Lemma filter_on_label (df : frame) (name s : string) (i : nat) :
  pd.positions name (columns df) = [i] ->
  obind (pd.getitem df name) (fun col => pd.getitem_mask df (pd.eq_str col s))
  = Ok (mkFrame (columns df) (index_name df) (matching_rows i s df)).
Proof.
  intro H. unfold pd.getitem. rewrite H. simpl. unfold pd.column.
  rewrite map_map. unfold matching_rows.
  rewrite <- (select_rows_filter (fun r => cell_eqb (nth i (cells r) Null) (Str s))).
  rewrite (map_ext _ (fun r => cell_eqb (nth i (cells r) Null) (Str s))); [reflexivity|].
  intro r. apply eq_str1_cell_eqb.
Qed.

Lemma filter_by_category_Ok
    (dp : DataProcessor.t) (df : frame) (log : list log_entry) (arg : string) (i : nat) :
  DataProcessor.data dp = Some df ->
  pd.positions "category" (columns df) = [i] ->
  DataProcessor.filter_by_category arg (dp, log)
  = (Ok (mkFrame (columns df) (index_name df) (matching_rows i arg df)), (dp, log)).
Proof.
  intros Hd Hp. unfold DataProcessor.filter_by_category.
  rewrite (bind_Ok _ _ _ _ _ (the_data_Some dp log df Hd)).
  rewrite bind_lift_lift. unfold lift.
  now rewrite (filter_on_label df _ arg i Hp).
Qed.

(** C5. On a table in which the label [category] (for [filter_by_period]:
    [period]) names one column, the filter returns the table's columns and
    index with exactly the rows whose cell in that column is the argument,
    in their order; it raises nothing and leaves the processor as it
    was. *)
Theorem filters_return_matching_rows
    (dp : DataProcessor.t) (df : frame) (log : list log_entry)
    (label arg : string) (i : nat) :
  DataProcessor.data dp = Some df ->
  pd.positions label (columns df) = [i] ->
  (label = "category" ->
   DataProcessor.filter_by_category arg (dp, log)
   = (Ok (mkFrame (columns df) (index_name df) (matching_rows i arg df)), (dp, log)))
  /\
  (label = "period" ->
   DataProcessor.filter_by_period arg (dp, log)
   = (Ok (mkFrame (columns df) (index_name df) (matching_rows i arg df)), (dp, log))).
Proof.
  intros Hd Hp.
  split; intros ->;
    [unfold DataProcessor.filter_by_category|unfold DataProcessor.filter_by_period];
    rewrite (bind_Ok _ _ _ _ _ (the_data_Some dp log df Hd));
    rewrite bind_lift_lift; unfold lift;
    now rewrite (filter_on_label df _ arg i Hp).
Qed.

End Filters.

(* ================================================================== *)
(** * The reader *)
Section ReaderFacts.

Context {Sc : Scalars}.
Variable api : google_api.

Definition scope : list string := ["https://www.googleapis.com/auth/spreadsheets"].

(** What the two calls of [_authorize] answer for a credentials file. *)
Definition authorize_outcome (credentials_file : string) : outcome service :=
  obind (from_service_account_file api credentials_file scope)
        (build api "sheets" "v4").

Lemma authorize_Ok (self : GoogleSheetsReader.t) (log : list log_entry) (svc : service) :
  authorize_outcome (GoogleSheetsReader.credentials_file self) = Ok svc ->
  GoogleSheetsReader._authorize api (self, log)
  = (Ok svc, (self, log ++ [(INFO, "Credentials successfully loaded.")])).
Proof.
  unfold authorize_outcome, scope, GoogleSheetsReader._authorize, try_except, bind,
    get_self, lift, logging.
  simpl.
  destruct (from_service_account_file api _ _) as [creds|e]; simpl; [|discriminate].
  intros ->. reflexivity.
Qed.

Lemma authorize_Raise (self : GoogleSheetsReader.t) (log : list log_entry) (e : exn) :
  authorize_outcome (GoogleSheetsReader.credentials_file self) = Raise e ->
  exists log',
    GoogleSheetsReader._authorize api (self, log) = (Raise e, (self, log'))
    /\ In (ERROR, String.append "Failed to load credentials: " (exn_str e)) log'.
Proof.
  unfold authorize_outcome, scope, GoogleSheetsReader._authorize, try_except, bind,
    get_self, lift, logging, raise.
  simpl.
  destruct (from_service_account_file api _ _) as [creds|e']; simpl.
  - intros ->. simpl. eexists. split; [reflexivity|].
    apply in_or_app. right. now left.
  - intros [= ->]. eexists. split; [reflexivity|].
    apply in_or_app. right. now left.
Qed.

(** The table [_get_data] returns once the service is there, by what
    [execute] answers. *)
Definition fetched (result : outcome (option (list (list string)))) : frame :=
  match result with
  | Ok (Some (header :: body)) =>
      match pd.DataFrame body header with
      | Ok df => df
      | Raise _ => pd.empty
      end
  | Ok (Some []) | Ok None | Raise _ => pd.empty
  end.

Lemma get_data_run (self : GoogleSheetsReader.t) (log : list log_entry) (svc : service) :
  GoogleSheetsReader.spreadsheet_service self = Some svc ->
  exists entry,
    GoogleSheetsReader._get_data api (self, log)
    = (Ok (fetched (execute api svc (GoogleSheetsReader.spreadsheet_id self)
                      (GoogleSheetsReader.sheet_range self))),
       (self, log ++ [entry]))
    /\ (forall e,
          execute api svc (GoogleSheetsReader.spreadsheet_id self)
            (GoogleSheetsReader.sheet_range self) = Raise e ->
          entry = (ERROR, String.append "Failed to retrieve data from Google Sheets: "
                            (exn_str e)))
    /\ (forall values,
          execute api svc (GoogleSheetsReader.spreadsheet_id self)
            (GoogleSheetsReader.sheet_range self) = Ok values ->
          values = None \/ values = Some [] ->
          entry = (WARNING, "No data found in the specified range."))
    /\ (forall header body e,
          execute api svc (GoogleSheetsReader.spreadsheet_id self)
            (GoogleSheetsReader.sheet_range self) = Ok (Some (header :: body)) ->
          pd.DataFrame body header = Raise e ->
          entry = (ERROR, String.append "Failed to retrieve data from Google Sheets: "
                            (exn_str e))).
Proof.
  intro Hs.
  unfold GoogleSheetsReader._get_data, try_except, bind, get_self, lift, logging, ret.
  simpl. rewrite Hs. simpl.
  destruct (execute api svc _ _) as [[[|header body]|]|e]; simpl;
    [|destruct (pd.DataFrame body header) as [df|e] eqn:E; simpl| |];
    (eexists; split; [reflexivity|]; repeat split; intros;
     repeat match goal with
            | H : Ok _ = Ok _ |- _ => injection H as H; subst
            | H : Raise _ = Raise _ |- _ => injection H as H; subst
            | H : Some _ = Some _ |- _ => injection H as H; subst
            | H : _ :: _ = _ :: _ |- _ => injection H as H; subst
            end;
     try congruence; intuition congruence).
Qed.

Lemma new_authorized (cf sid rng : string) (log : list log_entry) (svc : service) :
  authorize_outcome cf = Ok svc ->
  exists entry,
    GoogleSheetsReader.new api cf sid rng log
    = (Ok (GoogleSheetsReader.mk cf sid rng (Some svc)
             (Some (fetched (execute api svc sid rng)))),
       ((log ++ [(INFO, "Credentials successfully loaded.")])
          ++ [(INFO, "Authorization successful.")]) ++ [entry])
    /\ (forall e,
          execute api svc sid rng = Raise e ->
          entry = (ERROR, String.append "Failed to retrieve data from Google Sheets: "
                            (exn_str e)))
    /\ (forall values,
          execute api svc sid rng = Ok values ->
          values = None \/ values = Some [] ->
          entry = (WARNING, "No data found in the specified range."))
    /\ (forall header body e,
          execute api svc sid rng = Ok (Some (header :: body)) ->
          pd.DataFrame body header = Raise e ->
          entry = (ERROR, String.append "Failed to retrieve data from Google Sheets: "
                            (exn_str e))).
Proof.
  intro Ha.
  set (self0 := GoogleSheetsReader.mk cf sid rng None None).
  set (self1 := GoogleSheetsReader.mk cf sid rng (Some svc) None).
  destruct (get_data_run self1
              ((log ++ [(INFO, "Credentials successfully loaded.")])
                 ++ [(INFO, "Authorization successful.")]) svc eq_refl)
    as [entry [Hrun Hentry]].
  exists entry. split; [|exact Hentry].
  unfold GoogleSheetsReader.new, GoogleSheetsReader.__post_init__, try_except.
  fold self0.
  rewrite (bind_Ok _ _ _ _ _ (authorize_Ok self0 log svc Ha)).
  unfold GoogleSheetsReader.set_spreadsheet_service, GoogleSheetsReader.set_data.
  unfold bind at 1 2 3. unfold get_self at 1, set_self at 1, logging at 1.
  cbn [fst snd GoogleSheetsReader.credentials_file GoogleSheetsReader.spreadsheet_id
       GoogleSheetsReader.sheet_range GoogleSheetsReader.data self0].
  fold self1.
  rewrite (bind_Ok _ _ _ _ _ Hrun).
  reflexivity.
Qed.

Lemma new_unauthorized (cf sid rng : string) (log : list log_entry) (e : exn) :
  authorize_outcome cf = Raise e ->
  exists log',
    GoogleSheetsReader.new api cf sid rng log = (Raise e, log')
    /\ In (ERROR, String.append "Failed to authorize Google Sheets API: " (exn_str e)) log'.
Proof.
  intro Ha.
  destruct (authorize_Raise (GoogleSheetsReader.mk cf sid rng None None) log e Ha)
    as [log1 [Hrun _]].
  unfold GoogleSheetsReader.new, GoogleSheetsReader.__post_init__, try_except.
  rewrite (bind_Raise _ _ _ _ _ Hrun).
  unfold bind, logging, raise. cbn [fst snd].
  eexists. split; [reflexivity|].
  apply in_or_app. right. now left.
Qed.

End ReaderFacts.

Section ReaderTheorems.

Context {Sc : Scalars}.
Variable api : google_api.

(** C1, as the code has it.  A failure of the authorization is logged and
    raised again to the caller, who gets no reader.  Once the service is
    authorized, constructing the reader raises nothing: a request that
    fails, a range with no values and a value list of which no frame can
    be made each leave the empty table as the reader's data, and are
    logged. *)
Theorem reader_swallows_fetch_failures_only
    (cf sid rng : string) (log : list log_entry) :
  match authorize_outcome api cf with
  | Raise e =>
      exists log',
        GoogleSheetsReader.new api cf sid rng log = (Raise e, log')
        /\ In (ERROR, String.append "Failed to authorize Google Sheets API: " (exn_str e))
              log'
  | Ok svc =>
      exists r log',
        GoogleSheetsReader.new api cf sid rng log = (Ok r, log')
        /\ (forall e,
              execute api svc sid rng = Raise e ->
              GoogleSheetsReader.data r = Some pd.empty
              /\ In (ERROR, String.append "Failed to retrieve data from Google Sheets: "
                              (exn_str e)) log')
        /\ (execute api svc sid rng = Ok None \/ execute api svc sid rng = Ok (Some []) ->
            GoogleSheetsReader.data r = Some pd.empty
            /\ In (WARNING, "No data found in the specified range.") log')
        /\ (forall header body e,
              execute api svc sid rng = Ok (Some (header :: body)) ->
              pd.DataFrame body header = Raise e ->
              GoogleSheetsReader.data r = Some pd.empty
              /\ In (ERROR, String.append "Failed to retrieve data from Google Sheets: "
                              (exn_str e)) log')
  end.
Proof.
  destruct (authorize_outcome api cf) as [svc|e] eqn:Ha.
  - destruct (new_authorized api cf sid rng log svc Ha) as [entry [Hnew [H1 [H2 H3]]]].
    eexists. eexists. split; [exact Hnew|].
    cbn [GoogleSheetsReader.data].
    split; [|split].
    + intros e He. split.
      * rewrite He. reflexivity.
      * apply in_or_app. right. left. now apply H1.
    + intros [He|He]; (split; [rewrite He; reflexivity|]);
        apply in_or_app; right; left; eapply H2; eauto.
    + intros header body e He Hd. split.
      * rewrite He. simpl. now rewrite Hd.
      * apply in_or_app. right. left. eapply H3; eauto.
  - now apply new_unauthorized.
Qed.

Lemma width_rectangular (body : list (list string)) (n : nat) :
  Forall (fun r => List.length r = n) body -> body <> [] -> pd.width body = n.
Proof.
  induction 1 as [|r body Hr Hb IH]; intro Hne; [congruence|].
  simpl. destruct body as [|r' body'].
  - simpl. lia.
  - rewrite IH by discriminate. lia.
Qed.

Lemma pad_full (w : nat) (r : list cell) : List.length r = w -> pd.pad w r = r.
Proof.
  intros <-. unfold pd.pad. rewrite Nat.sub_diag. simpl. apply app_nil_r.
Qed.

Lemma cells_number_rows (i : nat) (data : list (list cell)) :
  map cells (pd.number_rows i data) = data.
Proof.
  revert i. induction data as [|r data IH]; intro i; simpl; [reflexivity|].
  now rewrite IH.
Qed.

Lemma label_number_rows (i : nat) (data : list (list cell)) :
  map label (pd.number_rows i data) = map Pos (seq i (List.length data)).
Proof.
  revert i. induction data as [|r data IH]; intro i; simpl; [reflexivity|].
  now rewrite IH.
Qed.

Lemma DataFrame_rectangular (body : list (list string)) (header : list string) :
  Forall (fun r => List.length r = List.length header) body ->
  pd.DataFrame body header
  = Ok (mkFrame header None (pd.number_rows 0 (map (map Str) body))).
Proof.
  intro H. unfold pd.DataFrame. destruct body as [|r body]; [reflexivity|].
  rewrite (width_rectangular _ _ H) by discriminate.
  rewrite Nat.eqb_refl. do 3 f_equal.
  apply map_ext_in. intros x Hx. apply pad_full.
  rewrite length_map. rewrite Forall_forall in H. now apply H.
Qed.

(** C8. When the service is authorized and the request answers a value
    list whose first row is [header] and whose other rows all have the
    length of [header], the reader is constructed and its data has
    [header] as column labels and the other rows, in their order, as rows,
    under the default index. *)
Theorem first_row_is_header
    (cf sid rng : string) (log : list log_entry) (svc : service)
    (header : list string) (body : list (list string)) :
  authorize_outcome api cf = Ok svc ->
  execute api svc sid rng = Ok (Some (header :: body)) ->
  Forall (fun r => List.length r = List.length header) body ->
  exists r log' df,
    GoogleSheetsReader.new api cf sid rng log = (Ok r, log')
    /\ GoogleSheetsReader.data r = Some df
    /\ columns df = header
    /\ map cells (rows df) = map (map Str) body
    /\ index_name df = None
    /\ map label (rows df) = map Pos (seq 0 (List.length body)).
Proof.
  intros Ha He Hrect.
  destruct (new_authorized api cf sid rng log svc Ha) as [entry [Hnew _]].
  rewrite He in Hnew. cbn [fetched] in Hnew.
  rewrite (DataFrame_rectangular _ _ Hrect) in Hnew.
  eexists. eexists. eexists. split; [exact Hnew|].
  cbn [GoogleSheetsReader.data].
  split; [reflexivity|]. cbn [columns rows index_name].
  split; [reflexivity|].
  split; [apply cells_number_rows|]. split; [reflexivity|].
  rewrite label_number_rows. now rewrite length_map.
Qed.

End ReaderTheorems.

(* ================================================================== *)
(** * Construction of the processor *)
Section Construction.

Context {Sc : Scalars}.

(** A function of label and cell applied along a row. *)
Fixpoint zipmap (g : string -> cell -> cell) (cols : list string) (cs : list cell)
  : list cell :=
  match cols, cs with
  | c :: cols', x :: cs' => g c x :: zipmap g cols' cs'
  | _, _ => cs
  end.

(** [f] on the cells under the label [name], the other cells as they are. *)
Definition under (name : string) (f : cell -> cell) (c : string) (x : cell) : cell :=
  if String.eqb c name then f x else x.

Definition convert (name : string) (f : cell -> cell) (df : frame) : frame :=
  mkFrame (columns df) (index_name df)
    (map (fun r => mkRow (label r) (zipmap (under name f) (columns df) (cells r)))
         (rows df)).

(** What type coercion makes of a cell under a label: a date under
    [date], a number under [sum rub] and [sum currency], and nothing
    elsewhere; what is malformed becomes missing. *)
Definition coerce (name : string) (c : cell) : cell :=
  if String.eqb name "date" then pd.of_datetime (pd.to_datetime_coerce1 c)
  else if String.eqb name "sum rub" then pd.of_numeric (pd.to_numeric_coerce1 c)
  else if String.eqb name "sum currency" then pd.of_numeric (pd.to_numeric_coerce1 c)
  else c.

(** The table after coercion and filling. *)
Definition processed (df : frame) : frame :=
  mkFrame (columns df) (index_name df)
    (map (fun r => mkRow (label r) (map pd.fill0 (zipmap coerce (columns df) (cells r))))
         (rows df)).

Definition at_most_once (name : string) (df : frame) : Prop :=
  List.length (pd.positions name (columns df)) <= 1.

Lemma zipmap_absent (name : string) (f : cell -> cell) (cols : list string)
    (cs : list cell) :
  ~ In name cols -> zipmap (under name f) cols cs = cs.
Proof.
  revert cs. induction cols as [|c cols IH]; intros cs H; simpl; [now destruct cs|].
  destruct cs as [|x cs]; [reflexivity|].
  unfold under at 1. destruct (String.eqb c name) eqn:E.
  - apply String.eqb_eq in E. exfalso. apply H. now left.
  - rewrite IH; [reflexivity|]. intro G. apply H. now right.
Qed.

Lemma set_at_absent (name : string) (cols : list string) (cs : list cell) (v : cell) :
  ~ In name cols -> pd.set_at name cols cs v = cs.
Proof.
  revert cs. induction cols as [|c cols IH]; intros cs H; simpl; [now destruct cs|].
  destruct cs as [|x cs]; [reflexivity|].
  destruct (String.eqb c name) eqn:E.
  - apply String.eqb_eq in E. exfalso. apply H. now left.
  - rewrite IH; [reflexivity|]. intro G. apply H. now right.
Qed.

Lemma set_at_once (name : string) (f : cell -> cell) (cols : list string) :
  forall (i j : nat) (cs : list cell),
    pd.positions_from i name cols = [j] ->
    pd.set_at name cols cs (f (nth (j - i) cs Null)) = zipmap (under name f) cols cs.
Proof.
  induction cols as [|c cols IH]; intros i j cs H; simpl in H; [discriminate|].
  destruct cs as [|x cs]; [reflexivity|].
  simpl. unfold under at 1. destruct (String.eqb c name) eqn:E.
  - injection H as Hi Hrest. subst j. rewrite Nat.sub_diag. simpl.
    apply positions_from_nil in Hrest.
    now rewrite set_at_absent, zipmap_absent.
  - assert (G : S i <= j).
    { apply (positions_from_ge (S i) name cols). rewrite H. now left. }
    replace (j - i) with (S (j - S i)) by lia. simpl.
    f_equal. now apply IH.
Qed.

Lemma combine_map_r {A B : Type} (f : A -> B) (l : list A) :
  combine l (map f l) = map (fun x => (x, f x)) l.
Proof.
  induction l as [|x l IH]; simpl; [reflexivity|]. now rewrite IH.
Qed.

Lemma setitem_once (df : frame) (name : string) (f : cell -> cell) (j : nat) :
  pd.positions name (columns df) = [j] ->
  pd.setitem df name (map f (pd.column j df)) = convert name f df.
Proof.
  intro H. unfold pd.setitem.
  destruct (pd.contains name df) eqn:C.
  - unfold convert. f_equal. unfold pd.column. rewrite map_map.
    rewrite (combine_map_r (fun r => f (nth j (cells r) Null))). rewrite map_map.
    apply map_ext. intro r. cbn [fst snd]. f_equal.
    rewrite <- (set_at_once name f (columns df) 0 j (cells r) H).
    now rewrite Nat.sub_0_r.
  - apply contains_positions in C. congruence.
Qed.

Lemma convert_absent (name : string) (f : cell -> cell) (df : frame) :
  ~ In name (columns df) -> convert name f df = df.
Proof.
  intro H. destruct df as [cols idx rs]. unfold convert. cbn [columns index_name rows] in *.
  f_equal. rewrite <- (map_id rs) at 2. apply map_ext. intros [l cs]. cbn [label cells].
  now rewrite zipmap_absent.
Qed.

Lemma zipmap_zipmap (g h : string -> cell -> cell) (cols : list string) (cs : list cell) :
  zipmap h cols (zipmap g cols cs) = zipmap (fun c x => h c (g c x)) cols cs.
Proof.
  revert cs. induction cols as [|c cols IH]; intro cs; simpl; [now destruct cs|].
  destruct cs as [|x cs]; [reflexivity|]. simpl. now rewrite IH.
Qed.

Lemma zipmap_ext (g h : string -> cell -> cell) (cols : list string) (cs : list cell) :
  (forall c x, g c x = h c x) -> zipmap g cols cs = zipmap h cols cs.
Proof.
  intro H. revert cs. induction cols as [|c cols IH]; intro cs; simpl; [reflexivity|].
  destruct cs as [|x cs]; [reflexivity|]. now rewrite H, IH.
Qed.

Lemma coerce_under (c : string) (x : cell) :
  under "sum currency" (fun y => pd.of_numeric (pd.to_numeric_coerce1 y)) c
    (under "sum rub" (fun y => pd.of_numeric (pd.to_numeric_coerce1 y)) c
       (under "date" (fun y => pd.of_datetime (pd.to_datetime_coerce1 y)) c x))
  = coerce c x.
Proof.
  unfold under, coerce.
  destruct (String.eqb c "date") eqn:E1.
  - apply String.eqb_eq in E1. subst c. reflexivity.
  - destruct (String.eqb c "sum rub") eqn:E2.
    + apply String.eqb_eq in E2. subst c. reflexivity.
    + reflexivity.
Qed.

Lemma fillna0_converted (df : frame) :
  pd.fillna0
    (convert "sum currency" (fun y => pd.of_numeric (pd.to_numeric_coerce1 y))
       (convert "sum rub" (fun y => pd.of_numeric (pd.to_numeric_coerce1 y))
          (convert "date" (fun y => pd.of_datetime (pd.to_datetime_coerce1 y)) df)))
  = processed df.
Proof.
  unfold pd.fillna0, convert, processed. cbn [columns index_name rows].
  f_equal. rewrite !map_map. apply map_ext. intro r. cbn [label cells].
  f_equal. f_equal. rewrite !zipmap_zipmap. apply zipmap_ext. apply coerce_under.
Qed.

(** ** The coercion of one column, as a function of the table *)

Definition date_step (df : frame) : outcome frame :=
  if pd.contains "date" df
  then obind (pd.getitem df "date") (fun col =>
       obind (pd.to_datetime col pd.errors_coerce) (fun dates =>
       Ok (pd.setitem df "date" (map pd.of_datetime dates))))
  else Ok df.

Definition numeric_step (col : string) (df : frame) : outcome frame :=
  if pd.contains col df
  then obind (pd.getitem df col) (fun values =>
       obind (pd.to_numeric values) (fun numbers =>
       Ok (pd.setitem df col (map pd.of_numeric numbers))))
  else Ok df.

Definition coercion (df : frame) : outcome frame :=
  obind (date_step df) (fun df1 =>
  obind (numeric_step "sum rub" df1) (fun df2 =>
  numeric_step "sum currency" df2)).

(** The processor made of the reader [r], when the table the two share
    is [df]. *)
Definition constructed (r : GoogleSheetsReader.t) (df : frame) : DataProcessor.t :=
  DataProcessor.with_table (DataProcessor.mk (reader_object r) true) df.

Lemma constructed_same (r : GoogleSheetsReader.t) (df : frame) :
  GoogleSheetsReader.data r = Some df ->
  DataProcessor.mk (reader_object r) true = constructed r df.
Proof.
  intro H. symmetry. exact (with_table_same (DataProcessor.mk (reader_object r) true) df H).
Qed.

Lemma check_and_convert_run (r : GoogleSheetsReader.t) (df : frame) (log : list log_entry) :
  exists df',
    DataProcessor._check_and_convert_data_types (constructed r df, log)
    = match coercion df with
      | Ok df3 =>
          (Ok tt, (constructed r df3,
                   log ++ [(INFO, "Data types checked and converted where necessary.")]))
      | Raise e => (Raise e, (constructed r df', log))
      end.
Proof.
  unfold DataProcessor._check_and_convert_data_types, coercion.
  rewrite (bind_Ok _ _ _ _ _ (the_data_Some (constructed r df) log df eq_refl)).
  unfold bind at 1.
  assert (D : (if pd.contains "date" df
               then bind (lift (pd.getitem df "date")) (fun col =>
                    bind (lift (pd.to_datetime col pd.errors_coerce)) (fun dates =>
                    DataProcessor.set_data
                      (pd.setitem df "date" (map pd.of_datetime dates))))
               else ret tt) (constructed r df, log)
              = match date_step df with
                | Ok df1 => (Ok tt, (constructed r df1, log))
                | Raise e => (Raise e, (constructed r df, log))
                end).
  { unfold date_step. destruct (pd.contains "date" df); [|reflexivity].
    rewrite bind_lift. destruct (pd.getitem df "date") as [col|e]; [|reflexivity].
    cbn [obind]. rewrite bind_lift.
    destruct (pd.to_datetime col pd.errors_coerce) as [dates|e]; reflexivity. }
  rewrite D. clear D.
  destruct (date_step df) as [df1|e]; [|exists df; reflexivity].
  cbn [obind]. unfold for_in.
  assert (N : forall col d l,
             bind DataProcessor.the_data (fun df0 =>
               if pd.contains col df0
               then bind (lift (pd.getitem df0 col)) (fun values =>
                    bind (lift (pd.to_numeric values)) (fun numbers =>
                    DataProcessor.set_data
                      (pd.setitem df0 col (map pd.of_numeric numbers))))
               else ret tt) (constructed r d, l)
             = match numeric_step col d with
               | Ok d' => (Ok tt, (constructed r d', l))
               | Raise e => (Raise e, (constructed r d, l))
               end).
  { intros col d l.
    rewrite (bind_Ok _ _ _ _ _ (the_data_Some (constructed r d) l d eq_refl)).
    unfold numeric_step. destruct (pd.contains col d); [|reflexivity].
    rewrite bind_lift. destruct (pd.getitem d col) as [values|e]; [|reflexivity].
    cbn [obind]. rewrite bind_lift.
    destruct (pd.to_numeric values) as [numbers|e]; reflexivity. }
  unfold bind at 1. unfold bind at 1. rewrite N.
  destruct (numeric_step "sum rub" df1) as [df2|e]; [|exists df1; reflexivity].
  cbn [obind]. unfold bind at 1. rewrite N.
  destruct (numeric_step "sum currency" df2) as [df3|e]; [|exists df2; reflexivity].
  exists df. reflexivity.
Qed.

Lemma date_step_spec (df : frame) :
  date_step df
  = match pd.positions "date" (columns df) with
    | [] => Ok df
    | [j] => Ok (convert "date" (fun y => pd.of_datetime (pd.to_datetime_coerce1 y)) df)
    | _ => Raise (ValueError "cannot assemble with duplicate keys")
    end.
Proof.
  unfold date_step. destruct (pd.contains "date" df) eqn:C.
  - unfold pd.getitem.
    destruct (pd.positions "date" (columns df)) as [|j [|j' js]] eqn:P.
    + apply contains_positions in P. congruence.
    + cbn [obind pd.to_datetime]. f_equal. rewrite map_map. now apply setitem_once.
    + reflexivity.
  - apply contains_positions in C. now rewrite C.
Qed.

Lemma numeric_step_spec (col : string) (df : frame) :
  numeric_step col df
  = match pd.positions col (columns df) with
    | [] => Ok df
    | [j] => Ok (convert col (fun y => pd.of_numeric (pd.to_numeric_coerce1 y)) df)
    | _ => Raise (TypeError "arg must be a list, tuple, 1-d array, or Series")
    end.
Proof.
  unfold numeric_step. destruct (pd.contains col df) eqn:C.
  - unfold pd.getitem.
    destruct (pd.positions col (columns df)) as [|j [|j' js]] eqn:P.
    + apply contains_positions in P. congruence.
    + cbn [obind pd.to_numeric]. f_equal. rewrite map_map. now apply setitem_once.
    + reflexivity.
  - apply contains_positions in C. now rewrite C.
Qed.

Lemma step_at_most_once (name : string) (f : cell -> cell) (df : frame) (e : exn) :
  at_most_once name df ->
  match pd.positions name (columns df) with
  | [] => Ok df
  | [j] => Ok (convert name f df)
  | _ => Raise e
  end = Ok (convert name f df).
Proof.
  unfold at_most_once.
  destruct (pd.positions name (columns df)) as [|j [|j' js]] eqn:P; simpl; intro H.
  - apply positions_nil in P. now rewrite convert_absent.
  - reflexivity.
  - lia.
Qed.

Lemma step_several (name : string) (f : cell -> cell) (df : frame) (e : exn) :
  ~ at_most_once name df ->
  match pd.positions name (columns df) with
  | [] => Ok df
  | [j] => Ok (convert name f df)
  | _ => Raise e
  end = Raise e.
Proof.
  unfold at_most_once.
  destruct (pd.positions name (columns df)) as [|j [|j' js]] eqn:P; simpl; intro H.
  - exfalso. apply H. lia.
  - exfalso. apply H. lia.
  - reflexivity.
Qed.

(** Coercion goes through exactly when none of the three labels names
    several columns. *)
Lemma coercion_Ok (df : frame) :
  at_most_once "date" df -> at_most_once "sum rub" df -> at_most_once "sum currency" df ->
  coercion df
  = Ok (convert "sum currency" (fun y => pd.of_numeric (pd.to_numeric_coerce1 y))
          (convert "sum rub" (fun y => pd.of_numeric (pd.to_numeric_coerce1 y))
             (convert "date" (fun y => pd.of_datetime (pd.to_datetime_coerce1 y)) df))).
Proof.
  intros Hd Hr Hc. unfold coercion.
  rewrite date_step_spec, step_at_most_once by assumption. cbn [obind].
  rewrite numeric_step_spec, step_at_most_once by assumption. cbn [obind].
  rewrite numeric_step_spec, step_at_most_once by assumption. reflexivity.
Qed.

Lemma at_most_once_dec (name : string) (df : frame) :
  {at_most_once name df} + {~ at_most_once name df}.
Proof. unfold at_most_once. apply le_dec. Qed.

Lemma coercion_Raise (df : frame) :
  ~ (at_most_once "date" df /\ at_most_once "sum rub" df /\ at_most_once "sum currency" df) ->
  exists e, coercion df = Raise e.
Proof.
  intro H. unfold coercion. rewrite date_step_spec.
  destruct (at_most_once_dec "date" df) as [Hd|Hd].
  - rewrite step_at_most_once by assumption. cbn [obind].
    rewrite numeric_step_spec.
    destruct (at_most_once_dec "sum rub" df) as [Hr|Hr].
    + rewrite step_at_most_once by assumption. cbn [obind].
      rewrite numeric_step_spec.
      destruct (at_most_once_dec "sum currency" df) as [Hc|Hc].
      * exfalso. auto.
      * rewrite step_several by assumption. eauto.
    + rewrite step_several by assumption. cbn [obind]. eauto.
  - rewrite step_several by assumption. cbn [obind]. eauto.
Qed.

(** The call [DataProcessor(reader)] on a reader that holds a table. *)
Lemma new_run (r : GoogleSheetsReader.t) (df : frame) (log : list log_entry) :
  GoogleSheetsReader.data r = Some df ->
  DataProcessor.new (reader_object r) log
  = match coercion df with
    | Ok df3 =>
        (Ok (constructed r (pd.fillna0 df3)),
         (log ++ [(INFO, "Data types checked and converted where necessary.")])
           ++ [(INFO, "NaN values replaced with zeros in the DataFrame.")])
    | Raise e => (Raise e, log)
    end.
Proof.
  intro Hd. unfold DataProcessor.new, DataProcessor.__post_init__.
  unfold bind at 1. unfold get_self at 1. cbn [fst DataProcessor.sheets_reader].
  unfold bind at 1. unfold set_self at 1. cbn [snd].
  rewrite (constructed_same r df Hd).
  destruct (check_and_convert_run r df log) as [df' Hrun].
  unfold bind at 1. rewrite Hrun.
  destruct (coercion df) as [df3|e]; [|reflexivity].
  unfold DataProcessor._replace_nan.
  rewrite (bind_Ok _ _ _ _ _ (the_data_Some (constructed r df3) _ df3 eq_refl)).
  reflexivity.
Qed.

End Construction.

Section ConstructionTheorems.

Context {Sc : Scalars}.

(** A cell of the processed table against the cell it comes from: the
    value it had, the date or the number read from it, or zero; never a
    missing value. *)
Inductive filled (c0 : cell) : cell -> Prop :=
| filled_kept : c0 <> Null -> filled c0 c0
| filled_date (ns : Z) : pd.to_datetime_coerce1 c0 = Some ns -> filled c0 (Timestamp ns)
| filled_number (x : num) : pd.to_numeric_coerce1 c0 = Some x -> filled c0 (Num x)
| filled_zero : filled c0 (Num zero).

Lemma filled_fill0 (c0 : cell) : filled c0 (pd.fill0 c0).
Proof.
  destruct c0; simpl; try (apply filled_kept; discriminate). apply filled_zero.
Qed.

Lemma filled_coerce (name : string) (c0 : cell) : filled c0 (pd.fill0 (coerce name c0)).
Proof.
  unfold coerce.
  destruct (String.eqb name "date").
  { destruct (pd.to_datetime_coerce1 c0) as [ns|] eqn:E; simpl.
    - now apply filled_date.
    - apply filled_zero. }
  destruct (String.eqb name "sum rub").
  { destruct (pd.to_numeric_coerce1 c0) as [x|] eqn:E; simpl.
    - now apply filled_number.
    - apply filled_zero. }
  destruct (String.eqb name "sum currency").
  { destruct (pd.to_numeric_coerce1 c0) as [x|] eqn:E; simpl.
    - now apply filled_number.
    - apply filled_zero. }
  apply filled_fill0.
Qed.

Lemma filled_all (cs : list cell) : Forall2 filled cs (map pd.fill0 cs).
Proof.
  induction cs as [|x cs IH]; simpl; constructor; auto using filled_fill0.
Qed.

Lemma filled_row (cols : list string) (cs : list cell) :
  Forall2 filled cs (map pd.fill0 (zipmap coerce cols cs)).
Proof.
  revert cs. induction cols as [|c cols IH]; intro cs.
  - simpl. apply filled_all.
  - destruct cs as [|x cs]; simpl; constructor.
    + apply filled_coerce.
    + apply IH.
Qed.

Lemma processed_rows (df : frame) :
  Forall2 (fun r0 r1 => label r1 = label r0 /\ Forall2 filled (cells r0) (cells r1))
    (rows df) (rows (processed df)).
Proof.
  unfold processed. cbn [rows].
  induction (rows df) as [|r rs IH]; simpl; constructor; [|exact IH].
  cbn [label cells]. split; [reflexivity|apply filled_row].
Qed.

Lemma processed_no_null (df : frame) (r : row) (c : cell) :
  In r (rows (processed df)) -> In c (cells r) -> c <> Null.
Proof.
  unfold processed. cbn [rows]. rewrite in_map_iff. intros [r0 [<- _]]. cbn [cells].
  rewrite in_map_iff. intros [c0 [<- _]]. destruct c0; discriminate.
Qed.

Lemma new_other_object (log : list log_entry) :
  DataProcessor.new other_object log
  = (Raise (ValueError "Invalid data type. Must be GoogleSheetsReader."),
     log ++ [(ERROR, "Provided data must be an instance of GoogleSheetsReader.")]).
Proof. reflexivity. Qed.

Lemma new_no_data (r : GoogleSheetsReader.t) (log : list log_entry) :
  GoogleSheetsReader.data r = None ->
  DataProcessor.new (reader_object r) log = (Raise (AttributeError "data"), log).
Proof.
  intro H. unfold DataProcessor.new, DataProcessor.__post_init__.
  unfold bind at 1. unfold get_self at 1. cbn [fst DataProcessor.sheets_reader].
  unfold bind at 1. unfold set_self at 1. cbn [snd].
  unfold bind at 1. unfold DataProcessor._check_and_convert_data_types.
  now rewrite (bind_Raise _ _ _ _ _ (the_data_None (DataProcessor.mk (reader_object r) true)
                                      log H)).
Qed.

(** How [DataProcessor(...)] ends, for every argument. *)
Lemma new_Ok_inv (o : object) (log log' : list log_entry) (dp : DataProcessor.t) :
  DataProcessor.new o log = (Ok dp, log') ->
  exists r df0,
    o = reader_object r
    /\ GoogleSheetsReader.data r = Some df0
    /\ at_most_once "date" df0 /\ at_most_once "sum rub" df0
    /\ at_most_once "sum currency" df0
    /\ dp = constructed r (processed df0).
Proof.
  destruct o as [r|]; [|rewrite new_other_object; discriminate].
  destruct (GoogleSheetsReader.data r) as [df0|] eqn:Hd;
    [|rewrite (new_no_data r log Hd); discriminate].
  rewrite (new_run r df0 log Hd). intro H.
  destruct (at_most_once_dec "date" df0) as [H1|H1];
    [destruct (at_most_once_dec "sum rub" df0) as [H2|H2];
     [destruct (at_most_once_dec "sum currency" df0) as [H3|H3]|]|].
  - rewrite (coercion_Ok df0 H1 H2 H3), fillna0_converted in H.
    injection H as <- _. exists r, df0. repeat split; assumption.
  - destruct (coercion_Raise df0) as [e He]; [tauto|]. rewrite He in H. discriminate.
  - destruct (coercion_Raise df0) as [e He]; [tauto|]. rewrite He in H. discriminate.
  - destruct (coercion_Raise df0) as [e He]; [tauto|]. rewrite He in H. discriminate.
Qed.

(** C2. When [DataProcessor(...)] returns a processor, its argument was a
    reader holding a table, and the processor's table has the columns,
    the index and the rows of that table with no missing value left in
    any cell of any column: each cell is the value it had, the date or
    number read from it, or zero. *)
Theorem no_null_after_construction
    (o : object) (log log' : list log_entry) (dp : DataProcessor.t) :
  DataProcessor.new o log = (Ok dp, log') ->
  exists r df0 df,
    o = reader_object r
    /\ GoogleSheetsReader.data r = Some df0
    /\ DataProcessor.data dp = Some df
    /\ columns df = columns df0
    /\ index_name df = index_name df0
    /\ Forall2 (fun r0 r1 => label r1 = label r0 /\ Forall2 filled (cells r0) (cells r1))
         (rows df0) (rows df)
    /\ (forall r1 c, In r1 (rows df) -> In c (cells r1) -> c <> Null).
Proof.
  intro H. apply new_Ok_inv in H.
  destruct H as [r [df0 [-> [Hd [_ [_ [_ ->]]]]]]].
  exists r, df0, (processed df0). repeat split; try assumption; try reflexivity.
  - apply processed_rows.
  - apply processed_no_null.
Qed.

(** C6, as the code has it.  When none of the labels [date], [sum rub]
    and [sum currency] names several columns of the reader's table,
    constructing the processor raises nothing and yields the coerced and
    filled table, which is the reader's table too, changed in place;
    there a malformed date and a malformed number become missing values
    under coercion, and zero after filling. *)
Theorem coercion_never_raises_on_single_labels
    (r : GoogleSheetsReader.t) (df0 : frame) (log : list log_entry) :
  GoogleSheetsReader.data r = Some df0 ->
  at_most_once "date" df0 ->
  at_most_once "sum rub" df0 ->
  at_most_once "sum currency" df0 ->
  DataProcessor.new (reader_object r) log
  = (Ok (constructed r (processed df0)),
     (log ++ [(INFO, "Data types checked and converted where necessary.")])
       ++ [(INFO, "NaN values replaced with zeros in the DataFrame.")])
  /\ (forall s, parse_datetime s = None ->
        coerce "date" (Str s) = Null /\ pd.fill0 (coerce "date" (Str s)) = Num zero)
  /\ (forall s, parse_numeric s = None ->
        coerce "sum rub" (Str s) = Null
        /\ pd.fill0 (coerce "sum rub" (Str s)) = Num zero
        /\ coerce "sum currency" (Str s) = Null
        /\ pd.fill0 (coerce "sum currency" (Str s)) = Num zero).
Proof.
  intros Hd H1 H2 H3. split; [|split].
  - rewrite (new_run r df0 log Hd), (coercion_Ok df0 H1 H2 H3), fillna0_converted.
    reflexivity.
  - intros s Hs. unfold coerce. simpl. rewrite Hs. now split.
  - intros s Hs. unfold coerce. simpl. rewrite Hs. repeat split.
Qed.

End ConstructionTheorems.

(* ================================================================== *)
(** * The queries and the table *)
Section QueriesAndTable.

Context {Sc : Scalars} {Un : Unspecified Sc}.

(** The six queries of the processor. *)
Inductive query : Type :=
| FilterByCategory (category : string)
| FilterByPeriod (period : string)
| CategorySummary
| SubcategorySummary (category : string)
| MonthlySummary
| CategoryMeanMedian.

Definition run_query (q : query) : M DataProcessor.t frame :=
  match q with
  | FilterByCategory c => DataProcessor.filter_by_category c
  | FilterByPeriod p => DataProcessor.filter_by_period p
  | CategorySummary => DataProcessor.get_category_summary
  | SubcategorySummary c => DataProcessor.get_subcategory_summary c
  | MonthlySummary => DataProcessor.get_monthly_summary
  | CategoryMeanMedian => DataProcessor.get_category_mean_median
  end.

(** A method body that leaves its object as it found it. *)
Definition preserves {S A : Type} (m : M S A) : Prop :=
  forall st, fst (snd (m st)) = fst st.

Lemma preserves_ret {S A : Type} (a : A) : preserves (@ret S A a).
Proof. intro st. reflexivity. Qed.

Lemma preserves_raise {S A : Type} (e : exn) : preserves (@raise S A e).
Proof. intro st. reflexivity. Qed.

Lemma preserves_lift {S A : Type} (o : outcome A) : preserves (@lift S A o).
Proof. intro st. reflexivity. Qed.

Lemma preserves_logging {S : Type} (l : level) (msg : string) :
  preserves (@logging S l msg).
Proof. intro st. reflexivity. Qed.

Lemma preserves_get_self {S : Type} : preserves (@get_self S).
Proof. intro st. reflexivity. Qed.

Lemma preserves_bind {S A B : Type} (m : M S A) (k : A -> M S B) :
  preserves m -> (forall a, preserves (k a)) -> preserves (bind m k).
Proof.
  intros Hm Hk st. unfold bind. specialize (Hm st).
  destruct (m st) as [[a|e] st1]; cbn [fst snd] in *.
  - now rewrite Hk.
  - exact Hm.
Qed.

Lemma preserves_try_except {S A : Type} (m : M S A) (h : exn -> M S A) :
  preserves m -> (forall e, preserves (h e)) -> preserves (try_except m h).
Proof.
  intros Hm Hh st. unfold try_except. specialize (Hm st).
  destruct (m st) as [[a|e] st1]; cbn [fst snd] in *.
  - exact Hm.
  - now rewrite Hh.
Qed.

Lemma preserves_the_data : preserves DataProcessor.the_data.
Proof.
  unfold DataProcessor.the_data. apply preserves_bind; [apply preserves_get_self|].
  intro self. destruct (DataProcessor.data self); [apply preserves_ret|apply preserves_raise].
Qed.

Create HintDb preserve.

#[local] Hint Resolve preserves_ret preserves_raise preserves_lift preserves_logging
  preserves_get_self preserves_the_data : preserve.

Ltac preserve :=
  repeat first
    [ solve [auto with preserve]
    | apply preserves_bind; [|intro]
    | apply preserves_try_except; [|intro] ].

Lemma preserves_filter_by_category (c : string) :
  preserves (DataProcessor.filter_by_category c).
Proof. unfold DataProcessor.filter_by_category. preserve. Qed.

Lemma preserves_filter_by_period (p : string) :
  preserves (DataProcessor.filter_by_period p).
Proof. unfold DataProcessor.filter_by_period. preserve. Qed.

Lemma preserves_get_category_summary : preserves DataProcessor.get_category_summary.
Proof. unfold DataProcessor.get_category_summary. preserve. Qed.

Lemma preserves_get_subcategory_summary (c : string) :
  preserves (DataProcessor.get_subcategory_summary c).
Proof.
  unfold DataProcessor.get_subcategory_summary.
  apply preserves_bind; [apply preserves_filter_by_category|]. intro. preserve.
Qed.

Lemma preserves_get_category_mean_median :
  preserves DataProcessor.get_category_mean_median.
Proof. unfold DataProcessor.get_category_mean_median. preserve. Qed.

(** All rows of a table have one cell per column. *)
Definition rectangular (df : frame) : Prop :=
  Forall (fun r => List.length (cells r) = List.length (columns df)) (rows df).

(** The state in which [get_monthly_summary] leaves the processor: as it
    was, when the dates could not be read, and otherwise with the months
    assigned to the label [month]. *)
Lemma monthly_state (dp : DataProcessor.t) (df : frame) (log : list log_entry) :
  DataProcessor.data dp = Some df ->
  fst (snd (DataProcessor.get_monthly_summary (dp, log))) = dp
  \/ exists values,
       List.length values = List.length (rows df)
       /\ fst (snd (DataProcessor.get_monthly_summary (dp, log)))
          = DataProcessor.with_table dp (pd.setitem df "month" values).
Proof.
  intro Hd. unfold DataProcessor.get_monthly_summary.
  rewrite (bind_Ok _ _ _ _ _ (the_data_Some dp log df Hd)).
  rewrite bind_lift.
  destruct (pd.getitem df "date") as [col|e] eqn:G; [|now left].
  rewrite bind_lift.
  destruct (pd.to_datetime col pd.errors_raise) as [dates|e] eqn:T; [|now left].
  right. exists (map pd.of_period (pd.dt_to_period_M dates)). split.
  - unfold pd.dt_to_period_M. rewrite !length_map.
    unfold pd.getitem in G.
    destruct (pd.positions "date" (columns df)) as [|j [|j' js]]; try discriminate.
    + injection G as <-. simpl in T. apply mapM_length in T. rewrite T.
      unfold pd.column. now rewrite length_map.
    + injection G as <-. discriminate.
  - match goal with
    | |- fst (snd (bind ?m ?k ?st)) = _ =>
        assert (P : forall a, preserves (k a)) by (intro; preserve)
    end.
    unfold bind at 1. unfold DataProcessor.set_data at 1.
    unfold bind at 1. unfold get_self at 1, set_self at 1. cbn [fst snd].
    rewrite (P tt). reflexivity.
Qed.

Lemma map_fst_combine_full {A B : Type} (l : list A) (l' : list B) :
  List.length l' = List.length l -> map fst (combine l l') = l.
Proof.
  revert l'. induction l as [|x l IH]; intros [|y l'] H; simpl in *;
    try reflexivity; try discriminate.
  f_equal. apply IH. lia.
Qed.

Lemma nth_set_at (name name' : string) (v : cell) (cols : list string) :
  forall (j : nat) (cs : list cell),
    nth_error cols j = Some name' -> name' <> name ->
    nth j (pd.set_at name cols cs v) Null = nth j cs Null.
Proof.
  induction cols as [|c cols IH]; intros j cs Hj Hn.
  - destruct j; discriminate.
  - destruct cs as [|x cs]; [reflexivity|]. simpl.
    destruct j as [|j]; simpl in *.
    + injection Hj as ->. apply String.eqb_neq in Hn. now rewrite Hn.
    + now apply IH.
Qed.

(** What [df[name] = values] leaves alone: the index, the labels of the
    rows, and every column under another label. *)
Lemma setitem_frame (df : frame) (name : string) (values : list cell) :
  List.length values = List.length (rows df) ->
  rectangular df ->
  index_name (pd.setitem df name values) = index_name df
  /\ map label (rows (pd.setitem df name values)) = map label (rows df)
  /\ (columns (pd.setitem df name values) = columns df
      \/ (~ In name (columns df)
          /\ columns (pd.setitem df name values) = columns df ++ [name]))
  /\ (forall j name',
        nth_error (columns df) j = Some name' -> name' <> name ->
        nth_error (columns (pd.setitem df name values)) j = Some name'
        /\ pd.column j (pd.setitem df name values) = pd.column j df).
Proof.
  intros Hlen Hrect. unfold pd.setitem.
  destruct (pd.contains name df) eqn:C; cbn [index_name rows columns].
  - split; [reflexivity|]. split; [|split].
    + rewrite map_map. cbn [label].
      rewrite <- (map_map fst label). now rewrite map_fst_combine_full.
    + now left.
    + intros j name' Hj Hn. split; [assumption|].
      unfold pd.column. cbn [rows]. rewrite map_map. cbn [cells].
      rewrite <- (map_fst_combine_full (rows df) values Hlen) at 2.
      rewrite map_map. apply map_ext. intros [r v]. cbn [fst snd].
      now apply (nth_set_at name name').
  - split; [reflexivity|]. split; [|split].
    + rewrite map_map. cbn [label].
      rewrite <- (map_map fst label). now rewrite map_fst_combine_full.
    + right. split; [|reflexivity].
      rewrite <- contains_In. congruence.
    + intros j name' Hj Hn. split.
      * rewrite nth_error_app1; [assumption|]. apply nth_error_Some. congruence.
      * unfold pd.column. cbn [rows]. rewrite map_map. cbn [cells].
        rewrite <- (map_fst_combine_full (rows df) values Hlen) at 2.
        rewrite map_map. apply map_ext_in. intros [r v] Hin. cbn [fst snd].
        apply app_nth1.
        apply in_combine_l in Hin. unfold rectangular in Hrect.
        rewrite Forall_forall in Hrect. rewrite (Hrect r Hin).
        apply nth_error_Some. congruence.
Qed.

(** C3, as the code has it.  Five queries leave the processor, and with it
    the table and the reader, exactly as they were, whatever they return
    or raise.  [get_monthly_summary] assigns to the label [month], in
    place: the table is the frame the reader's [data] is bound to as
    well, so the reader sees the change, and nothing else of the
    processor or of the reader changes.  The assignment keeps the index
    and the labels of the rows, it keeps the columns or, when no column
    is labelled [month], adds that one as the last, and it keeps every
    column under another label cell by cell; a column already labelled
    [month] is overwritten. *)
Theorem queries_change_only_month
    (q : query) (dp : DataProcessor.t) (log : list log_entry) :
  match q with
  | MonthlySummary =>
      forall df,
        DataProcessor.data dp = Some df ->
        rectangular df ->
        exists df',
          DataProcessor.data (fst (snd (run_query q (dp, log)))) = Some df'
          /\ fst (snd (run_query q (dp, log))) = DataProcessor.with_table dp df'
          /\ DataProcessor.sheets_reader (fst (snd (run_query q (dp, log))))
             = holding (DataProcessor.sheets_reader dp) df'
          /\ index_name df' = index_name df
          /\ map label (rows df') = map label (rows df)
          /\ (columns df' = columns df
              \/ (~ In "month" (columns df) /\ columns df' = columns df ++ ["month"]))
          /\ (forall j name,
                nth_error (columns df) j = Some name -> name <> "month" ->
                nth_error (columns df') j = Some name
                /\ pd.column j df' = pd.column j df)
  | _ => fst (snd (run_query q (dp, log))) = dp
  end.
Proof.
  destruct q; cbn [run_query].
  - apply preserves_filter_by_category.
  - apply preserves_filter_by_period.
  - apply preserves_get_category_summary.
  - apply preserves_get_subcategory_summary.
  - intros df Hd Hrect.
    destruct (monthly_state dp df log Hd) as [H|[values [Hlen H]]]; rewrite H.
    + exists df. split; [assumption|].
      split; [symmetry; now apply with_table_same|].
      split; [now rewrite <- sheets_reader_with_table, (with_table_same dp df Hd)|].
      split; [reflexivity|]. split; [reflexivity|]. split; [now left|].
      intros j name Hj _. now split.
    + exists (pd.setitem df "month" values).
      destruct (setitem_frame df "month" values Hlen Hrect) as [H1 [H2 [H3 H4]]].
      split; [exact (data_with_table dp df _ Hd)|].
      split; [reflexivity|]. split; [reflexivity|].
      split; [assumption|]. split; [assumption|]. split; assumption.
  - apply preserves_get_category_mean_median.
Qed.

End QueriesAndTable.

(* ================================================================== *)
(** * The shape of the tables

    The tables the reader makes are rectangular, construction of the
    processor keeps them so, and in a processed rectangular table no
    column has a missing value. *)
Section Shape.

Context {Sc : Scalars}.

Lemma length_le_width (data : list (list string)) (r : list string) :
  In r data -> List.length r <= pd.width data.
Proof.
  unfold pd.width. induction data as [|r' data IH]; simpl; [intros []|].
  intros [->|H]; [lia|]. apply IH in H. lia.
Qed.

Lemma length_number_rows (i : nat) (data : list (list cell)) (r : row) :
  In r (pd.number_rows i data) -> In (cells r) data.
Proof.
  revert i. induction data as [|cs data IH]; intro i; simpl; [intros []|].
  intros [<-|H]; [now left|]. right. now apply (IH (S i)).
Qed.

Lemma DataFrame_is_rectangular (body : list (list string)) (header : list string)
    (df : frame) :
  pd.DataFrame body header = Ok df -> rectangular df.
Proof.
  unfold pd.DataFrame, rectangular. destruct body as [|r0 body].
  - intros [= <-]. constructor.
  - remember (r0 :: body) as data eqn:Hdata.
    destruct (Nat.eqb (pd.width data) (List.length header)) eqn:E; [|discriminate].
    apply Nat.eqb_eq in E. intros [= <-]. cbn [rows columns].
    apply Forall_forall. intros r Hr. apply length_number_rows in Hr.
    apply in_map_iff in Hr. destruct Hr as [x [Hx Hin]]. rewrite <- Hx.
    unfold pd.pad. rewrite length_app, repeat_length, length_map.
    apply length_le_width in Hin. lia.
Qed.

Lemma length_zipmap (g : string -> cell -> cell) (cols : list string) (cs : list cell) :
  List.length (zipmap g cols cs) = List.length cs.
Proof.
  revert cs. induction cols as [|c cols IH]; intro cs; simpl; [reflexivity|].
  destruct cs as [|x cs]; [reflexivity|]. simpl. now rewrite IH.
Qed.

Lemma processed_rectangular (df : frame) : rectangular df -> rectangular (processed df).
Proof.
  unfold rectangular, processed. cbn [rows columns]. rewrite !Forall_forall.
  intros H r Hr. apply in_map_iff in Hr. destruct Hr as [r0 [<- Hin]]. cbn [cells].
  rewrite length_map, length_zipmap. now apply H.
Qed.

Lemma positions_from_lt (i : nat) (name : string) (cols : list string) (j : nat) :
  In j (pd.positions_from i name cols) -> j < i + List.length cols.
Proof.
  revert i. induction cols as [|c cols IH]; simpl; intros i H; [contradiction|].
  destruct (String.eqb c name).
  - destruct H as [H|H]; [lia|]. apply IH in H. lia.
  - apply IH in H. lia.
Qed.

(** In a processed rectangular table, the column a label names has no
    missing value. *)
Lemma processed_column_present (df : frame) (name : string) (j : nat) (r : row) :
  rectangular df ->
  pd.positions name (columns df) = [j] ->
  In r (rows (processed df)) ->
  nth j (cells r) Null <> Null.
Proof.
  intros Hrect P Hr.
  assert (Hj : j < List.length (columns df)).
  { apply (positions_from_lt 0 name). unfold pd.positions in P. rewrite P. now left. }
  apply (processed_no_null df r); [assumption|].
  apply nth_In.
  pose proof (processed_rectangular df Hrect) as Hp. unfold rectangular in Hp.
  rewrite Forall_forall in Hp. rewrite (Hp r Hr). exact Hj.
Qed.

End Shape.

(* ================================================================== *)
(** * The index *)
Section Index.

Context {Sc : Scalars} {Un : Unspecified Sc}.

Definition not_found (column_name : string) : string :=
  String.append "Column '" (String.append column_name "' not found in DataFrame.").

(** The table with column [j] made its index under the name [name]. *)
Definition indexed_by (j : nat) (name : string) (df : frame) : frame :=
  mkFrame (pd.remove_nth j (columns df)) (Some name)
    (map (fun r => mkRow (Lab (nth j (cells r) Null)) (pd.remove_nth j (cells r)))
         (rows df)).

Lemma set_index_absent (dp : DataProcessor.t) (df : frame) (log : list log_entry)
    (name : string) :
  DataProcessor.data dp = Some df ->
  ~ In name (columns df) ->
  DataProcessor.set_index name (dp, log)
  = (Raise (ValueError (not_found name)), (dp, log ++ [(ERROR, not_found name)])).
Proof.
  intros Hd Hn. unfold DataProcessor.set_index.
  rewrite (bind_Ok _ _ _ _ _ (the_data_Some dp log df Hd)).
  destruct (pd.contains name df) eqn:C.
  - apply contains_In in C. contradiction.
  - reflexivity.
Qed.

Lemma set_index_present (dp : DataProcessor.t) (df : frame) (log : list log_entry)
    (name : string) :
  DataProcessor.data dp = Some df ->
  In name (columns df) ->
  DataProcessor.set_index name (dp, log)
  = match pd.set_index df name with
    | Ok df' =>
        (Ok tt,
         (DataProcessor.with_table dp df',
          log ++ [(INFO, String.append "Column '" (String.append name "' set as index."))]))
    | Raise e => (Raise e, (dp, log))
    end.
Proof.
  intros Hd Hn. unfold DataProcessor.set_index.
  rewrite (bind_Ok _ _ _ _ _ (the_data_Some dp log df Hd)).
  apply contains_In in Hn. rewrite Hn.
  rewrite bind_lift. destruct (pd.set_index df name); reflexivity.
Qed.

Definition not_one_dimensional : string := "Index data must be 1-dimensional".

Lemma set_index_several (dp : DataProcessor.t) (df : frame) (log : list log_entry)
    (name : string) :
  DataProcessor.data dp = Some df ->
  ~ at_most_once name df ->
  DataProcessor.set_index name (dp, log)
  = (Raise (ValueError not_one_dimensional), (dp, log)).
Proof.
  intros Hd Hs. unfold at_most_once in Hs.
  assert (Hin : In name (columns df)).
  { destruct (in_dec string_dec name (columns df)) as [H|H]; [exact H|].
    apply positions_nil in H. rewrite H in Hs. cbn in Hs. lia. }
  rewrite (set_index_present dp df log name Hd Hin). unfold pd.set_index.
  destruct (pd.positions name (columns df)) as [|j [|j' js]];
    [cbn in Hs; lia|cbn in Hs; lia|reflexivity].
Qed.

(** C9, as the code has it.  For every table and every name, [set_index]
    raises [ValueError] exactly when the name does not label exactly one
    column.  When it labels none, the method logs and raises its own
    error, that the column was not found.  When it labels several, the
    column is present, the test of the method passes, and pandas raises:
    the data of an index has to be one-dimensional.  Whenever the method
    raises, the processor and the table are as they were.  When the name
    labels one column, that column leaves the columns and its cells
    become the index, under that name, in place: the reader, whose
    [data] is the same frame, sees the new index too. *)
Theorem set_index_raises_unless_one_column
    (dp : DataProcessor.t) (df : frame) (log : list log_entry) (name : string) :
  DataProcessor.data dp = Some df ->
  ((exists msg st',
      DataProcessor.set_index name (dp, log) = (Raise (ValueError msg), st'))
   <-> ~ exists j, pd.positions name (columns df) = [j])
  /\ (~ In name (columns df)
      <-> DataProcessor.set_index name (dp, log)
          = (Raise (ValueError (not_found name)),
             (dp, log ++ [(ERROR, not_found name)])))
  /\ (In name (columns df) /\ ~ at_most_once name df
      <-> DataProcessor.set_index name (dp, log)
          = (Raise (ValueError not_one_dimensional), (dp, log)))
  /\ (forall e st',
        DataProcessor.set_index name (dp, log) = (Raise e, st') -> fst st' = dp)
  /\ (forall j,
        pd.positions name (columns df) = [j] ->
        DataProcessor.set_index name (dp, log)
        = (Ok tt,
           (DataProcessor.with_table dp (indexed_by j name df),
            log ++ [(INFO, String.append "Column '"
                             (String.append name "' set as index."))]))).
Proof.
  intro Hd.
  assert (Cases :
    (~ In name (columns df)
     /\ DataProcessor.set_index name (dp, log)
        = (Raise (ValueError (not_found name)), (dp, log ++ [(ERROR, not_found name)])))
    \/ (exists j,
          pd.positions name (columns df) = [j]
          /\ In name (columns df) /\ at_most_once name df
          /\ DataProcessor.set_index name (dp, log)
             = (Ok tt,
                (DataProcessor.with_table dp (indexed_by j name df),
                 log ++ [(INFO, String.append "Column '"
                                  (String.append name "' set as index."))])))
    \/ (In name (columns df) /\ ~ at_most_once name df
        /\ (forall j, pd.positions name (columns df) <> [j])
        /\ DataProcessor.set_index name (dp, log)
           = (Raise (ValueError not_one_dimensional), (dp, log)))).
  { destruct (pd.positions name (columns df)) as [|j [|j' js]] eqn:P.
    - left. apply positions_nil in P. split; [exact P|].
      exact (set_index_absent dp df log name Hd P).
    - right. left. exists j.
      assert (Hin : In name (columns df)).
      { destruct (in_dec string_dec name (columns df)) as [H|H]; [exact H|].
        apply positions_nil in H. congruence. }
      split; [reflexivity|]. split; [exact Hin|].
      split; [unfold at_most_once; rewrite P; cbn; lia|].
      rewrite (set_index_present dp df log name Hd Hin).
      unfold pd.set_index. rewrite P. reflexivity.
    - right. right.
      assert (Hs : ~ at_most_once name df)
        by (unfold at_most_once; rewrite P; cbn; lia).
      assert (Hin : In name (columns df)).
      { destruct (in_dec string_dec name (columns df)) as [H|H]; [exact H|].
        apply positions_nil in H. congruence. }
      split; [exact Hin|]. split; [exact Hs|]. split; [discriminate|].
      exact (set_index_several dp df log name Hd Hs). }
  assert (Differ : ValueError (not_found name) <> ValueError not_one_dimensional)
    by (unfold not_found, not_one_dimensional; cbn; discriminate).
  destruct Cases as [[Hn E]|[[j [P [Hin [Hone E]]]]|[Hin [Hs [P E]]]]]; rewrite E.
  - apply positions_nil in Hn as P.
    split; [split; [intros _ [j Hj]; congruence|eauto]|].
    split; [tauto|].
    split; [split; [tauto|intro H; injection H as H _; congruence]|].
    split; [now intros e st' [= _ <-]|]. intros j Hj. congruence.
  - split; [split; [intros [msg [st' H]]; discriminate|intro H; exfalso; eauto]|].
    split; [split; [tauto|discriminate]|].
    split; [split; [tauto|discriminate]|].
    split; [discriminate|]. intros j' Hj. rewrite P in Hj. now injection Hj as <-.
  - split; [split; [intros _ [j Hj]; exact (P j Hj)|eauto]|].
    split; [split; [tauto|intro H; injection H as H _; congruence]|].
    split; [tauto|].
    split; [now intros e st' [= _ <-]|]. intros j Hj. exfalso. exact (P j Hj).
Qed.

End Index.

(* ================================================================== *)
(** * Queries on a table that lacks a column *)
Section MissingColumns.

Context {Sc : Scalars} {Un : Unspecified Sc}.

(** The labels a query looks up. *)
Definition required (q : query) : list string :=
  match q with
  | FilterByCategory _ => ["category"]
  | FilterByPeriod _ => ["period"]
  | CategorySummary => ["category"; "sum rub"]
  | SubcategorySummary _ => ["category"; "subcategory"; "sum rub"]
  | MonthlySummary => ["date"; "sum rub"]
  | CategoryMeanMedian => ["category"; "sum rub"]
  end.

Lemma positions_from_NoDup (i : nat) (name : string) (cols : list string) :
  NoDup cols -> List.length (pd.positions_from i name cols) <= 1.
Proof.
  intro H. revert i. induction H as [|c cols Hc Hnd IH]; intro i; simpl; [lia|].
  destruct (String.eqb c name) eqn:E.
  - apply String.eqb_eq in E. subst c.
    apply (positions_from_nil (S i)) in Hc. rewrite Hc. simpl. lia.
  - apply IH.
Qed.

Lemma positions_cases (name : string) (cols : list string) :
  NoDup cols ->
  (~ In name cols /\ pd.positions name cols = [])
  \/ (In name cols /\ exists j, pd.positions name cols = [j]).
Proof.
  intro H. pose proof (positions_from_NoDup 0 name cols H) as L.
  fold (pd.positions name cols) in L.
  destruct (pd.positions name cols) as [|j [|j' js]] eqn:P.
  - left. split; [now apply positions_nil|reflexivity].
  - right. split; [|eauto].
    destruct (in_dec string_dec name cols) as [Hin|Hin]; [assumption|].
    apply positions_nil in Hin. congruence.
  - simpl in L. lia.
Qed.

Lemma getitem_missing (df : frame) (name : string) :
  ~ In name (columns df) -> pd.getitem df name = Raise (KeyError name).
Proof.
  intro H. apply positions_nil in H. unfold pd.getitem. now rewrite H.
Qed.

Lemma grouper_cases (df : frame) (key : string) :
  NoDup (columns df) -> index_name df = None ->
  (~ In key (columns df) /\ pd.grouper df key = Raise (KeyError key))
  \/ (In key (columns df) /\ exists ks, pd.grouper df key = Ok ks).
Proof.
  intros Hnd Hidx. unfold pd.grouper, pd.index_is. rewrite Hidx.
  destruct (positions_cases key (columns df) Hnd) as [[Hn P]|[Hin [j P]]]; rewrite P.
  - left. now split.
  - right. split; [assumption|eauto].
Qed.

Lemma select_values_missing (df : frame) (val : string) :
  ~ In val (columns df) ->
  pd.select_values df val = Raise (KeyError (String.append "Column not found: " val)).
Proof.
  intro H. apply positions_nil in H. unfold pd.select_values. now rewrite H.
Qed.

Lemma groupby_sum_missing (df : frame) (key val name : string) :
  NoDup (columns df) -> index_name df = None ->
  name = key \/ name = val -> ~ In name (columns df) ->
  exists k, pd.groupby_sum df key val = Raise (KeyError k).
Proof.
  intros Hnd Hidx Hname Hn. unfold pd.groupby_sum.
  destruct (grouper_cases df key Hnd Hidx) as [[_ G]|[Hin [ks G]]]; rewrite G.
  - simpl. eauto.
  - destruct Hname as [->| ->]; [contradiction|].
    cbn [obind]. rewrite (select_values_missing df val Hn). simpl. eauto.
Qed.

Lemma groupby_mean_median_missing (df : frame) (key val name : string) :
  NoDup (columns df) -> index_name df = None ->
  name = key \/ name = val -> ~ In name (columns df) ->
  exists k, pd.groupby_mean_median df key val = Raise (KeyError k).
Proof.
  intros Hnd Hidx Hname Hn. unfold pd.groupby_mean_median.
  destruct (grouper_cases df key Hnd Hidx) as [[_ G]|[Hin [ks G]]]; rewrite G.
  - simpl. eauto.
  - destruct Hname as [->| ->]; [contradiction|].
    cbn [obind]. rewrite (select_values_missing df val Hn). simpl. eauto.
Qed.

Lemma filter_run (dp : DataProcessor.t) (df : frame) (log : list log_entry)
    (name arg : string) :
  DataProcessor.data dp = Some df ->
  NoDup (columns df) ->
  bind DataProcessor.the_data (fun df0 =>
    bind (lift (pd.getitem df0 name)) (fun col =>
      lift (pd.getitem_mask df0 (pd.eq_str col arg)))) (dp, log)
  = if in_dec string_dec name (columns df)
    then (Ok (mkFrame (columns df) (index_name df)
                (pd.select_rows
                   (map (pd.eq_str1 arg)
                      (pd.column (hd 0 (pd.positions name (columns df))) df))
                   (rows df))),
          (dp, log))
    else (Raise (KeyError name), (dp, log)).
Proof.
  intros Hd Hnd.
  rewrite (bind_Ok _ _ _ _ _ (the_data_Some dp log df Hd)).
  rewrite bind_lift_lift. unfold lift.
  destruct (in_dec string_dec name (columns df)) as [Hin|Hn].
  - destruct (positions_cases name (columns df) Hnd) as [[Hn _]|[_ [j P]]];
      [contradiction|].
    unfold pd.getitem. rewrite P. reflexivity.
  - now rewrite (getitem_missing df name Hn).
Qed.

Lemma setitem_columns (df : frame) (name : string) (values : list cell) :
  index_name (pd.setitem df name values) = index_name df
  /\ (columns (pd.setitem df name values) = columns df
      \/ (~ In name (columns df)
          /\ columns (pd.setitem df name values) = columns df ++ [name])).
Proof.
  unfold pd.setitem. destruct (pd.contains name df) eqn:C; cbn [index_name columns].
  - split; [reflexivity|now left].
  - split; [reflexivity|]. right. split; [|reflexivity].
    rewrite <- contains_In. congruence.
Qed.

Lemma NoDup_snoc (name : string) (cols : list string) :
  NoDup cols -> ~ In name cols -> NoDup (cols ++ [name]).
Proof.
  intros Hnd Hn. induction Hnd as [|c cols Hc Hnd IH]; simpl.
  - constructor; [intros []|constructor].
  - constructor.
    + rewrite in_app_iff. intros [H|[H|[]]]; [contradiction|].
      subst. apply Hn. now left.
    + apply IH. intro H. apply Hn. now right.
Qed.

(** C7, as the code has it.  On a table with distinct labels and the
    default index that lacks a label the query looks up, five of the
    queries return nothing: the two filters and the summaries by
    category and by subcategory raise [KeyError]; [get_monthly_summary]
    raises, and what it raises is a [KeyError] unless reading the dates
    failed first.  [get_category_mean_median] catches the error and
    returns the empty table. *)
Theorem missing_column_raises_except_mean_median
    (q : query) (dp : DataProcessor.t) (df : frame) (log : list log_entry)
    (name : string) :
  DataProcessor.data dp = Some df ->
  NoDup (columns df) ->
  index_name df = None ->
  In name (required q) ->
  ~ In name (columns df) ->
  match q with
  | CategoryMeanMedian => fst (run_query q (dp, log)) = Ok pd.empty
  | MonthlySummary =>
      exists e,
        fst (run_query q (dp, log)) = Raise e
        /\ ((forall i, pd.positions "date" (columns df) = [i] ->
                       exists dates,
                         mapM pd.to_datetime_raise1 (pd.column i df) = Ok dates) ->
            exists k, e = KeyError k)
  | _ => exists k, fst (run_query q (dp, log)) = Raise (KeyError k)
  end.
Proof.
  intros Hd Hnd Hidx Hreq Hn.
  destruct q; cbn [run_query required] in *.
  - (* filter_by_category *)
    destruct Hreq as [<-|[]].
    unfold DataProcessor.filter_by_category. rewrite (filter_run dp df log _ _ Hd Hnd).
    destruct (in_dec string_dec "category" (columns df)); [contradiction|].
    cbn [fst]. eauto.
  - (* filter_by_period *)
    destruct Hreq as [<-|[]].
    unfold DataProcessor.filter_by_period. rewrite (filter_run dp df log _ _ Hd Hnd).
    destruct (in_dec string_dec "period" (columns df)); [contradiction|].
    cbn [fst]. eauto.
  - (* get_category_summary *)
    unfold DataProcessor.get_category_summary.
    rewrite (bind_Ok _ _ _ _ _ (the_data_Some dp log df Hd)). unfold lift.
    destruct (groupby_sum_missing df "category" "sum rub" name Hnd Hidx) as [k Hk];
      [simpl in Hreq; intuition congruence|assumption|].
    rewrite Hk. cbn [fst]. eauto.
  - (* get_subcategory_summary *)
    unfold DataProcessor.get_subcategory_summary, DataProcessor.filter_by_category.
    unfold bind at 1. rewrite (filter_run dp df log _ _ Hd Hnd).
    destruct (in_dec string_dec "category" (columns df)) as [Hc|Hc];
      [|cbn [fst]; eauto].
    unfold lift. cbn [fst].
    match goal with
    | |- exists k, pd.groupby_sum ?f _ _ = _ =>
        destruct (groupby_sum_missing f "subcategory" "sum rub" name Hnd Hidx) as [k Hk]
    end.
    + simpl in Hreq. destruct Hreq as [<-|[<-|[<-|[]]]]; [contradiction|now left|now right].
    + exact Hn.
    + rewrite Hk. eauto.
  - (* get_monthly_summary *)
    unfold DataProcessor.get_monthly_summary.
    rewrite (bind_Ok _ _ _ _ _ (the_data_Some dp log df Hd)).
    rewrite bind_lift.
    destruct (positions_cases "date" (columns df) Hnd) as [[Hdate _]|[Hdate [i P]]].
    + rewrite (getitem_missing df "date" Hdate). cbn [fst]. eauto.
    + unfold pd.getitem. rewrite P. rewrite bind_lift. cbn [pd.to_datetime].
      destruct (mapM pd.to_datetime_raise1 (pd.column i df)) as [dates|e] eqn:T.
      * set (df' := pd.setitem df "month" (map pd.of_period (pd.dt_to_period_M dates))).
        assert (Hname : name = "sum rub").
        { simpl in Hreq. destruct Hreq as [<-|[<-|[]]]; [contradiction|reflexivity]. }
        subst name.
        destruct (setitem_columns df "month" (map pd.of_period (pd.dt_to_period_M dates)))
          as [Hi Hc]. fold df' in Hi, Hc.
        assert (Hnd' : NoDup (columns df')).
        { destruct Hc as [->|[Hm ->]]; [assumption|now apply NoDup_snoc]. }
        assert (Hn' : ~ In "sum rub" (columns df')).
        { destruct Hc as [->|[Hm ->]]; [assumption|].
          rewrite in_app_iff. intros [H|[H|[]]]; [contradiction|discriminate]. }
        destruct (groupby_sum_missing df' "month" "sum rub" "sum rub" Hnd') as [k Hk];
          [congruence|now right|assumption|].
        unfold bind at 1. unfold DataProcessor.set_data at 1.
        unfold bind at 1. unfold get_self at 1, set_self at 1. cbn [fst snd].
        rewrite (bind_Ok _ _ _ _ _
                   (the_data_Some (DataProcessor.with_table dp df') log df' (data_with_table _ _ _ Hd))).
        rewrite bind_lift. rewrite Hk. cbn [fst]. eauto.
      * cbn [fst]. exists e. split; [reflexivity|]. intro H.
        destruct (H i eq_refl) as [dates Hdates]. congruence.
  - (* get_category_mean_median *)
    unfold DataProcessor.get_category_mean_median, try_except.
    rewrite (bind_Ok _ _ _ _ _ (the_data_Some dp log df Hd)). rewrite bind_lift.
    destruct (groupby_mean_median_missing df "category" "sum rub" name Hnd Hidx) as [k Hk];
      [simpl in Hreq; intuition congruence|assumption|].
    rewrite Hk. reflexivity.
Qed.

End MissingColumns.

(* ================================================================== *)
(** * Sums by group *)
Section GroupSums.

Context {Sc : Scalars}.

(** The sum a key has collected over a list of keyed values, from [t]. *)
Definition sum_from (t : num) (c : cell) (kvs : list (cell * option num)) : num :=
  fold_left (fun acc kv => if cell_eqb (fst kv) c then pd.addv acc (snd kv) else acc)
    kvs t.

Definition has_key (c : cell) (kvs : list (cell * option num)) : bool :=
  existsb (fun kv => cell_eqb (fst kv) c) kvs.

Lemma lookup_group_add (c k : cell) (v : option num) (acc : list (cell * num)) :
  pd.lookup_key c (pd.group_add k v acc)
  = if cell_eqb c k
    then Some (pd.addv (match pd.lookup_key c acc with Some t => t | None => zero end) v)
    else pd.lookup_key c acc.
Proof.
  induction acc as [|[k' t] acc IH]; simpl.
  - destruct (cell_eqb c k); reflexivity.
  - destruct (cell_eqb k k') eqn:E; simpl.
    + apply cell_eqb_eq in E. subst k'.
      destruct (cell_eqb c k); reflexivity.
    + rewrite IH. destruct (cell_eqb c k') eqn:E'; [|reflexivity].
      apply cell_eqb_eq in E'. subst k'.
      rewrite cell_eqb_sym, E. reflexivity.
Qed.

Lemma lookup_fold_group_add (c : cell) (kvs : list (cell * option num)) :
  c <> Null ->
  forall acc,
    pd.lookup_key c
      (fold_left
         (fun acc kv => if isnull (fst kv) then acc
                        else pd.group_add (fst kv) (snd kv) acc) kvs acc)
    = match pd.lookup_key c acc with
      | Some t => Some (sum_from t c kvs)
      | None => if has_key c kvs then Some (sum_from zero c kvs) else None
      end.
Proof.
  intro Hc. induction kvs as [|[k v] kvs IH]; intro acc; simpl.
  - destruct (pd.lookup_key c acc); reflexivity.
  - rewrite IH. cbn [fst snd]. unfold sum_from. simpl.
    destruct (isnull k) eqn:N.
    + destruct k; try discriminate.
      assert (E : cell_eqb Null c = false) by (now destruct c).
      rewrite E. reflexivity.
    + rewrite lookup_group_add. rewrite (cell_eqb_sym c k).
      destruct (cell_eqb k c); simpl; [|reflexivity].
      destruct (pd.lookup_key c acc); reflexivity.
Qed.

Lemma lookup_group_sums (c : cell) (kvs : list (cell * option num)) :
  c <> Null ->
  pd.lookup_key c (pd.group_sums kvs)
  = if has_key c kvs then Some (sum_from zero c kvs) else None.
Proof.
  intro Hc. unfold pd.group_sums. now rewrite lookup_fold_group_add.
Qed.

(** ** The keys of the groups *)

Lemma keys_group_add (k : cell) (v : option num) (acc : list (cell * num)) :
  (In k (map fst acc) -> map fst (pd.group_add k v acc) = map fst acc)
  /\ (~ In k (map fst acc) -> map fst (pd.group_add k v acc) = map fst acc ++ [k]).
Proof.
  induction acc as [|[k' t] acc [IH1 IH2]]; simpl.
  - split; [intros []|reflexivity].
  - destruct (cell_eqb k k') eqn:E; simpl.
    + apply cell_eqb_eq in E. subst k'. split; [reflexivity|]. intro H. exfalso. auto.
    + apply cell_eqb_neq in E. split.
      * intros [H|H]; [congruence|]. now rewrite IH1.
      * intro H. rewrite IH2; [reflexivity|]. auto.
Qed.

Lemma NoDup_keys_group_add (k : cell) (v : option num) (acc : list (cell * num)) :
  NoDup (map fst acc) -> NoDup (map fst (pd.group_add k v acc)).
Proof.
  intro H. destruct (keys_group_add k v acc) as [H1 H2].
  destruct (in_dec (fun a b => match Bool.bool_dec (cell_eqb a b) true with
                               | left E => left (proj1 (cell_eqb_eq a b) E)
                               | right E => right (fun G => E (proj2 (cell_eqb_eq a b) G))
                               end) k (map fst acc)) as [Hin|Hn].
  - now rewrite H1.
  - rewrite H2 by assumption.
    apply NoDup_rev in H. rewrite <- (rev_involutive (map fst acc ++ [k])).
    apply NoDup_rev. rewrite rev_app_distr. simpl. constructor; [|assumption].
    now rewrite <- in_rev.
Qed.

Lemma In_keys_group_add (k k' : cell) (v : option num) (acc : list (cell * num)) :
  In k' (map fst (pd.group_add k v acc)) -> k' = k \/ In k' (map fst acc).
Proof.
  induction acc as [|[k0 t] acc IH]; simpl.
  - intros [H|[]]. now left.
  - destruct (cell_eqb k k0); simpl.
    + intros [H|H]; auto.
    + intros [H|H]; auto. apply IH in H. tauto.
Qed.

Lemma keys_group_sums (kvs : list (cell * option num)) :
  NoDup (map fst (pd.group_sums kvs))
  /\ forall k, In k (map fst (pd.group_sums kvs)) -> k <> Null /\ In k (map fst kvs).
Proof.
  unfold pd.group_sums.
  assert (G : forall acc,
             NoDup (map fst acc) ->
             NoDup (map fst (fold_left
                       (fun acc kv => if isnull (fst kv) then acc
                                      else pd.group_add (fst kv) (snd kv) acc) kvs acc))
             /\ forall k,
                  In k (map fst (fold_left
                          (fun acc kv => if isnull (fst kv) then acc
                                         else pd.group_add (fst kv) (snd kv) acc) kvs acc)) ->
                  In k (map fst acc) \/ (k <> Null /\ In k (map fst kvs))).
  { induction kvs as [|[k v] kvs IH]; intros acc Hnd; simpl.
    - split; [assumption|]. intros k H. now left.
    - cbn [fst snd]. destruct (isnull k) eqn:N.
      + destruct (IH acc Hnd) as [H1 H2]. split; [assumption|].
        intros k' H. apply H2 in H. destruct H as [H|[H H']]; [now left|].
        right. split; [assumption|now right].
      + destruct (IH (pd.group_add k v acc) (NoDup_keys_group_add k v acc Hnd))
          as [H1 H2].
        split; [assumption|].
        intros k' H. apply H2 in H. destruct H as [H|[H H']].
        * apply In_keys_group_add in H. destruct H as [->|H]; [|now left].
          right. split; [|now left]. intros ->. discriminate.
        * right. split; [assumption|now right]. }
  destruct (G [] (NoDup_nil _)) as [H1 H2]. split; [assumption|].
  intros k H. apply H2 in H. destruct H as [[]|H]. exact H.
Qed.

(** ** Sorting the groups *)

Lemma In_insert_key {V : Type} (kv x : cell * V) (l : list (cell * V)) :
  In x (pd.insert_key kv l) <-> x = kv \/ In x l.
Proof.
  induction l as [|kv' l IH]; simpl.
  - intuition.
  - destruct (cell_leb (fst kv) (fst kv')); simpl.
    + intuition.
    + rewrite IH. intuition.
Qed.

Lemma In_sort_keys {V : Type} (x : cell * V) (l : list (cell * V)) :
  In x (pd.sort_keys l) <-> In x l.
Proof.
  unfold pd.sort_keys. induction l as [|kv l IH]; simpl; [tauto|].
  rewrite In_insert_key, IH. intuition.
Qed.

Lemma keys_insert_key {V : Type} (kv : cell * V) (l : list (cell * V)) :
  Permutation (map fst (pd.insert_key kv l)) (fst kv :: map fst l).
Proof.
  induction l as [|kv' l IH]; simpl; [reflexivity|].
  destruct (cell_leb (fst kv) (fst kv')); simpl; [reflexivity|].
  rewrite IH. apply perm_swap.
Qed.

Lemma keys_sort_keys {V : Type} (l : list (cell * V)) :
  Permutation (map fst (pd.sort_keys l)) (map fst l).
Proof.
  unfold pd.sort_keys. induction l as [|kv l IH]; simpl; [reflexivity|].
  rewrite keys_insert_key. now rewrite IH.
Qed.

(** With keys that do not repeat, the value under a key is the one paired
    with it. *)
Lemma In_unique_key {V : Type} (l : list (cell * V)) (k : cell) (v v' : V) :
  NoDup (map fst l) -> In (k, v) l -> In (k, v') l -> v = v'.
Proof.
  induction l as [|[k0 v0] l IH]; simpl; intros Hnd H H'; [contradiction|].
  inversion Hnd as [|? ? Hk Hrest]; subst.
  destruct H as [H|H], H' as [H'|H'].
  - congruence.
  - injection H as -> ->. exfalso. apply Hk. apply (in_map fst) in H'. exact H'.
  - injection H' as -> ->. exfalso. apply Hk. apply (in_map fst) in H. exact H.
  - now apply IH.
Qed.

Lemma lookup_key_In {V : Type} (l : list (cell * V)) (k : cell) (v : V) :
  pd.lookup_key k l = Some v -> In (k, v) l.
Proof.
  induction l as [|[k0 v0] l IH]; simpl; [discriminate|].
  destruct (cell_eqb k k0) eqn:E.
  - apply cell_eqb_eq in E. subst. intros [= ->]. now left.
  - intro H. right. now apply IH.
Qed.

Lemma In_lookup_key {V : Type} (l : list (cell * V)) (k : cell) (v : V) :
  NoDup (map fst l) -> In (k, v) l -> pd.lookup_key k l = Some v.
Proof.
  intros Hnd H. destruct (pd.lookup_key k l) as [v'|] eqn:L.
  - apply lookup_key_In in L. f_equal. exact (In_unique_key l k v' v Hnd L H).
  - exfalso. induction l as [|[k0 v0] l IH]; simpl in *; [contradiction|].
    destruct (cell_eqb k k0) eqn:E; [discriminate|].
    apply cell_eqb_neq in E. destruct H as [H|H]; [congruence|].
    inversion Hnd; subst. now apply IH.
Qed.

End GroupSums.

(* ================================================================== *)
(** * The summaries *)
Section Summaries.

Context {Sc : Scalars} {Un : Unspecified Sc}.

Definition add_cell (acc : num) (c : cell) : num :=
  match c with Num x => add acc x | _ => acc end.

(** The sum of column [j] over the rows of [df] whose cell in column [i]
    is [c], taken in the order of the rows. *)
Definition sum_where (i j : nat) (c : cell) (df : frame) : num :=
  fold_left
    (fun acc r => if cell_eqb (nth i (cells r) Null) c
                  then add_cell acc (nth j (cells r) Null) else acc)
    (rows df) zero.

Definition num_of (c : cell) : option num :=
  match c with Num x => Some x | _ => None end.

Lemma mapM_summand (col : list cell) (vs : list (option num)) :
  mapM pd.summand col = Ok vs -> vs = map num_of col.
Proof.
  revert vs. induction col as [|c col IH]; simpl; intros vs H.
  - now injection H as <-.
  - destruct (pd.summand c) as [v|e] eqn:E; simpl in H; [|discriminate].
    destruct (mapM pd.summand col) as [vs'|e]; simpl in H; [|discriminate].
    injection H as <-. rewrite (IH vs' eq_refl). f_equal.
    destruct c; simpl in E |- *; congruence.
Qed.

Lemma combine_map_map {A B C : Type} (f : A -> B) (g : A -> C) (l : list A) :
  combine (map f l) (map g l) = map (fun x => (f x, g x)) l.
Proof. induction l as [|x l IH]; simpl; [reflexivity|]. now rewrite IH. Qed.

(** The keyed values [groupby] reads off the rows. *)
Definition keyed (i j : nat) (df : frame) : list (cell * option num) :=
  map (fun r => (nth i (cells r) Null, num_of (nth j (cells r) Null))) (rows df).

Lemma combine_columns (i j : nat) (df : frame) :
  combine (pd.column i df) (map num_of (pd.column j df)) = keyed i j df.
Proof.
  unfold pd.column, keyed. rewrite map_map. apply combine_map_map.
Qed.

Lemma sum_from_keyed (i j : nat) (c : cell) (df : frame) :
  sum_from zero c (keyed i j df) = sum_where i j c df.
Proof.
  unfold sum_from, sum_where, keyed. generalize zero.
  induction (rows df) as [|r rs IH]; intro t; simpl; [reflexivity|].
  rewrite IH. f_equal.
  destruct (cell_eqb (nth i (cells r) Null) c); [|reflexivity].
  now destruct (nth j (cells r) Null).
Qed.

Lemma has_key_In (c : cell) (kvs : list (cell * option num)) :
  has_key c kvs = true <-> In c (map fst kvs).
Proof.
  unfold has_key. rewrite existsb_exists, in_map_iff. split.
  - intros [kv [H E]]. apply cell_eqb_eq in E. eauto.
  - intros [kv [E H]]. exists kv. split; [assumption|]. now apply cell_eqb_eq.
Qed.

Lemma keys_keyed (i j : nat) (df : frame) : map fst (keyed i j df) = pd.column i df.
Proof. unfold keyed, pd.column. rewrite map_map. reflexivity. Qed.

(** The table of sums of a grouping: its keys do not repeat, every
    category present has its row, and every row is the sum of a category
    present. *)
Lemma sum_table_spec (i j : nat) (df : frame) :
  let T := pd.sum_table (pd.column i df) (map num_of (pd.column j df)) in
  NoDup (map fst T)
  /\ (forall c, c <> Null -> In c (pd.column i df) -> In (c, sum_where i j c df) T)
  /\ (forall k t, In (k, t) T ->
        k <> Null /\ In k (pd.column i df) /\ t = sum_where i j k df).
Proof.
  unfold pd.sum_table. rewrite combine_columns.
  destruct (keys_group_sums (keyed i j df)) as [Hnd Hkeys].
  assert (L : forall c, c <> Null -> In c (pd.column i df) ->
                        pd.lookup_key c (pd.group_sums (keyed i j df))
                        = Some (sum_where i j c df)).
  { intros c Hc Hin. rewrite lookup_group_sums by assumption.
    rewrite <- keys_keyed with (j := j) in Hin. apply has_key_In in Hin.
    rewrite Hin. now rewrite sum_from_keyed. }
  split; [|split].
  - eapply Permutation_NoDup; [|exact Hnd]. symmetry. apply keys_sort_keys.
  - intros c Hc Hin. apply (proj2 (In_sort_keys _ _)). apply lookup_key_In.
    now apply L.
  - intros k t H. apply (proj1 (In_sort_keys _ _)) in H.
    destruct (Hkeys k (in_map fst _ _ H)) as [Hk Hin].
    rewrite keys_keyed in Hin. split; [assumption|]. split; [assumption|].
    pose proof (In_lookup_key _ k t Hnd H) as L'.
    rewrite (L k Hk Hin) in L'. congruence.
Qed.

(** [groupby(key)[val].sum().reset_index()] when each label names one
    column. *)
Lemma groupby_sum_single (df : frame) (key val : string) (i j : nat) (out : frame) :
  pd.positions key (columns df) = [i] ->
  pd.positions val (columns df) = [j] ->
  pd.groupby_sum df key val = Ok out ->
  out = mkFrame [key; val] None
          (pd.number_rows 0
             (map (fun kt => [fst kt; Num (snd kt)])
                (pd.sum_table (pd.column i df) (map num_of (pd.column j df))))).
Proof.
  intros Pk Pv. unfold pd.groupby_sum, pd.grouper, pd.select_values.
  rewrite Pk, Pv. destruct (pd.index_is df key); [discriminate|].
  cbn [obind mapM].
  destruct (mapM pd.summand (pd.column j df)) as [vs|e] eqn:E; [|discriminate].
  cbn [obind map]. apply mapM_summand in E. subst vs.
  intro H. injection H as <-. reflexivity.
Qed.

(** ** The monthly summary, step by step *)

Definition month_values (dates : list (option Z)) : list cell :=
  map pd.of_period (pd.dt_to_period_M dates).

Lemma monthly_Ok (dp : DataProcessor.t) (df : frame) (log : list log_entry)
    (result : frame) (st' : DataProcessor.t * list log_entry) :
  DataProcessor.data dp = Some df ->
  DataProcessor.get_monthly_summary (dp, log) = (Ok result, st') ->
  exists i dates monthly_totals months formatted,
    pd.positions "date" (columns df) = [i]
    /\ mapM pd.to_datetime_raise1 (pd.column i df) = Ok dates
    /\ st' = (DataProcessor.with_table dp (pd.setitem df "month" (month_values dates)), log)
    /\ pd.groupby_sum (pd.setitem df "month" (month_values dates)) "month" "sum rub"
       = Ok monthly_totals
    /\ pd.getitem monthly_totals "month" = Ok months
    /\ pd.dt_strftime_Ym months = Ok formatted
    /\ result = pd.setitem monthly_totals "month" formatted.
Proof.
  intros Hd. unfold DataProcessor.get_monthly_summary.
  rewrite (bind_Ok _ _ _ _ _ (the_data_Some dp log df Hd)).
  rewrite bind_lift. unfold pd.getitem at 1.
  destruct (pd.positions "date" (columns df)) as [|i [|i' rest]] eqn:P;
    [discriminate| |rewrite bind_lift; discriminate].
  rewrite bind_lift. cbn [pd.to_datetime].
  destruct (mapM pd.to_datetime_raise1 (pd.column i df)) as [dates|e] eqn:T;
    [|discriminate].
  fold (month_values dates).
  unfold bind at 1. unfold DataProcessor.set_data at 1.
  unfold bind at 1. unfold get_self at 1, set_self at 1. cbn [fst snd].
  rewrite (bind_Ok _ _ _ _ _
             (the_data_Some (DataProcessor.with_table dp (pd.setitem df "month" (month_values dates)))
                log _ (data_with_table _ _ _ Hd))).
  rewrite bind_lift.
  destruct (pd.groupby_sum _ "month" "sum rub") as [mt|e] eqn:G; [|discriminate].
  rewrite bind_lift.
  destruct (pd.getitem mt "month") as [months|e] eqn:GM; [|discriminate].
  rewrite bind_lift.
  destruct (pd.dt_strftime_Ym months) as [formatted|e] eqn:F; [|discriminate].
  unfold ret. intro H. injection H as <- <-.
  exists i, dates, mt, months, formatted. repeat split; assumption.
Qed.

Definition format_month (k : cell) : cell :=
  match k with Period p => Str (strftime_Ym p) | _ => k end.

Lemma mapM_strftime (ks fs : list cell) :
  mapM pd.strftime1 ks = Ok fs ->
  fs = map format_month ks
  /\ forall k, In k ks -> k <> Null -> exists p, k = Period p.
Proof.
  revert fs. induction ks as [|k ks IH]; simpl; intros fs H.
  - injection H as <-. split; [reflexivity|]. intros k [].
  - destruct (pd.strftime1 k) as [f|e] eqn:E; simpl in H; [|discriminate].
    destruct (mapM pd.strftime1 ks) as [fs'|e]; simpl in H; [|discriminate].
    injection H as <-. destruct (IH fs' eq_refl) as [-> Hks]. split.
    + f_equal. destruct k; simpl in E |- *; congruence.
    + intros k' [<-|Hin] Hn; [|now apply Hks].
      destruct k; simpl in E; try discriminate; try congruence. eauto.
Qed.

Lemma formatted_rows (T : list (cell * num)) (n : nat) :
  map (fun rv => mkRow (label (fst rv))
                   (pd.set_at "month" ["month"; "sum rub"] (cells (fst rv)) (snd rv)))
      (combine (pd.number_rows n (map (fun kt => [fst kt; Num (snd kt)]) T))
               (map (fun kt => format_month (fst kt)) T))
  = pd.number_rows n (map (fun kt => [format_month (fst kt); Num (snd kt)]) T).
Proof.
  revert n. induction T as [|[k t] T IH]; intro n; simpl; [reflexivity|].
  now rewrite IH.
Qed.

Lemma column0_number_rows (T : list (cell * num)) (n : nat) :
  map (fun r => nth 0 (cells r) Null)
      (pd.number_rows n (map (fun kt => [fst kt; Num (snd kt)]) T))
  = map fst T.
Proof.
  revert n. induction T as [|[k t] T IH]; intro n; simpl; [reflexivity|].
  now rewrite IH.
Qed.


Lemma contains_setitem (df : frame) (name : string) (values : list cell) :
  In name (columns (pd.setitem df name values)).
Proof.
  unfold pd.setitem. destruct (pd.contains name df) eqn:C; cbn [columns].
  - now apply contains_In.
  - apply in_or_app. right. now left.
Qed.

Lemma cells_summary_rows (T : list (cell * num)) (f : cell -> cell) (r : row) :
  In r (pd.number_rows 0 (map (fun kt => [f (fst kt); Num (snd kt)]) T)) ->
  exists k t, In (k, t) T /\ cells r = [f k; Num t].
Proof.
  intro H. apply (in_map cells) in H. rewrite cells_number_rows in H.
  apply in_map_iff in H. destruct H as [[k t] [E Hin]]. eauto.
Qed.

Lemma summary_rows_cells (T : list (cell * num)) (f : cell -> cell) (k : cell) (t : num) :
  In (k, t) T ->
  In [f k; Num t]
     (map cells (pd.number_rows 0 (map (fun kt => [f (fst kt); Num (snd kt)]) T))).
Proof.
  intro H. rewrite cells_number_rows.
  apply in_map_iff. exists (k, t). split; [reflexivity|assumption].
Qed.

(** The summary by category, row by row. *)
Lemma category_summary_rows
    (dp : DataProcessor.t) (df : frame) (log : list log_entry) (i j : nat)
    (summary : frame) (st' : DataProcessor.t * list log_entry) :
  DataProcessor.data dp = Some df ->
  pd.positions "category" (columns df) = [i] ->
  pd.positions "sum rub" (columns df) = [j] ->
  DataProcessor.get_category_summary (dp, log) = (Ok summary, st') ->
  (forall c, c <> Null -> In c (pd.column i df) ->
     In [c; Num (sum_where i j c df)] (map cells (rows summary)))
  /\ columns summary = ["category"; "sum rub"]
  /\ (forall r, In r (rows summary) ->
        exists c, c <> Null /\ In c (pd.column i df)
                  /\ cells r = [c; Num (sum_where i j c df)])
  /\ NoDup (map (fun r => hd Null (cells r)) (rows summary)).
Proof.
  intros Hd Pk Pv H.
  unfold DataProcessor.get_category_summary in H.
  rewrite (bind_Ok _ _ _ _ _ (the_data_Some dp log df Hd)) in H.
  unfold lift in H. injection H as H _.
  apply (groupby_sum_single df "category" "sum rub" i j summary Pk Pv) in H.
  destruct (sum_table_spec i j df) as [Hnd [Hall Hrow]].
  subst summary. cbn [columns rows]. split; [|split; [reflexivity|split]].
  - intros c Hc Hin.
    apply (summary_rows_cells _ (fun k => k)). now apply Hall.
  - intros r Hr. apply (cells_summary_rows _ (fun k => k)) in Hr.
    destruct Hr as [k [t [Hin E]]].
    destruct (Hrow k t Hin) as [Hk [Hc ->]]. eauto.
  - rewrite <- (map_map cells (hd Null)). rewrite cells_number_rows.
    rewrite map_map. exact Hnd.
Qed.

(** C4.  When [category] and [sum rub] each name one column and
    [get_category_summary] returns, the summary has one row per category
    present in the table, and the total in the row of a category is the
    sum of [sum rub] over exactly the rows of that category.  When
    [get_monthly_summary] returns, it has derived the months of the rows
    from their dates into the column [month], and its result has one row
    per month present there, formatted as year and month, with the sum
    of [sum rub] over exactly the rows of that month. *)
Theorem summary_totals_are_row_sums
    (dp : DataProcessor.t) (df : frame) (log : list log_entry) (j : nat) :
  DataProcessor.data dp = Some df ->
  pd.positions "sum rub" (columns df) = [j] ->
  (forall i summary st',
     pd.positions "category" (columns df) = [i] ->
     DataProcessor.get_category_summary (dp, log) = (Ok summary, st') ->
     columns summary = ["category"; "sum rub"]
     /\ (forall c, c <> Null -> In c (pd.column i df) ->
           In [c; Num (sum_where i j c df)] (map cells (rows summary)))
     /\ (forall r, In r (rows summary) ->
           exists c, c <> Null /\ In c (pd.column i df)
                     /\ cells r = [c; Num (sum_where i j c df)])
     /\ NoDup (map (fun r => hd Null (cells r)) (rows summary)))
  /\
  (forall result st',
     DataProcessor.get_monthly_summary (dp, log) = (Ok result, st') ->
     exists i dates df' m j',
       pd.positions "date" (columns df) = [i]
       /\ mapM pd.to_datetime_raise1 (pd.column i df) = Ok dates
       /\ df' = pd.setitem df "month" (month_values dates)
       /\ DataProcessor.data (fst st') = Some df'
       /\ pd.positions "month" (columns df') = [m]
       /\ pd.positions "sum rub" (columns df') = [j']
       /\ columns result = ["month"; "sum rub"]
       /\ (forall p, In (Period p) (pd.column m df') ->
             In [Str (strftime_Ym p); Num (sum_where m j' (Period p) df')]
                (map cells (rows result)))
       /\ (forall r, In r (rows result) ->
             exists p, In (Period p) (pd.column m df')
                       /\ cells r = [Str (strftime_Ym p);
                                     Num (sum_where m j' (Period p) df')])).
Proof.
  intros Hd Pv. split.
  - intros i summary st' Pk H.
    destruct (category_summary_rows dp df log i j summary st' Hd Pk Pv H)
      as [H1 [H2 [H3 H4]]].
    repeat split; assumption.
  - intros result st' H.
    destruct (monthly_Ok dp df log result st' Hd H)
      as [i [dates [mt [months [formatted [Pd [Td [-> [G [GM [F ->]]]]]]]]]]].
    set (df' := pd.setitem df "month" (month_values dates)) in *.
    (* the grouping key is a column of the table after the assignment *)
    assert (Pm : exists m, pd.positions "month" (columns df') = [m]).
    { unfold pd.groupby_sum, pd.grouper in G.
      destruct (pd.positions "month" (columns df')) as [|m [|m' ms]] eqn:P.
      - exfalso. apply positions_nil in P. apply P. apply contains_setitem.
      - eauto.
      - destruct (pd.index_is df' "month"); discriminate. }
    destruct Pm as [m Pm].
    assert (Pv' : exists j', pd.positions "sum rub" (columns df') = [j']).
    { destruct (setitem_columns df "month" (month_values dates)) as [_ [E|[_ E]]];
        fold df' in E; rewrite E.
      - eauto.
      - exists j. unfold pd.positions in *.
        clear - Pv. revert Pv. generalize 0.
        induction (columns df) as [|c cols IH]; intros n Pv; simpl in *; [discriminate|].
        destruct (String.eqb c "sum rub").
        + injection Pv as <- Pv. f_equal.
          apply positions_from_nil in Pv. apply positions_from_nil.
          rewrite in_app_iff. intros [G|[G|[]]]; [contradiction|discriminate].
        + now apply IH. }
    destruct Pv' as [j' Pv'].
    apply (groupby_sum_single df' "month" "sum rub" m j' mt Pm Pv') in G.
    destruct (sum_table_spec m j' df') as [Hnd [Hall Hrow]].
    set (T := pd.sum_table (pd.column m df') (map num_of (pd.column j' df'))) in *.
    subst mt. unfold pd.getitem in GM. cbn in GM. injection GM as <-.
    unfold pd.column in F. cbn [rows] in F. rewrite column0_number_rows in F.
    cbn [pd.dt_strftime_Ym] in F. apply mapM_strftime in F. destruct F as [-> Hper].
    exists i, dates, df', m, j'.
    split; [assumption|]. split; [assumption|]. split; [reflexivity|].
    split; [exact (data_with_table _ _ _ Hd)|]. split; [assumption|]. split; [assumption|].
    unfold pd.setitem. cbn [pd.contains columns existsb String.eqb Ascii.eqb Bool.eqb orb
                              index_name rows].
    rewrite (map_map fst format_month). rewrite formatted_rows.
    split; [reflexivity|]. split.
    + intros p Hin.
      apply (summary_rows_cells T format_month (Period p)).
      apply Hall; [discriminate|assumption].
    + intros r Hr. apply (cells_summary_rows T format_month) in Hr.
      destruct Hr as [k [t [Hin E]]].
      destruct (Hrow k t Hin) as [Hk [Hc ->]].
      destruct (Hper k (in_map fst _ _ Hin) Hk) as [p ->].
      exists p. split; assumption.
Qed.

End Summaries.

(* ================================================================== *)
(** * Subcategories refine categories *)
Section Refinement.

Context {Sc : Scalars} {Un : Unspecified Sc} {Ex : ExactSum Sc}.

Lemma add_zero_r (x : num) : add x zero = x.
Proof. rewrite add_comm. apply add_zero_l. Qed.

(** The sum of the totals of a table of groups. *)
Definition grand_total (t : list (cell * num)) : num :=
  fold_right (fun kt s => add (snd kt) s) zero t.

Lemma addv_add (x y : num) (v : option num) :
  add x (pd.addv y v) = pd.addv (add x y) v.
Proof. destruct v; simpl; [apply add_assoc|reflexivity]. Qed.

Lemma grand_total_group_add (k : cell) (v : option num) (acc : list (cell * num)) :
  grand_total (pd.group_add k v acc) = pd.addv (grand_total acc) v.
Proof.
  induction acc as [|[k' t] acc IH]; simpl.
  - rewrite add_zero_r. reflexivity.
  - destruct (cell_eqb k k'); simpl.
    + destruct v as [x|]; simpl; [|reflexivity].
      rewrite <- !add_assoc. f_equal. apply add_comm.
    + rewrite IH. apply addv_add.
Qed.

Lemma grand_total_fold (kvs : list (cell * option num)) :
  (forall kv, In kv kvs -> fst kv <> Null) ->
  forall acc,
    grand_total
      (fold_left
         (fun acc kv => if isnull (fst kv) then acc
                        else pd.group_add (fst kv) (snd kv) acc) kvs acc)
    = fold_left pd.addv (map snd kvs) (grand_total acc).
Proof.
  induction kvs as [|[k v] kvs IH]; intros Hk acc; simpl; [reflexivity|].
  assert (N : isnull k = false).
  { specialize (Hk (k, v) (or_introl eq_refl)). simpl in Hk. now destruct k. }
  rewrite N. rewrite IH.
  - now rewrite grand_total_group_add.
  - intros kv H. apply Hk. now right.
Qed.

Lemma grand_total_insert_key (kv : cell * num) (l : list (cell * num)) :
  grand_total (pd.insert_key kv l) = add (snd kv) (grand_total l).
Proof.
  induction l as [|kv' l IH]; simpl; [reflexivity|].
  destruct (cell_leb (fst kv) (fst kv')); simpl; [reflexivity|].
  rewrite IH. rewrite !add_assoc. f_equal. apply add_comm.
Qed.

Lemma grand_total_sort_keys (l : list (cell * num)) :
  grand_total (pd.sort_keys l) = grand_total l.
Proof.
  unfold pd.sort_keys. induction l as [|kv l IH]; simpl; [reflexivity|].
  now rewrite grand_total_insert_key, IH.
Qed.

(** The totals of a summary, added up in the order of its rows. *)
Definition sum_of_totals (summary : frame) : num :=
  fold_left add_cell (pd.column 1 summary) zero.

Lemma sum_of_totals_table (key val : string) (T : list (cell * num)) :
  sum_of_totals
    (mkFrame [key; val] None
       (pd.number_rows 0 (map (fun kt => [fst kt; Num (snd kt)]) T)))
  = grand_total T.
Proof.
  unfold sum_of_totals, pd.column. cbn [rows].
  rewrite <- (map_map cells (fun cs => nth 1 cs Null)). rewrite cells_number_rows.
  rewrite map_map. cbn [nth].
  transitivity (fold_left add (map snd T) zero).
  - generalize zero. induction T as [|[k t] T IH]; intro z; simpl; [reflexivity|].
    apply IH.
  - rewrite fold_symmetric.
    + unfold grand_total. induction T as [|[k t] T IH]; simpl; [reflexivity|].
      now rewrite IH.
    + apply add_assoc.
    + intro y. now rewrite add_zero_l, add_zero_r.
Qed.

Lemma fold_matching (i j : nat) (c : string) (rs : list row) :
  forall z,
    fold_left pd.addv
      (map (fun r => num_of (nth j (cells r) Null))
         (filter (fun r => cell_eqb (nth i (cells r) Null) (Str c)) rs))
      z
    = fold_left
        (fun acc r => if cell_eqb (nth i (cells r) Null) (Str c)
                      then add_cell acc (nth j (cells r) Null) else acc)
        rs z.
Proof.
  induction rs as [|r rs IH]; intro z; simpl; [reflexivity|].
  destruct (cell_eqb (nth i (cells r) Null) (Str c)); simpl; rewrite IH; [|reflexivity].
  f_equal. now destruct (nth j (cells r) Null).
Qed.

(** C10.  On a table in which [category], [subcategory] and [sum rub]
    each name one column and no subcategory is missing, as construction
    leaves it ([processed_column_present]), and with exact addition: when
    both summaries return, the totals of [get_subcategory_summary] for a
    category present add up to the total in that category's row of
    [get_category_summary]. *)
Theorem subcategory_totals_add_up_to_category_total
    (dp : DataProcessor.t) (df : frame) (log : list log_entry)
    (c : string) (i s j : nat) (sub cat : frame)
    (st1 st2 : DataProcessor.t * list log_entry) :
  DataProcessor.data dp = Some df ->
  pd.positions "category" (columns df) = [i] ->
  pd.positions "subcategory" (columns df) = [s] ->
  pd.positions "sum rub" (columns df) = [j] ->
  (forall r, In r (rows df) -> nth s (cells r) Null <> Null) ->
  In (Str c) (pd.column i df) ->
  DataProcessor.get_subcategory_summary c (dp, log) = (Ok sub, st1) ->
  DataProcessor.get_category_summary (dp, log) = (Ok cat, st2) ->
  In [Str c; Num (sum_of_totals sub)] (map cells (rows cat))
  /\ sum_of_totals sub = sum_where i j (Str c) df.
Proof.
  intros Hd Pc Ps Pv Hsub Hin Hs Hc.
  assert (E : sum_of_totals sub = sum_where i j (Str c) df).
  { unfold DataProcessor.get_subcategory_summary in Hs.
    rewrite (bind_Ok _ _ _ _ _ (filter_by_category_Ok dp df log c i Hd Pc)) in Hs.
    unfold lift in Hs. injection Hs as Hs _.
    apply (groupby_sum_single
             (mkFrame (columns df) (index_name df) (matching_rows i c df))
             "subcategory" "sum rub" s j sub Ps Pv) in Hs.
    subst sub. rewrite sum_of_totals_table.
    unfold pd.sum_table. rewrite combine_columns.
    rewrite grand_total_sort_keys. unfold pd.group_sums.
    rewrite grand_total_fold.
    - unfold keyed, matching_rows. cbn [rows grand_total].
      rewrite map_map. cbn [snd]. apply fold_matching.
    - intros kv H. unfold keyed in H. apply in_map_iff in H.
      destruct H as [r [<- Hr]]. cbn [fst rows] in *.
      unfold matching_rows in Hr. apply filter_In in Hr. apply Hsub. tauto. }
  split; [|exact E].
  rewrite E.
  destruct (category_summary_rows dp df log i j cat st2 Hd Pc Pv Hc) as [H _].
  apply H; [discriminate|assumption].
Qed.

End Refinement.

(* ================================================================== *)
(** * More on the reader *)
Section ReaderMore.

Context {Sc : Scalars}.
Variable api : google_api.

(** X1.  [_get_data] raises in no state of the reader.  With a service it
    fetches; without one it authorizes first and keeps the service; and
    when that authorization fails, the failure is swallowed like any other
    and the empty table is returned, where the constructor would raise. *)
Theorem get_data_never_raises (self : GoogleSheetsReader.t) (log : list log_entry) :
  exists df self' log',
    GoogleSheetsReader._get_data api (self, log) = (Ok df, (self', log'))
    /\ (forall svc,
          GoogleSheetsReader.spreadsheet_service self = Some svc ->
          self' = self
          /\ df = fetched (execute api svc (GoogleSheetsReader.spreadsheet_id self)
                             (GoogleSheetsReader.sheet_range self)))
    /\ (forall svc,
          GoogleSheetsReader.spreadsheet_service self = None ->
          authorize_outcome api (GoogleSheetsReader.credentials_file self) = Ok svc ->
          GoogleSheetsReader.spreadsheet_service self' = Some svc
          /\ GoogleSheetsReader.data self' = GoogleSheetsReader.data self
          /\ df = fetched (execute api svc (GoogleSheetsReader.spreadsheet_id self)
                             (GoogleSheetsReader.sheet_range self)))
    /\ (forall e,
          GoogleSheetsReader.spreadsheet_service self = None ->
          authorize_outcome api (GoogleSheetsReader.credentials_file self) = Raise e ->
          self' = self
          /\ df = pd.empty
          /\ In (ERROR, String.append "Failed to retrieve data from Google Sheets: "
                          (exn_str e)) log').
Proof.
  destruct (GoogleSheetsReader.spreadsheet_service self) as [svc|] eqn:Hs.
  - destruct (get_data_run api self log svc Hs) as [entry [Hrun _]].
    eexists. eexists. eexists. split; [exact Hrun|].
    split; [|split]; intros; try discriminate.
    injection H as <-. now split.
  - unfold GoogleSheetsReader._get_data, try_except.
    unfold bind at 1. unfold get_self at 1. cbn [fst]. rewrite Hs.
    unfold bind at 1. unfold bind at 1.
    destruct (authorize_outcome api (GoogleSheetsReader.credentials_file self))
      as [svc|e] eqn:Ha.
    + rewrite (authorize_Ok api self log svc Ha).
      unfold GoogleSheetsReader.set_spreadsheet_service.
      unfold bind at 1. unfold bind at 1. unfold get_self at 1, set_self at 1.
      cbn [fst snd]. unfold ret at 1.
      unfold bind at 1. unfold get_self at 1.
      cbn [fst GoogleSheetsReader.spreadsheet_id GoogleSheetsReader.sheet_range].
      rewrite bind_lift.
      destruct (execute api svc _ _) as [[[|header body]|]|e] eqn:He;
        [|rewrite bind_lift; destruct (pd.DataFrame body header) as [df|e] eqn:Ed| |];
        (eexists; eexists; eexists; split; [reflexivity|];
         split; [|split]; intros; try discriminate;
         try (match goal with H : Ok _ = Ok _ |- _ => injection H as <- end;
              cbn [fst GoogleSheetsReader.spreadsheet_service GoogleSheetsReader.data];
              rewrite He; cbn [fetched]; rewrite ?Ed; repeat split; reflexivity)).
    + destruct (authorize_Raise api self log e Ha) as [log1 [Hrun _]].
      rewrite Hrun. unfold bind, logging, ret. cbn [fst snd].
      eexists. eexists. eexists. split; [reflexivity|].
      split; [|split]; intros; try discriminate.
      injection H0 as <-. split; [reflexivity|]. split; [reflexivity|].
      apply in_or_app. right. now left.
Qed.

(** The table made of what a request answered. *)
Lemma fetched_table (result : outcome (option (list (list string)))) :
  rectangular (fetched result)
  /\ index_name (fetched result) = None
  /\ (forall row c, In row (rows (fetched result)) -> In c (cells row) ->
        c = Null \/ exists s, c = Str s).
Proof.
  assert (E : rectangular pd.empty /\ index_name pd.empty = None
              /\ (forall row c, In row (rows pd.empty) -> In c (cells row) ->
                    c = Null \/ exists s, c = Str s)).
  { split; [constructor|]. split; [reflexivity|]. intros row c []. }
  destruct result as [[[|header body]|]|e]; cbn [fetched]; try exact E.
  destruct (pd.DataFrame body header) as [df|e] eqn:Ed; [|exact E].
  split; [exact (DataFrame_is_rectangular body header df Ed)|].
  unfold pd.DataFrame in Ed. destruct body as [|r0 body].
  - injection Ed as <-. split; [reflexivity|]. intros row c [].
  - remember (r0 :: body) as data eqn:Hdata.
    destruct (Nat.eqb (pd.width data) (List.length header)); [|discriminate].
    injection Ed as <-. split; [reflexivity|]. cbn [rows].
    intros row c Hrow Hc. apply length_number_rows in Hrow.
    apply in_map_iff in Hrow. destruct Hrow as [x [Hx _]]. rewrite <- Hx in Hc.
    unfold pd.pad in Hc. apply in_app_or in Hc. destruct Hc as [Hc|Hc].
    + right. apply in_map_iff in Hc. destruct Hc as [s [<- _]]. eauto.
    + left. exact (repeat_spec _ _ _ Hc).
Qed.

Lemma new_reader_Ok (cf sid rng : string) (log log' : list log_entry)
    (r : GoogleSheetsReader.t) :
  GoogleSheetsReader.new api cf sid rng log = (Ok r, log') ->
  exists svc,
    authorize_outcome api cf = Ok svc
    /\ r = GoogleSheetsReader.mk cf sid rng (Some svc)
             (Some (fetched (execute api svc sid rng))).
Proof.
  intro H.
  destruct (authorize_outcome api cf) as [svc|e] eqn:Ha.
  - destruct (new_authorized api cf sid rng log svc Ha) as [entry [Hnew _]].
    rewrite Hnew in H. injection H as <- _. now exists svc.
  - destruct (new_unauthorized api cf sid rng log e Ha) as [log1 [Hnew _]].
    rewrite Hnew in H. discriminate.
Qed.

(** X2.  Whatever [GoogleSheetsReader(...)] returns holds the authorized
    service and a table; the table is rectangular, under the default
    index, and its cells are the fetched strings or missing. *)
Theorem constructed_reader_invariants
    (cf sid rng : string) (log log' : list log_entry) (r : GoogleSheetsReader.t) :
  GoogleSheetsReader.new api cf sid rng log = (Ok r, log') ->
  exists svc df,
    authorize_outcome api cf = Ok svc
    /\ r = GoogleSheetsReader.mk cf sid rng (Some svc) (Some df)
    /\ rectangular df
    /\ index_name df = None
    /\ (forall row c, In row (rows df) -> In c (cells row) ->
          c = Null \/ exists s, c = Str s).
Proof.
  intro H. destruct (new_reader_Ok cf sid rng log log' r H) as [svc [Ha Hr]].
  exists svc, (fetched (execute api svc sid rng)).
  split; [exact Ha|]. split; [exact Hr|]. apply fetched_table.
Qed.

Lemma width_of_widest (body : list (list string)) (n : nat) :
  Forall (fun r => List.length r <= n) body ->
  Exists (fun r => List.length r = n) body ->
  pd.width body = n.
Proof.
  unfold pd.width. induction body as [|r body IH]; intros Hall Hex.
  - inversion Hex.
  - simpl. inversion Hall as [|? ? Hr Hrest]; subst.
    assert (W : fold_right (fun r w => Nat.max (List.length r) w) 0 body <= n).
    { clear - Hrest. induction Hrest as [|x l Hx Hl IHl]; simpl; lia. }
    inversion Hex as [? ? E|? ? E]; subst.
    + lia.
    + rewrite (IH Hrest E). lia.
Qed.

(** X3.  The sheets API leaves out the empty cells at the end of a row.  When
    no row is longer than the header and one is as long, the reader keeps
    every row, in order, and fills the short ones up with missing
    values. *)
Theorem reader_pads_short_rows
    (cf sid rng : string) (log : list log_entry) (svc : service)
    (header : list string) (body : list (list string)) :
  authorize_outcome api cf = Ok svc ->
  execute api svc sid rng = Ok (Some (header :: body)) ->
  Forall (fun r => List.length r <= List.length header) body ->
  Exists (fun r => List.length r = List.length header) body ->
  exists r log' df,
    GoogleSheetsReader.new api cf sid rng log = (Ok r, log')
    /\ GoogleSheetsReader.data r = Some df
    /\ columns df = header
    /\ map cells (rows df)
       = map (fun r => map Str r
                       ++ repeat Null (List.length header - List.length r)) body.
Proof.
  intros Ha He Hall Hex.
  destruct (new_authorized api cf sid rng log svc Ha) as [entry [Hnew _]].
  rewrite He in Hnew. cbn [fetched] in Hnew.
  assert (D : pd.DataFrame body header
              = Ok (mkFrame header None
                      (pd.number_rows 0
                         (map (fun r => pd.pad (List.length header) (map Str r)) body)))).
  { unfold pd.DataFrame. destruct body as [|r0 body]; [inversion Hex|].
    rewrite (width_of_widest _ _ Hall Hex). now rewrite Nat.eqb_refl. }
  rewrite D in Hnew.
  eexists. eexists. eexists. split; [exact Hnew|].
  cbn [GoogleSheetsReader.data]. split; [reflexivity|]. cbn [columns rows].
  split; [reflexivity|]. rewrite cells_number_rows.
  apply map_ext. intro r. unfold pd.pad. now rewrite length_map.
Qed.

(** X4.  When every row under the header is shorter than the header (a last
    column empty throughout), or some row is longer, pandas refuses the
    values, and the reader is left with the empty table: the whole sheet
    is dropped, with the error logged. *)
Theorem reader_drops_sheet_on_width_mismatch
    (cf sid rng : string) (log : list log_entry) (svc : service)
    (header : list string) (body : list (list string)) :
  authorize_outcome api cf = Ok svc ->
  execute api svc sid rng = Ok (Some (header :: body)) ->
  body <> [] ->
  Forall (fun r => List.length r < List.length header) body
  \/ Exists (fun r => List.length header < List.length r) body ->
  exists r log' msg,
    GoogleSheetsReader.new api cf sid rng log = (Ok r, log')
    /\ GoogleSheetsReader.data r = Some pd.empty
    /\ In (ERROR, String.append "Failed to retrieve data from Google Sheets: " msg) log'.
Proof.
  intros Ha He Hne Hw.
  assert (W : pd.width body <> List.length header).
  { destruct Hw as [Hall|Hex].
    - assert (L : pd.width body < List.length header).
      { unfold pd.width. clear - Hall Hne.
        induction Hall as [|x l Hx Hl IHl]; [congruence|]. simpl.
        destruct l as [|y l]; [simpl; lia|].
        assert (y :: l <> []) as Hyl by discriminate.
        specialize (IHl Hyl). lia. }
      lia.
    - assert (L : List.length header < pd.width body).
      { apply Exists_exists in Hex. destruct Hex as [x [Hin Hx]].
        pose proof (length_le_width body x Hin). lia. }
      lia. }
  destruct (new_authorized api cf sid rng log svc Ha) as [entry [Hnew [_ [_ H3]]]].
  assert (D : exists e, pd.DataFrame body header = Raise e).
  { unfold pd.DataFrame. destruct body as [|r0 body]; [congruence|].
    apply Nat.eqb_neq in W. rewrite W. eauto. }
  destruct D as [e D].
  rewrite He in Hnew. cbn [fetched] in Hnew. rewrite D in Hnew.
  eexists. eexists. exists (exn_str e). split; [exact Hnew|].
  cbn [GoogleSheetsReader.data]. split; [reflexivity|].
  apply in_or_app. right. left. exact (H3 header body e He D).
Qed.

End ReaderMore.

(* ================================================================== *)
(** * More on the processor *)
Section ProcessorMore.

Context {Sc : Scalars} {Un : Unspecified Sc}.

(** X5.  [DataProcessor(arg)] returns a processor exactly when [arg] is a
    reader that holds a table in which each of the labels [date],
    [sum rub] and [sum currency] names at most one column; the contents
    of the cells never make it raise. *)
Theorem processor_is_constructed_iff (o : object) (log : list log_entry) :
  (exists dp log', DataProcessor.new o log = (Ok dp, log'))
  <-> (exists r df0,
         o = reader_object r
         /\ GoogleSheetsReader.data r = Some df0
         /\ at_most_once "date" df0
         /\ at_most_once "sum rub" df0
         /\ at_most_once "sum currency" df0).
Proof.
  split.
  - intros [dp [log' H]].
    destruct (new_Ok_inv o log log' dp H) as [r [df0 [Ho [Hd [H1 [H2 [H3 _]]]]]]].
    exists r, df0. auto.
  - intros [r [df0 [-> [Hd [H1 [H2 H3]]]]]].
    rewrite (new_run r df0 log Hd), (coercion_Ok df0 H1 H2 H3).
    eexists. eexists. reflexivity.
Qed.

(** The cells a table has under its labels, row by row. *)
Definition typed (df : frame) : Prop :=
  forall r name c,
    In r (rows df) -> In (name, c) (combine (columns df) (cells r)) ->
    (name = "date" -> c = Num zero \/ exists ns, c = Timestamp ns)
    /\ (name = "sum rub" \/ name = "sum currency" -> exists x, c = Num x).

Lemma In_combine_processed (name : string) (c : cell) (cols : list string) :
  forall cs,
    In (name, c) (combine cols (map pd.fill0 (zipmap coerce cols cs))) ->
    exists c0, In (name, c0) (combine cols cs) /\ c = pd.fill0 (coerce name c0).
Proof.
  induction cols as [|col cols IH]; intros cs H; [inversion H|].
  destruct cs as [|x cs]; [inversion H|].
  cbn [zipmap map combine] in H. destruct H as [H|H].
  - injection H as <- <-. exists x. split; [now left|reflexivity].
  - destruct (IH cs H) as [c0 [Hin Hc]]. exists c0. split; [now right|exact Hc].
Qed.

Lemma coerce_date (c0 : cell) :
  pd.fill0 (coerce "date" c0) = Num zero
  \/ exists ns, pd.fill0 (coerce "date" c0) = Timestamp ns.
Proof.
  unfold coerce. cbn [String.eqb Ascii.eqb Bool.eqb].
  destruct (pd.to_datetime_coerce1 c0) as [ns|]; cbn; eauto.
Qed.

Lemma coerce_amount (name : string) (c0 : cell) :
  name = "sum rub" \/ name = "sum currency" ->
  exists x, pd.fill0 (coerce name c0) = Num x.
Proof.
  intros [->| ->]; unfold coerce; cbn [String.eqb Ascii.eqb Bool.eqb];
    destruct (pd.to_numeric_coerce1 c0) as [x|]; cbn; eauto.
Qed.

Lemma processed_typed (df0 : frame) : typed (processed df0).
Proof.
  intros r name c Hr Hc. cbn [processed rows columns] in Hr, Hc.
  apply in_map_iff in Hr. destruct Hr as [r0 [<- _]]. cbn [cells] in Hc.
  destruct (In_combine_processed name c _ _ Hc) as [c0 [_ ->]].
  split.
  - intros ->. apply coerce_date.
  - apply coerce_amount.
Qed.

(** X6.  After construction every cell under [sum rub] and [sum currency] is a
    number, and every cell under [date] is a timestamp or the 0 that
    filled a date that could not be read. *)
Theorem constructed_columns_are_typed
    (o : object) (log log' : list log_entry) (dp : DataProcessor.t) :
  DataProcessor.new o log = (Ok dp, log') ->
  exists df,
    DataProcessor.data dp = Some df
    /\ forall r name c,
         In r (rows df) -> In (name, c) (combine (columns df) (cells r)) ->
         (name = "date" -> c = Num zero \/ exists ns, c = Timestamp ns)
         /\ (name = "sum rub" \/ name = "sum currency" -> exists x, c = Num x).
Proof.
  intro H.
  destruct (new_Ok_inv o log log' dp H) as [r [df0 [_ [_ [_ [_ [_ ->]]]]]]].
  exists (processed df0). split; [reflexivity|]. apply processed_typed.
Qed.

(** ** Labels and positions *)

Lemma positions_from_nth_error (name : string) (cols : list string) :
  forall i j, In j (pd.positions_from i name cols) ->
              nth_error cols (j - i) = Some name.
Proof.
  induction cols as [|c cols IH]; intros i j H; [inversion H|].
  cbn [pd.positions_from] in H.
  assert (R : In j (pd.positions_from (S i) name cols) ->
              nth_error (c :: cols) (j - i) = Some name).
  { intro H'. pose proof (positions_from_ge _ _ _ _ H') as Hge.
    replace (j - i) with (S (j - S i)) by lia. cbn. now apply IH. }
  destruct (String.eqb c name) eqn:E.
  - destruct H as [<-|H]; [|now apply R].
    rewrite Nat.sub_diag. cbn. apply String.eqb_eq in E. now subst.
  - now apply R.
Qed.

Lemma positions_nth_error (name : string) (cols : list string) (j : nat) :
  In j (pd.positions name cols) -> nth_error cols j = Some name.
Proof.
  intro H. apply positions_from_nth_error in H. now rewrite Nat.sub_0_r in H.
Qed.

Lemma nth_combine_label (cols : list string) :
  forall (cs : list cell) (j : nat) (name : string),
    nth_error cols j = Some name -> j < List.length cs ->
    In (name, nth j cs Null) (combine cols cs).
Proof.
  induction cols as [|c cols IH]; intros cs j name Hn Hj.
  - destruct j; discriminate.
  - destruct cs as [|x cs]; [cbn in Hj; lia|]. destruct j as [|j].
    + injection Hn as ->. now left.
    + cbn [combine nth]. right. apply IH; [exact Hn|cbn [List.length] in Hj; lia].
Qed.

(** The cells of a column of a typed table under an amount label. *)
Lemma typed_amounts (df : frame) (name : string) (j : nat) :
  typed df ->
  name = "sum rub" \/ name = "sum currency" ->
  In j (pd.positions name (columns df)) ->
  forall c, In c (pd.column j df) -> c = Null \/ exists x, c = Num x.
Proof.
  intros T Hname Hj c Hc. unfold pd.column in Hc.
  apply in_map_iff in Hc. destruct Hc as [r [<- Hr]].
  destruct (Nat.lt_ge_cases j (List.length (cells r))) as [L|L].
  - right. apply positions_nth_error in Hj.
    exact (proj2 (T r name _ Hr (nth_combine_label _ _ _ _ Hj L)) Hname).
  - left. now apply nth_overflow.
Qed.

Lemma mapM_summand_Ok (col : list cell) :
  (forall c, In c col -> c = Null \/ exists x, c = Num x) ->
  mapM pd.summand col = Ok (map num_of col).
Proof.
  induction col as [|c col IH]; intro H; [reflexivity|].
  cbn [mapM map]. rewrite IH by (intros c' Hc'; apply H; now right).
  destruct (H c (or_introl eq_refl)) as [->|[x ->]]; reflexivity.
Qed.

(** The frame [groupby(key)[val].sum().reset_index()] makes of the sums
    by key. *)
Definition sums_frame (key val : string) (T : list (cell * num)) : frame :=
  mkFrame [key; val] None
    (pd.number_rows 0 (map (fun kt => [fst kt; Num (snd kt)]) T)).

Lemma groupby_sum_Ok (df : frame) (key val : string) (i j : nat) :
  pd.positions key (columns df) = [i] ->
  pd.positions val (columns df) = [j] ->
  pd.index_is df key = false ->
  (forall c, In c (pd.column j df) -> c = Null \/ exists x, c = Num x) ->
  pd.groupby_sum df key val
  = Ok (sums_frame key val
          (pd.sum_table (pd.column i df) (map num_of (pd.column j df)))).
Proof.
  intros Hi Hj Hx Hc. unfold pd.groupby_sum, pd.grouper, pd.select_values.
  rewrite Hi, Hj, Hx. cbn [obind mapM]. rewrite (mapM_summand_Ok _ Hc).
  reflexivity.
Qed.



(** ** The values of a group, for mean and median *)

Definition values_from (vs : list num) (c : cell) (kvs : list (cell * option num))
  : list num :=
  fold_left (fun acc kv => if cell_eqb (fst kv) c then pd.pushv acc (snd kv) else acc)
    kvs vs.

Lemma lookup_group_push (c k : cell) (v : option num) (acc : list (cell * list num)) :
  pd.lookup_key c (pd.group_push k v acc)
  = if cell_eqb c k
    then Some (pd.pushv (match pd.lookup_key c acc with Some t => t | None => [] end) v)
    else pd.lookup_key c acc.
Proof.
  induction acc as [|[k' t] acc IH]; simpl.
  - destruct (cell_eqb c k); reflexivity.
  - destruct (cell_eqb k k') eqn:E; simpl.
    + apply cell_eqb_eq in E. subst k'.
      destruct (cell_eqb c k); reflexivity.
    + rewrite IH. destruct (cell_eqb c k') eqn:E'; [|reflexivity].
      apply cell_eqb_eq in E'. subst k'.
      rewrite cell_eqb_sym, E. reflexivity.
Qed.

Lemma lookup_fold_group_push (c : cell) (kvs : list (cell * option num)) :
  c <> Null ->
  forall acc,
    pd.lookup_key c
      (fold_left
         (fun acc kv => if isnull (fst kv) then acc
                        else pd.group_push (fst kv) (snd kv) acc) kvs acc)
    = match pd.lookup_key c acc with
      | Some t => Some (values_from t c kvs)
      | None => if has_key c kvs then Some (values_from [] c kvs) else None
      end.
Proof.
  intro Hc. induction kvs as [|[k v] kvs IH]; intro acc; simpl.
  - destruct (pd.lookup_key c acc); reflexivity.
  - rewrite IH. cbn [fst snd]. unfold values_from. simpl.
    destruct (isnull k) eqn:N.
    + destruct k; try discriminate.
      assert (E : cell_eqb Null c = false) by (now destruct c).
      rewrite E. reflexivity.
    + rewrite lookup_group_push. rewrite (cell_eqb_sym c k).
      destruct (cell_eqb k c); simpl; [|reflexivity].
      destruct (pd.lookup_key c acc); reflexivity.
Qed.

Lemma keys_group_push (k : cell) (v : option num) (acc : list (cell * list num)) :
  (In k (map fst acc) -> map fst (pd.group_push k v acc) = map fst acc)
  /\ (~ In k (map fst acc) -> map fst (pd.group_push k v acc) = map fst acc ++ [k]).
Proof.
  induction acc as [|[k' t] acc [IH1 IH2]]; simpl.
  - split; [intros []|reflexivity].
  - destruct (cell_eqb k k') eqn:E; simpl.
    + apply cell_eqb_eq in E. subst k'. split; [reflexivity|]. intro H. exfalso. auto.
    + apply cell_eqb_neq in E. split.
      * intros [H|H]; [congruence|]. now rewrite IH1.
      * intro H. rewrite IH2; [reflexivity|]. auto.
Qed.

Lemma cell_eq_dec (a b : cell) : {a = b} + {a <> b}.
Proof.
  destruct (cell_eqb a b) eqn:E.
  - left. now apply cell_eqb_eq.
  - right. now apply cell_eqb_neq.
Qed.

Lemma NoDup_keys_group_push (k : cell) (v : option num) (acc : list (cell * list num)) :
  NoDup (map fst acc) -> NoDup (map fst (pd.group_push k v acc)).
Proof.
  intro H. destruct (keys_group_push k v acc) as [H1 H2].
  destruct (in_dec cell_eq_dec k (map fst acc)) as [Hin|Hn].
  - now rewrite H1.
  - rewrite H2 by assumption.
    apply NoDup_rev in H. rewrite <- (rev_involutive (map fst acc ++ [k])).
    apply NoDup_rev. rewrite rev_app_distr. simpl. constructor; [|assumption].
    now rewrite <- in_rev.
Qed.

Lemma In_keys_group_push (k k' : cell) (v : option num) (acc : list (cell * list num)) :
  In k' (map fst (pd.group_push k v acc)) -> k' = k \/ In k' (map fst acc).
Proof.
  induction acc as [|[k0 t] acc IH]; simpl.
  - intros [H|[]]. now left.
  - destruct (cell_eqb k k0); simpl.
    + intros [H|H]; auto.
    + intros [H|H]; auto. apply IH in H. tauto.
Qed.

Lemma keys_group_values (kvs : list (cell * option num)) :
  NoDup (map fst (pd.group_values kvs))
  /\ forall k, In k (map fst (pd.group_values kvs)) -> k <> Null /\ In k (map fst kvs).
Proof.
  unfold pd.group_values.
  assert (G : forall acc,
             NoDup (map fst acc) ->
             NoDup (map fst (fold_left
                       (fun acc kv => if isnull (fst kv) then acc
                                      else pd.group_push (fst kv) (snd kv) acc) kvs acc))
             /\ forall k,
                  In k (map fst (fold_left
                          (fun acc kv => if isnull (fst kv) then acc
                                         else pd.group_push (fst kv) (snd kv) acc) kvs acc)) ->
                  In k (map fst acc) \/ (k <> Null /\ In k (map fst kvs))).
  { induction kvs as [|[k v] kvs IH]; intros acc Hnd; simpl.
    - split; [assumption|]. intros k H. now left.
    - cbn [fst snd]. destruct (isnull k) eqn:N.
      + destruct (IH acc Hnd) as [H1 H2]. split; [assumption|].
        intros k' H. apply H2 in H. destruct H as [H|[H H']]; [now left|].
        right. split; [assumption|now right].
      + destruct (IH (pd.group_push k v acc) (NoDup_keys_group_push k v acc Hnd))
          as [H1 H2].
        split; [assumption|].
        intros k' H. apply H2 in H. destruct H as [H|[H H']].
        * apply In_keys_group_push in H. destruct H as [->|H]; [|now left].
          right. split; [|now left]. intros ->. discriminate.
        * right. split; [assumption|now right]. }
  destruct (G [] (NoDup_nil _)) as [H1 H2]. split; [assumption|].
  intros k H. apply H2 in H. destruct H as [[]|H]. exact H.
Qed.

(** The amounts in column [j] of the rows of [df] whose cell in column
    [i] is [c], in the order of the rows. *)
Definition values_where (i j : nat) (c : cell) (df : frame) : list num :=
  flat_map
    (fun r => if cell_eqb (nth i (cells r) Null) c
              then match nth j (cells r) Null with Num x => [x] | _ => [] end
              else [])
    (rows df).

Lemma values_from_keyed (i j : nat) (c : cell) (df : frame) :
  values_from [] c (keyed i j df) = values_where i j c df.
Proof.
  unfold values_from, values_where, keyed.
  assert (G : forall rs vs,
            fold_left
              (fun acc kv => if cell_eqb (fst kv) c then pd.pushv acc (snd kv) else acc)
              (map (fun r => (nth i (cells r) Null, num_of (nth j (cells r) Null))) rs) vs
            = vs ++ flat_map
                (fun r => if cell_eqb (nth i (cells r) Null) c
                          then match nth j (cells r) Null with Num x => [x] | _ => [] end
                          else []) rs).
  { induction rs as [|r rs IH]; intro vs; simpl; [now rewrite app_nil_r|].
    rewrite IH. destruct (cell_eqb (nth i (cells r) Null) c).
    - destruct (nth j (cells r) Null); simpl; rewrite <- ?app_assoc; reflexivity.
    - reflexivity. }
  exact (G (rows df) []).
Qed.

Lemma values_table_spec (i j : nat) (df : frame) :
  let T := pd.values_table (pd.column i df) (map num_of (pd.column j df)) in
  NoDup (map fst T)
  /\ (forall c, c <> Null -> In c (pd.column i df) -> In (c, values_where i j c df) T)
  /\ (forall k t, In (k, t) T ->
        k <> Null /\ In k (pd.column i df) /\ t = values_where i j k df).
Proof.
  unfold pd.values_table. rewrite combine_columns.
  destruct (keys_group_values (keyed i j df)) as [Hnd Hkeys].
  assert (L : forall c, c <> Null -> In c (pd.column i df) ->
                        pd.lookup_key c (pd.group_values (keyed i j df))
                        = Some (values_where i j c df)).
  { intros c Hc Hin. unfold pd.group_values.
    rewrite lookup_fold_group_push by assumption. cbn [pd.lookup_key].
    rewrite <- keys_keyed with (j := j) in Hin. apply has_key_In in Hin.
    rewrite Hin. now rewrite values_from_keyed. }
  split; [|split].
  - eapply Permutation_NoDup; [|exact Hnd]. symmetry. apply keys_sort_keys.
  - intros c Hc Hin. apply (proj2 (In_sort_keys _ _)). apply lookup_key_In.
    now apply L.
  - intros k t H. apply (proj1 (In_sort_keys _ _)) in H.
    destruct (Hkeys k (in_map fst _ _ H)) as [Hk Hin].
    rewrite keys_keyed in Hin. split; [assumption|]. split; [assumption|].
    pose proof (In_lookup_key _ k t Hnd H) as L'.
    rewrite (L k Hk Hin) in L'. congruence.
Qed.

(** The frame of means and medians by key, under the names the processor
    gives its columns. *)
Definition mean_median_frame (T : list (cell * list num)) : frame :=
  mkFrame ["category"; "mean_expense"; "median_expense"] None
    (pd.number_rows 0
       (map (fun kt => [fst kt; pd.agg_cell mean (snd kt); pd.agg_cell median (snd kt)])
          T)).

Lemma mean_median_run
    (dp : DataProcessor.t) (df : frame) (log : list log_entry) (i j : nat) :
  DataProcessor.data dp = Some df ->
  pd.positions "category" (columns df) = [i] ->
  pd.positions "sum rub" (columns df) = [j] ->
  pd.index_is df "category" = false ->
  (forall c, In c (pd.column j df) -> c = Null \/ exists x, c = Num x) ->
  DataProcessor.get_category_mean_median (dp, log)
  = (Ok (mean_median_frame
           (pd.values_table (pd.column i df) (map num_of (pd.column j df)))),
     (dp, log ++ [(INFO, "Calculated mean and median expenses by category.")])).
Proof.
  intros Hd Hi Hj Hx Hc.
  unfold DataProcessor.get_category_mean_median, try_except.
  rewrite (bind_Ok _ _ _ _ _ (the_data_Some dp log df Hd)).
  rewrite bind_lift.
  unfold pd.groupby_mean_median, pd.grouper, pd.select_values.
  rewrite Hi, Hj, Hx. cbn [obind mapM]. rewrite (mapM_summand_Ok _ Hc).
  cbn [obind map flat_map app]. rewrite bind_lift.
  reflexivity.
Qed.

End ProcessorMore.

(* ================================================================== *)
(** * From the sheet to the summaries

    A processor made of a reader that [GoogleSheetsReader(...)] returned:
    the table is rectangular, under the default index, typed and without
    missing values, so the summaries of the columns that are there once
    do return. *)
Section Pipeline.

Context {Sc : Scalars} {Un : Unspecified Sc}.
Variable api : google_api.

Lemma pipeline_facts
    (cf sid rng : string) (log0 log1 log2 log3 : list log_entry)
    (r : GoogleSheetsReader.t) (dp : DataProcessor.t) (df : frame) :
  GoogleSheetsReader.new api cf sid rng log0 = (Ok r, log1) ->
  DataProcessor.new (reader_object r) log2 = (Ok dp, log3) ->
  DataProcessor.data dp = Some df ->
  rectangular df
  /\ index_name df = None
  /\ typed df
  /\ (forall row c, In row (rows df) -> In c (cells row) -> c <> Null).
Proof.
  intros Hr Hp Hd.
  destruct (new_reader_Ok api cf sid rng log0 log1 r Hr) as [svc [_ ->]].
  destruct (new_Ok_inv _ log2 log3 dp Hp) as [r' [df0 [Ho [Hd0 [_ [_ [_ ->]]]]]]].
  injection Ho as <-. cbn [GoogleSheetsReader.data] in Hd0. injection Hd0 as <-.
  cbn [DataProcessor.data] in Hd. injection Hd as <-.
  destruct (fetched_table (execute api svc sid rng)) as [R [I _]].
  split; [now apply processed_rectangular|]. split; [exact I|].
  split; [apply processed_typed|]. apply processed_no_null.
Qed.

Lemma column_cell (df : frame) (name : string) (j : nat) (r : row) :
  rectangular df ->
  In j (pd.positions name (columns df)) ->
  In r (rows df) ->
  In (name, nth j (cells r) Null) (combine (columns df) (cells r))
  /\ In (nth j (cells r) Null) (cells r).
Proof.
  intros R Hj Hr.
  assert (L : j < List.length (cells r)).
  { pose proof (positions_from_lt _ _ _ _ Hj) as L.
    rewrite (proj1 (Forall_forall _ _) R r Hr). exact L. }
  split.
  - apply nth_combine_label; [now apply positions_nth_error|exact L].
  - now apply nth_In.
Qed.

Lemma In_singleton (j : nat) (l : list nat) : l = [j] -> In j l.
Proof. intros ->. now left. Qed.

(** X7.  On a processor made of a constructed reader, whose table has
    the labels [category] and [sum rub] once each, [get_category_summary]
    returns: a table under a fresh default index that lists exactly the
    categories of the table, and the processor and the log are as
    before. *)
Theorem category_summary_succeeds
    (cf sid rng : string) (log0 log1 log2 log3 log : list log_entry)
    (r : GoogleSheetsReader.t) (dp : DataProcessor.t) (df : frame) (i j : nat) :
  GoogleSheetsReader.new api cf sid rng log0 = (Ok r, log1) ->
  DataProcessor.new (reader_object r) log2 = (Ok dp, log3) ->
  DataProcessor.data dp = Some df ->
  pd.positions "category" (columns df) = [i] ->
  pd.positions "sum rub" (columns df) = [j] ->
  exists summary,
    DataProcessor.get_category_summary (dp, log) = (Ok summary, (dp, log))
    /\ columns summary = ["category"; "sum rub"]
    /\ index_name summary = None
    /\ map label (rows summary) = map Pos (seq 0 (List.length (rows summary)))
    /\ (forall c, In c (pd.column 0 summary) <-> In c (pd.column i df)).
Proof.
  intros Hr Hp Hd Hi Hj.
  destruct (pipeline_facts cf sid rng log0 log1 log2 log3 r dp df Hr Hp Hd)
    as [R [I [T N]]].
  assert (Hx : pd.index_is df "category" = false)
    by (unfold pd.index_is; now rewrite I).
  pose proof (typed_amounts df "sum rub" j T (or_introl eq_refl)
                (In_singleton _ _ Hj)) as Hc.
  eexists. split.
  { unfold DataProcessor.get_category_summary.
    rewrite (bind_Ok _ _ _ _ _ (the_data_Some dp log df Hd)).
    unfold lift. rewrite (groupby_sum_Ok df _ _ i j Hi Hj Hx Hc). reflexivity. }
  split; [reflexivity|]. split; [reflexivity|].
  cbn [sums_frame rows]. split.
  { rewrite label_number_rows. f_equal. f_equal.
    clear. generalize 0.
    induction (map (fun kt : cell * num => [fst kt; Num (snd kt)])
                 (pd.sum_table (pd.column i df) (map num_of (pd.column j df))))
      as [|x l IH]; intro n; [reflexivity|]. cbn. f_equal. apply IH. }
  intro c. unfold pd.column at 1. cbn [sums_frame rows].
  rewrite column0_number_rows.
  destruct (sum_table_spec i j df) as [_ [S1 S2]].
  split.
  - intro H. apply in_map_iff in H. destruct H as [[k t] [<- H]].
    exact (proj1 (proj2 (S2 k t H))).
  - intro H. apply in_map_iff. exists (c, sum_where i j c df). split; [reflexivity|].
    apply S1; [|exact H].
    unfold pd.column in H. apply in_map_iff in H. destruct H as [row [<- Hrow]].
    apply (N row); [exact Hrow|].
    exact (proj2 (column_cell df "category" i row R (In_singleton _ _ Hi) Hrow)).
Qed.


Lemma values_where_In (i j : nat) (c : cell) (df : frame) (r : row) (x : num) :
  In r (rows df) ->
  nth i (cells r) Null = c ->
  nth j (cells r) Null = Num x ->
  In x (values_where i j c df).
Proof.
  intros Hr Hi Hj. unfold values_where. apply in_flat_map. exists r.
  split; [exact Hr|]. rewrite Hi, cell_eqb_refl, Hj. now left.
Qed.

Lemma agg_cell_Num (f : list num -> num) (vs : list num) (x : num) :
  In x vs -> pd.agg_cell f vs = Num (f vs).
Proof. destruct vs; [intros []|reflexivity]. Qed.

(** X8.  On such a processor [get_category_mean_median] does not fall
    back to the empty table: it returns one row per category of the
    table, with the mean and the median of the amounts of the rows of
    that category, taken in the order of the rows, and logs that it
    did. *)
Theorem mean_median_are_taken_by_category
    (cf sid rng : string) (log0 log1 log2 log3 log : list log_entry)
    (r : GoogleSheetsReader.t) (dp : DataProcessor.t) (df : frame) (i j : nat) :
  GoogleSheetsReader.new api cf sid rng log0 = (Ok r, log1) ->
  DataProcessor.new (reader_object r) log2 = (Ok dp, log3) ->
  DataProcessor.data dp = Some df ->
  pd.positions "category" (columns df) = [i] ->
  pd.positions "sum rub" (columns df) = [j] ->
  exists result,
    DataProcessor.get_category_mean_median (dp, log)
    = (Ok result,
       (dp, log ++ [(INFO, "Calculated mean and median expenses by category.")]))
    /\ columns result = ["category"; "mean_expense"; "median_expense"]
    /\ (forall c, In c (pd.column i df) ->
          values_where i j c df <> []
          /\ In [c; Num (mean (values_where i j c df));
                    Num (median (values_where i j c df))]
                (map cells (rows result)))
    /\ (forall row, In row (rows result) ->
          exists c, In c (pd.column i df)
                    /\ cells row = [c; Num (mean (values_where i j c df));
                                       Num (median (values_where i j c df))])
    /\ NoDup (pd.column 0 result).
Proof.
  intros Hr Hp Hd Hi Hj.
  destruct (pipeline_facts cf sid rng log0 log1 log2 log3 r dp df Hr Hp Hd)
    as [R [I [T N]]].
  assert (Hx : pd.index_is df "category" = false)
    by (unfold pd.index_is; now rewrite I).
  pose proof (typed_amounts df "sum rub" j T (or_introl eq_refl)
                (In_singleton _ _ Hj)) as Hc.
  assert (V : forall c, In c (pd.column i df) ->
                c <> Null /\ exists x, In x (values_where i j c df)).
  { intros c H. unfold pd.column in H. apply in_map_iff in H.
    destruct H as [row [E Hrow]].
    destruct (column_cell df "category" i row R (In_singleton _ _ Hi) Hrow)
      as [_ Hin].
    destruct (column_cell df "sum rub" j row R (In_singleton _ _ Hj) Hrow)
      as [Hlab _].
    split; [rewrite <- E; exact (N row _ Hrow Hin)|].
    destruct (proj2 (T row _ _ Hrow Hlab) (or_introl eq_refl)) as [x Hx'].
    exists x. exact (values_where_In i j c df row x Hrow E Hx'). }
  destruct (values_table_spec i j df) as [S0 [S1 S2]].
  eexists. split; [exact (mean_median_run dp df log i j Hd Hi Hj Hx Hc)|].
  split; [reflexivity|]. cbn [mean_median_frame rows].
  split; [|split].
  - intros c H. destruct (V c H) as [Hn [x Hx']].
    split; [intro E; rewrite E in Hx'; contradiction|].
    rewrite cells_number_rows. apply in_map_iff.
    exists (c, values_where i j c df). cbn [fst snd].
    rewrite !(agg_cell_Num _ _ x Hx'). split; [reflexivity|]. now apply S1.
  - intros row H. apply length_number_rows in H. apply in_map_iff in H.
    destruct H as [[k t] [E H]]. cbn [fst snd] in E.
    destruct (S2 k t H) as [_ [Hk ->]]. exists k. split; [exact Hk|].
    destruct (V k Hk) as [_ [x Hx']].
    rewrite !(agg_cell_Num _ _ x Hx') in E. now symmetry.
  - unfold pd.column at 1. cbn [mean_median_frame rows].
    rewrite <- (map_map cells (fun cs => nth 0 cs Null)), cells_number_rows.
    rewrite map_map. cbn [nth]. exact S0.
Qed.

(** The sum of column [j] over the rows whose cell in column [i] is [c]
    and whose cell in column [s] is [k]. *)
Definition sum_both (i s j : nat) (c k : cell) (df : frame) : num :=
  fold_left
    (fun acc r => if andb (cell_eqb (nth i (cells r) Null) c)
                          (cell_eqb (nth s (cells r) Null) k)
                  then add_cell acc (nth j (cells r) Null) else acc)
    (rows df) zero.

Lemma sum_where_matching (i s j : nat) (c : string) (k : cell) (df : frame) :
  sum_where s j k (mkFrame (columns df) (index_name df) (matching_rows i c df))
  = sum_both i s j (Str c) k df.
Proof.
  unfold sum_where, sum_both, matching_rows. cbn [rows]. generalize zero.
  induction (rows df) as [|r rs IH]; intro t; [reflexivity|]. cbn [filter fold_left].
  destruct (cell_eqb (nth i (cells r) Null) (Str c)); cbn [fold_left andb];
    apply IH.
Qed.

(** Sums by the column [s] over the rows whose cell in column [i] is the
    string [c], in a table as construction leaves it. *)
Lemma groupby_sum_matching
    (df : frame) (c key : string) (i s j : nat) :
  rectangular df ->
  index_name df = None ->
  typed df ->
  (forall row x, In row (rows df) -> In x (cells row) -> x <> Null) ->
  pd.positions key (columns df) = [s] ->
  pd.positions "sum rub" (columns df) = [j] ->
  exists out,
    pd.groupby_sum (mkFrame (columns df) (index_name df) (matching_rows i c df))
      key "sum rub" = Ok out
    /\ columns out = [key; "sum rub"]
    /\ (forall row, In row (rows df) -> nth i (cells row) Null = Str c ->
          In [nth s (cells row) Null;
              Num (sum_both i s j (Str c) (nth s (cells row) Null) df)]
             (map cells (rows out)))
    /\ (forall row', In row' (rows out) ->
          exists row, In row (rows df)
                      /\ nth i (cells row) Null = Str c
                      /\ cells row'
                         = [nth s (cells row) Null;
                            Num (sum_both i s j (Str c) (nth s (cells row) Null) df)])
    /\ NoDup (pd.column 0 out)
    /\ (~ In (Str c) (pd.column i df) -> rows out = []).
Proof.
  intros R I T N Hs Hj.
  set (F := mkFrame (columns df) (index_name df) (matching_rows i c df)).
  assert (Hx : pd.index_is F key = false)
    by (unfold pd.index_is; cbn; now rewrite I).
  assert (Sub : forall row, In row (rows F) <->
                            In row (rows df) /\ nth i (cells row) Null = Str c).
  { intro row. unfold F, matching_rows. cbn [rows]. rewrite filter_In.
    now rewrite cell_eqb_eq. }
  assert (Hc : forall c', In c' (pd.column j F) -> c' = Null \/ exists x, c' = Num x).
  { intros c' H. apply (typed_amounts df "sum rub" j T (or_introl eq_refl)
                          (In_singleton _ _ Hj)).
    unfold pd.column in H |- *. apply in_map_iff in H. destruct H as [row [E H]].
    apply in_map_iff. exists row. split; [exact E|]. now apply Sub. }
  destruct (sum_table_spec s j F) as [S0 [S1 S2]].
  assert (K : forall k, In k (pd.column s F) <->
                exists row, In row (rows df) /\ nth i (cells row) Null = Str c
                            /\ nth s (cells row) Null = k).
  { intro k. unfold pd.column. rewrite in_map_iff. split.
    - intros [row [E H]]. exists row. apply Sub in H. tauto.
    - intros [row [H1 [H2 E]]]. exists row. split; [exact E|]. now apply Sub. }
  assert (Rows : forall row', In row' (rows (sums_frame key "sum rub"
                     (pd.sum_table (pd.column s F) (map num_of (pd.column j F))))) ->
          exists row, In row (rows df)
                      /\ nth i (cells row) Null = Str c
                      /\ cells row'
                         = [nth s (cells row) Null;
                            Num (sum_both i s j (Str c) (nth s (cells row) Null) df)]).
  { intros row' H. cbn [sums_frame rows] in H.
    apply length_number_rows in H. apply in_map_iff in H.
    destruct H as [[k t] [E H]]. cbn [fst snd] in E.
    destruct (S2 k t H) as [_ [Hk ->]]. apply K in Hk.
    destruct Hk as [row [H1 [H2 H3]]]. exists row.
    split; [exact H1|]. split; [exact H2|].
    rewrite H3, <- E. unfold F. now rewrite sum_where_matching. }
  eexists. split; [exact (groupby_sum_Ok F _ _ s j Hs Hj Hx Hc)|].
  split; [reflexivity|]. split; [|split; [exact Rows|split]].
  - intros row Hrow Hcat. cbn [sums_frame rows]. rewrite cells_number_rows.
    apply in_map_iff.
    exists (nth s (cells row) Null, sum_where s j (nth s (cells row) Null) F).
    cbn [fst snd]. split; [unfold F; now rewrite sum_where_matching|].
    apply S1.
    + apply (N row); [exact Hrow|].
      exact (proj2 (column_cell df key s row R (In_singleton _ _ Hs) Hrow)).
    + apply K. now exists row.
  - unfold pd.column at 1. cbn [sums_frame rows]. rewrite column0_number_rows. exact S0.
  - intro Hn.
    destruct (rows (sums_frame key "sum rub"
                (pd.sum_table (pd.column s F) (map num_of (pd.column j F)))))
      as [|row' rest] eqn:E; [reflexivity|].
    exfalso. destruct (Rows row' (or_introl eq_refl)) as [row [H1 [H2 _]]].
    apply Hn. unfold pd.column. apply in_map_iff. now exists row.
Qed.

(** X9.  On such a processor whose table has [category], [subcategory]
    and [sum rub] once each, [get_subcategory_summary c] returns, for any
    [c]: one row per subcategory that occurs in a row of category [c],
    with the sum of the amounts of the rows of that category and that
    subcategory; for a category that does not occur, a table without
    rows. *)
Theorem subcategory_summary_sums_rows_of_the_category
    (cf sid rng : string) (log0 log1 log2 log3 log : list log_entry)
    (r : GoogleSheetsReader.t) (dp : DataProcessor.t) (df : frame)
    (c : string) (i s j : nat) :
  GoogleSheetsReader.new api cf sid rng log0 = (Ok r, log1) ->
  DataProcessor.new (reader_object r) log2 = (Ok dp, log3) ->
  DataProcessor.data dp = Some df ->
  pd.positions "category" (columns df) = [i] ->
  pd.positions "subcategory" (columns df) = [s] ->
  pd.positions "sum rub" (columns df) = [j] ->
  exists sub,
    DataProcessor.get_subcategory_summary c (dp, log) = (Ok sub, (dp, log))
    /\ columns sub = ["subcategory"; "sum rub"]
    /\ (forall row, In row (rows df) -> nth i (cells row) Null = Str c ->
          In [nth s (cells row) Null;
              Num (sum_both i s j (Str c) (nth s (cells row) Null) df)]
             (map cells (rows sub)))
    /\ (forall row', In row' (rows sub) ->
          exists row, In row (rows df)
                      /\ nth i (cells row) Null = Str c
                      /\ cells row'
                         = [nth s (cells row) Null;
                            Num (sum_both i s j (Str c) (nth s (cells row) Null) df)])
    /\ NoDup (pd.column 0 sub)
    /\ (~ In (Str c) (pd.column i df) -> rows sub = []).
Proof.
  intros Hr Hp Hd Hi Hs Hj.
  destruct (pipeline_facts cf sid rng log0 log1 log2 log3 r dp df Hr Hp Hd)
    as [R [I [T N]]].
  destruct (groupby_sum_matching df c "subcategory" i s j R I T N Hs Hj)
    as [sub [G Rest]].
  exists sub. split; [|exact Rest].
  unfold DataProcessor.get_subcategory_summary.
  rewrite (bind_Ok _ _ _ _ _ (filter_by_category_Ok dp df log c i Hd Hi)).
  unfold lift. now rewrite G.
Qed.

(** ** The monthly summary *)

Lemma positions_from_app (name : string) (l1 l2 : list string) :
  forall i,
    pd.positions_from i name (l1 ++ l2)
    = pd.positions_from i name l1 ++ pd.positions_from (i + List.length l1) name l2.
Proof.
  induction l1 as [|c l1 IH]; intro i; cbn [app pd.positions_from List.length].
  - now rewrite Nat.add_0_r.
  - rewrite IH. replace (S i + List.length l1) with (i + S (List.length l1)) by lia.
    now destruct (String.eqb c name).
Qed.

Lemma nth_set_at_hit (name : string) (v : cell) (cols : list string) :
  forall (m : nat) (cs : list cell),
    nth_error cols m = Some name -> m < List.length cs ->
    nth m (pd.set_at name cols cs v) Null = v.
Proof.
  induction cols as [|c cols IH]; intros m cs Hm L; [destruct m; discriminate|].
  destruct cs as [|x cs]; [cbn in L; lia|]. destruct m as [|m]; cbn [pd.set_at nth].
  - injection Hm as ->. now rewrite String.eqb_refl.
  - apply IH; [exact Hm|cbn [List.length] in L; lia].
Qed.

Lemma map_snd_combine {A B : Type} (l : list A) (l' : list B) :
  List.length l' = List.length l -> map snd (combine l l') = l'.
Proof.
  revert l'. induction l as [|x l IH]; intros [|y l'] H; try discriminate;
    [reflexivity|]. cbn. f_equal. apply IH. now injection H.
Qed.

(** After [df[name] = values] the label names one column, which holds
    the values. *)
Lemma setitem_column (df : frame) (name : string) (values : list cell) :
  rectangular df ->
  List.length values = List.length (rows df) ->
  at_most_once name df ->
  exists m,
    pd.positions name (columns (pd.setitem df name values)) = [m]
    /\ pd.column m (pd.setitem df name values) = values.
Proof.
  intros R L A. unfold pd.setitem. destruct (pd.contains name df) eqn:C.
  - cbn [columns]. unfold at_most_once in A.
    destruct (pd.positions name (columns df)) as [|m [|m' rest]] eqn:P.
    + apply contains_positions in P. congruence.
    + exists m. split; [reflexivity|]. unfold pd.column. cbn [rows].
      rewrite map_map. cbn [cells].
      rewrite <- (map_snd_combine (rows df) values L) at 2.
      apply map_ext_in. intros [r v] H. cbn [fst snd].
      apply nth_set_at_hit.
      * apply positions_nth_error. rewrite P. now left.
      * apply in_combine_l in H.
        rewrite (proj1 (Forall_forall _ _) R r H).
        apply (positions_from_lt 0 name). fold (pd.positions name (columns df)).
        rewrite P. now left.
    + cbn [List.length] in A. lia.
  - cbn [columns]. exists (List.length (columns df)). split.
    + unfold pd.positions. rewrite positions_from_app.
      apply contains_positions in C. unfold pd.positions in C. rewrite C.
      cbn [app pd.positions_from Nat.add]. now rewrite String.eqb_refl.
    + unfold pd.column. cbn [rows]. rewrite map_map. cbn [cells].
      rewrite <- (map_snd_combine (rows df) values L) at 2.
      apply map_ext_in. intros [r v] H. cbn [fst snd].
      apply in_combine_l in H.
      rewrite <- (proj1 (Forall_forall _ _) R r H).
      now rewrite nth_middle.
Qed.

(** A label other than the one assigned keeps its columns. *)
Lemma setitem_other (df : frame) (name other : string) (values : list cell) (j : nat) :
  rectangular df ->
  List.length values = List.length (rows df) ->
  other <> name ->
  pd.positions other (columns df) = [j] ->
  pd.positions other (columns (pd.setitem df name values)) = [j]
  /\ pd.column j (pd.setitem df name values) = pd.column j df.
Proof.
  intros R L N P.
  destruct (setitem_frame df name values L R) as [_ [_ [Hc Hj]]].
  split.
  - destruct Hc as [->|[_ ->]]; [exact P|].
    unfold pd.positions in *. rewrite positions_from_app, P.
    cbn [pd.positions_from]. apply String.eqb_neq in N.
    rewrite String.eqb_sym, N. reflexivity.
  - apply (Hj j other); [|exact N]. apply positions_nth_error. rewrite P. now left.
Qed.

Definition stamp (c : cell) : option Z :=
  match c with Timestamp ns => Some ns | _ => None end.

Lemma mapM_to_datetime_Ok (col : list cell) :
  (forall c, In c col -> exists ns, c = Timestamp ns) ->
  mapM pd.to_datetime_raise1 col = Ok (map stamp col).
Proof.
  induction col as [|c col IH]; intro H; [reflexivity|].
  cbn [mapM map]. rewrite IH by (intros c' Hc'; apply H; now right).
  destruct (H c (or_introl eq_refl)) as [ns ->]. reflexivity.
Qed.

Lemma mapM_strftime_Ok (ks : list cell) :
  (forall k, In k ks -> exists p, k = Period p) ->
  mapM pd.strftime1 ks = Ok (map format_month ks).
Proof.
  induction ks as [|k ks IH]; intro H; [reflexivity|].
  cbn [mapM map]. rewrite IH by (intros k' Hk'; apply H; now right).
  destruct (H k (or_introl eq_refl)) as [p ->]. reflexivity.
Qed.

(** X10.  On a processor made of a constructed reader, whose table has
    [date] and [sum rub] once each and [month] at most once, and in
    which every date was read, [get_monthly_summary] returns: its result
    lists exactly the months of the dates, as year and month, and the
    months are assigned to the column [month] of the table. *)
Theorem monthly_summary_succeeds_on_read_dates
    (cf sid rng : string) (log0 log1 log2 log3 log : list log_entry)
    (r : GoogleSheetsReader.t) (dp : DataProcessor.t) (df : frame) (i j : nat) :
  GoogleSheetsReader.new api cf sid rng log0 = (Ok r, log1) ->
  DataProcessor.new (reader_object r) log2 = (Ok dp, log3) ->
  DataProcessor.data dp = Some df ->
  pd.positions "date" (columns df) = [i] ->
  pd.positions "sum rub" (columns df) = [j] ->
  at_most_once "month" df ->
  (forall c, In c (pd.column i df) -> exists ns, c = Timestamp ns) ->
  exists result,
    DataProcessor.get_monthly_summary (dp, log)
    = (Ok result,
       (DataProcessor.with_table dp
          (pd.setitem df "month"
             (map (fun c => pd.of_period (option_map to_period_M (stamp c)))
                (pd.column i df))),
        log))
    /\ columns result = ["month"; "sum rub"]
    /\ (forall ns, In (Timestamp ns) (pd.column i df) ->
          In (Str (strftime_Ym (to_period_M ns))) (pd.column 0 result))
    /\ (forall c, In c (pd.column 0 result) ->
          exists ns, In (Timestamp ns) (pd.column i df)
                     /\ c = Str (strftime_Ym (to_period_M ns))).
Proof.
  intros Hr Hp Hd Hi Hj Hm Hdates.
  destruct (pipeline_facts cf sid rng log0 log1 log2 log3 r dp df Hr Hp Hd)
    as [R [I [T N]]].
  set (values := map (fun c => pd.of_period (option_map to_period_M (stamp c)))
                   (pd.column i df)).
  assert (Ev : month_values (map stamp (pd.column i df)) = values).
  { unfold month_values, pd.dt_to_period_M, values. now rewrite !map_map. }
  assert (L : List.length values = List.length (rows df)).
  { unfold values, pd.column. now rewrite !length_map. }
  set (df1 := pd.setitem df "month" values).
  destruct (setitem_column df "month" values R L Hm) as [m [Pm Cm]]. fold df1 in Pm, Cm.
  destruct (setitem_other df "month" "sum rub" values j R L ltac:(discriminate) Hj)
    as [Pj Cj]. fold df1 in Pj, Cj.
  assert (Hx : pd.index_is df1 "month" = false).
  { unfold pd.index_is, df1.
    rewrite (proj1 (setitem_columns df "month" values)), I. reflexivity. }
  assert (Hc : forall c, In c (pd.column j df1) -> c = Null \/ exists x, c = Num x).
  { rewrite Cj. exact (typed_amounts df "sum rub" j T (or_introl eq_refl)
                         (In_singleton _ _ Hj)). }
  set (Tb := pd.sum_table (pd.column m df1) (map num_of (pd.column j df1))).
  destruct (sum_table_spec m j df1) as [_ [S1 S2]]. fold Tb in S1, S2.
  assert (Hv : forall k, In k values <->
                 exists ns, In (Timestamp ns) (pd.column i df)
                            /\ k = Period (to_period_M ns)).
  { intro k. unfold values. rewrite in_map_iff. split.
    - intros [c [<- H]]. destruct (Hdates c H) as [ns ->]. now exists ns.
    - intros [ns [H ->]]. now exists (Timestamp ns). }
  assert (Hk : forall k, In k (map fst Tb) -> exists p, k = Period p).
  { intros k H. apply in_map_iff in H. destruct H as [[k' t] [<- H]].
    destruct (S2 k' t H) as [_ [H' _]]. rewrite Cm in H'.
    apply Hv in H'. destruct H' as [ns [_ ->]]. cbn [fst]. eauto. }
  assert (Run : DataProcessor.get_monthly_summary (dp, log)
                = (Ok (mkFrame ["month"; "sum rub"] None
                         (pd.number_rows 0
                            (map (fun kt => [format_month (fst kt); Num (snd kt)]) Tb))),
                   (DataProcessor.with_table dp df1, log))).
  { unfold DataProcessor.get_monthly_summary.
    rewrite (bind_Ok _ _ _ _ _ (the_data_Some dp log df Hd)).
    rewrite bind_lift. unfold pd.getitem at 1. rewrite Hi.
    rewrite bind_lift. cbn [pd.to_datetime].
    rewrite (mapM_to_datetime_Ok _ Hdates).
    fold (month_values (map stamp (pd.column i df))). rewrite Ev. fold df1.
    unfold bind at 1. unfold DataProcessor.set_data at 1.
    unfold bind at 1. unfold get_self at 1, set_self at 1. cbn [fst snd].
    rewrite (bind_Ok _ _ _ _ _
               (the_data_Some (DataProcessor.with_table dp df1) log _
               (data_with_table _ _ _ Hd))).
    rewrite bind_lift.
    rewrite (groupby_sum_Ok df1 "month" "sum rub" m j Pm Pj Hx Hc). fold Tb.
    rewrite bind_lift.
    assert (G : pd.getitem (sums_frame "month" "sum rub" Tb) "month"
                = Ok (pd.Series (map fst Tb))).
    { unfold pd.getitem. cbn [sums_frame columns].
      change (pd.positions "month" ["month"; "sum rub"]) with [0].
      cbv iota. unfold pd.column, sums_frame. cbn [rows].
      now rewrite column0_number_rows. }
    rewrite G. rewrite bind_lift. cbn [pd.dt_strftime_Ym].
    rewrite (mapM_strftime_Ok _ Hk). unfold ret. f_equal. f_equal.
    unfold pd.setitem.
    change (pd.contains "month" (sums_frame "month" "sum rub" Tb)) with true.
    cbn [sums_frame columns index_name rows]. f_equal.
    rewrite (map_map fst format_month). apply formatted_rows. }
  eexists. split; [exact Run|]. split; [reflexivity|].
  assert (C0 : forall c,
            In c (pd.column 0
                    (mkFrame ["month"; "sum rub"] None
                       (pd.number_rows 0
                          (map (fun kt => [format_month (fst kt); Num (snd kt)]) Tb))))
            <-> exists k, In k (map fst Tb) /\ c = format_month k).
  { intro c. unfold pd.column. cbn [rows].
    rewrite <- (map_map cells (fun cs => nth 0 cs Null)), cells_number_rows.
    rewrite map_map. cbn [nth]. rewrite in_map_iff. split.
    - intros [[k t] [<- H]]. exists k. split; [|reflexivity].
      apply in_map_iff. now exists (k, t).
    - intros [k [H ->]]. apply in_map_iff in H. destruct H as [[k' t] [<- H]].
      now exists (k', t). }
  split.
  - intros ns H. apply C0. exists (Period (to_period_M ns)). split; [|reflexivity].
    apply in_map_iff. exists (Period (to_period_M ns), sum_where m j (Period (to_period_M ns)) df1).
    split; [reflexivity|]. apply S1; [discriminate|]. rewrite Cm. apply Hv. eauto.
  - intros c H. apply C0 in H. destruct H as [k [H ->]].
    apply in_map_iff in H. destruct H as [[k' t] [<- H]]. cbn [fst].
    destruct (S2 k' t H) as [_ [H' _]]. rewrite Cm in H'. apply Hv in H'.
    destruct H' as [ns [Hin ->]]. exists ns. now split.
Qed.

End Pipeline.

(* ================================================================== *)
(** * The order of the groups *)
Section Order.

Context {Sc : Scalars} {Un : Unspecified Sc}.
Variable api : google_api.

Lemma ascii_compare_refl (a : Ascii.ascii) : Ascii.compare a a = Eq.
Proof. unfold Ascii.compare. apply N.compare_refl. Qed.

Lemma ascii_compare_lt_trans (a b c : Ascii.ascii) :
  Ascii.compare a b = Lt -> Ascii.compare b c = Lt -> Ascii.compare a c = Lt.
Proof.
  unfold Ascii.compare. rewrite !N.compare_lt_iff. apply N.lt_trans.
Qed.

Lemma string_leb_trans (a : string) :
  forall b c, String.leb a b = true -> String.leb b c = true -> String.leb a c = true.
Proof.
  unfold String.leb.
  induction a as [|x a IH]; intros [|y b] [|z c]; cbn [String.compare];
    try reflexivity; try discriminate.
  destruct (Ascii.compare x y) eqn:Exy; try discriminate.
  - apply Ascii.compare_eq_iff in Exy. subst y.
    destruct (Ascii.compare x z); try discriminate; [apply IH|reflexivity].
  - intros _. destruct (Ascii.compare y z) eqn:Eyz; try discriminate.
    + apply Ascii.compare_eq_iff in Eyz. subst z. now rewrite Exy.
    + now rewrite (ascii_compare_lt_trans x y z Exy Eyz).
Qed.

(** A cell of a column of text after construction: a string, or the 0
    that filled an empty cell. *)
Definition text (c : cell) : Prop := c = Num zero \/ exists s, c = Str s.

Definition before (a b : cell) : Prop := cell_leb a b = true.

Lemma before_total (a b : cell) :
  text a -> text b -> a <> b -> cell_leb a b = false -> before b a.
Proof.
  unfold before. intros [->|[s ->]] [->|[t ->]] N H; try reflexivity.
  - congruence.
  - discriminate.
  - cbn [cell_leb] in H |- *. destruct (String.leb_total s t) as [E|E]; congruence.
Qed.

Lemma before_trans (a b c : cell) :
  text a -> text b -> text c -> before a b -> before b c -> before a c.
Proof.
  unfold before. intros [->|[s ->]] [->|[t ->]] [->|[u ->]] H1 H2;
    try reflexivity; try assumption; try discriminate.
  cbn [cell_leb] in *. exact (string_leb_trans s t u H1 H2).
Qed.

Lemma insert_key_sorted {V : Type} (kv : cell * V) (l : list (cell * V)) :
  text (fst kv) ->
  Forall text (map fst l) ->
  ~ In (fst kv) (map fst l) ->
  StronglySorted before (map fst l) ->
  StronglySorted before (map fst (pd.insert_key kv l)).
Proof.
  intros Tk. induction l as [|kv' l IH]; intros Tl Hn Hs.
  - cbn. constructor; constructor.
  - cbn [pd.insert_key]. cbn [map] in Tl, Hn, Hs.
    inversion Tl as [|? ? Tk' Tl']; subst. inversion Hs as [|? ? Hs' Hall]; subst.
    destruct (cell_leb (fst kv) (fst kv')) eqn:E; cbn [map].
    + constructor; [exact Hs|]. constructor; [exact E|].
      apply Forall_forall. intros x Hx.
      apply (before_trans (fst kv) (fst kv') x); try assumption.
      * exact (proj1 (Forall_forall _ _) Tl' x Hx).
      * exact (proj1 (Forall_forall _ _) Hall x Hx).
    + constructor.
      * apply IH; [exact Tl'| |exact Hs']. intro H. apply Hn. now right.
      * apply Forall_forall. intros x Hx.
        apply (Permutation_in _ (keys_insert_key kv l)) in Hx.
        destruct Hx as [<-|Hx].
        -- apply before_total; try assumption. intro H. apply Hn. now left.
        -- exact (proj1 (Forall_forall _ _) Hall x Hx).
Qed.

Lemma sort_keys_sorted {V : Type} (l : list (cell * V)) :
  Forall text (map fst l) ->
  NoDup (map fst l) ->
  StronglySorted before (map fst (pd.sort_keys l)).
Proof.
  unfold pd.sort_keys. induction l as [|kv l IH]; intros Tl Hnd.
  - constructor.
  - cbn [fold_right]. cbn [map] in Tl, Hnd.
    inversion Tl as [|? ? Tk Tl']; subst. inversion Hnd as [|? ? Hk Hnd']; subst.
    apply insert_key_sorted.
    + exact Tk.
    + apply Forall_forall. intros x Hx.
      apply (Permutation_in _ (keys_sort_keys l)) in Hx.
      exact (proj1 (Forall_forall _ _) Tl' x Hx).
    + intro Hx. apply (Permutation_in _ (keys_sort_keys l)) in Hx. contradiction.
    + now apply IH.
Qed.

Lemma keys_insert_key_eq {V W : Type} (kv : cell * V) (kw : cell * W) :
  fst kv = fst kw ->
  forall (l : list (cell * V)) (l' : list (cell * W)),
    map fst l = map fst l' ->
    map fst (pd.insert_key kv l) = map fst (pd.insert_key kw l').
Proof.
  intro E. induction l as [|x l IH]; intros [|y l'] H; try discriminate.
  - cbn. now rewrite E.
  - cbn [map] in H. injection H as Hx Hl. cbn [pd.insert_key].
    rewrite <- E, <- Hx. destruct (cell_leb (fst kv) (fst x)); cbn [map].
    + now rewrite E, Hx, Hl.
    + rewrite Hx. f_equal. now apply IH.
Qed.

Lemma keys_sort_keys_eq {V W : Type} (l : list (cell * V)) :
  forall l' : list (cell * W),
    map fst l = map fst l' ->
    map fst (pd.sort_keys l) = map fst (pd.sort_keys l').
Proof.
  unfold pd.sort_keys. induction l as [|x l IH]; intros [|y l'] H; try discriminate.
  - reflexivity.
  - cbn [map] in H. injection H as Hx Hl. cbn [fold_right].
    apply keys_insert_key_eq; [exact Hx|]. now apply IH.
Qed.

Lemma keys_group_values_sums (kvs : list (cell * option num)) :
  map fst (pd.group_values kvs) = map fst (pd.group_sums kvs).
Proof.
  unfold pd.group_values, pd.group_sums.
  assert (G : forall (acc : list (cell * list num)) (acc' : list (cell * num)),
            map fst acc = map fst acc' ->
            map fst (fold_left
                       (fun acc kv => if isnull (fst kv) then acc
                                      else pd.group_push (fst kv) (snd kv) acc) kvs acc)
            = map fst (fold_left
                         (fun acc kv => if isnull (fst kv) then acc
                                        else pd.group_add (fst kv) (snd kv) acc) kvs acc')).
  { induction kvs as [|[k v] kvs IH]; intros acc acc' H; [exact H|].
    cbn [fold_left fst snd]. destruct (isnull k); [now apply IH|]. apply IH.
    destruct (keys_group_push k v acc) as [P1 P2].
    destruct (keys_group_add k v acc') as [A1 A2].
    destruct (in_dec cell_eq_dec k (map fst acc)) as [Hin|Hn].
    - rewrite (P1 Hin). rewrite H in Hin. now rewrite (A1 Hin).
    - rewrite (P2 Hn). rewrite H in Hn. rewrite (A2 Hn). now rewrite H. }
  now apply G.
Qed.

Lemma processed_text (df0 : frame) (name : string) (j : nat) :
  (forall row c, In row (rows df0) -> In c (cells row) ->
     c = Null \/ exists s, c = Str s) ->
  name <> "date" -> name <> "sum rub" -> name <> "sum currency" ->
  forall r c,
    In r (rows (processed df0)) ->
    In (name, c) (combine (columns (processed df0)) (cells r)) ->
    text c.
Proof.
  intros Hs N1 N2 N3 r c Hr Hc. cbn [processed rows columns] in Hr, Hc.
  apply in_map_iff in Hr. destruct Hr as [r0 [<- Hr0]]. cbn [cells] in Hc.
  destruct (In_combine_processed name c _ _ Hc) as [c0 [Hin ->]].
  apply in_combine_r in Hin.
  unfold coerce.
  apply String.eqb_neq in N1, N2, N3. rewrite N1, N2, N3.
  destruct (Hs r0 c0 Hr0 Hin) as [->|[s ->]]; cbn; [now left|right; eauto].
Qed.

(** X11.  Both summaries by category list the categories in ascending
    order: strings as Python compares them, after the 0 that stands for
    an empty category. *)
Theorem summaries_list_categories_in_order
    (cf sid rng : string) (log0 log1 log2 log3 log : list log_entry)
    (r : GoogleSheetsReader.t) (dp : DataProcessor.t) (df : frame) (i j : nat) :
  GoogleSheetsReader.new api cf sid rng log0 = (Ok r, log1) ->
  DataProcessor.new (reader_object r) log2 = (Ok dp, log3) ->
  DataProcessor.data dp = Some df ->
  pd.positions "category" (columns df) = [i] ->
  pd.positions "sum rub" (columns df) = [j] ->
  exists summary result,
    fst (DataProcessor.get_category_summary (dp, log)) = Ok summary
    /\ fst (DataProcessor.get_category_mean_median (dp, log)) = Ok result
    /\ StronglySorted before (pd.column 0 summary)
    /\ StronglySorted before (pd.column 0 result)
    /\ pd.column 0 result = pd.column 0 summary
    /\ (forall c, In c (pd.column 0 summary) -> text c).
Proof.
  intros Hr Hp Hd Hi Hj.
  destruct (pipeline_facts api cf sid rng log0 log1 log2 log3 r dp df Hr Hp Hd)
    as [R [I [T N]]].
  assert (Tx : Forall text (pd.column i df)).
  { destruct (new_reader_Ok api cf sid rng log0 log1 r Hr) as [svc [_ ->]].
    destruct (new_Ok_inv _ log2 log3 dp Hp) as [r' [df0 [Ho [Hd0 [_ [_ [_ ->]]]]]]].
    injection Ho as <-. cbn [GoogleSheetsReader.data] in Hd0. injection Hd0 as <-.
    cbn [DataProcessor.data] in Hd. injection Hd as <-.
    destruct (fetched_table (execute api svc sid rng)) as [_ [_ S]].
    apply Forall_forall. intros c Hc. unfold pd.column in Hc.
    apply in_map_iff in Hc. destruct Hc as [row [<- Hrow]].
    apply (processed_text _ "category" i S ltac:(discriminate) ltac:(discriminate)
             ltac:(discriminate) row _ Hrow).
    exact (proj1 (column_cell _ "category" i row R (In_singleton _ _ Hi) Hrow)). }
  assert (Hx : pd.index_is df "category" = false)
    by (unfold pd.index_is; now rewrite I).
  pose proof (typed_amounts df "sum rub" j T (or_introl eq_refl)
                (In_singleton _ _ Hj)) as Hc.
  set (kvs := combine (pd.column i df) (map num_of (pd.column j df))).
  assert (Kin : forall k, In k (map fst kvs) -> text k).
  { intros k H. unfold kvs in H. rewrite combine_columns, keys_keyed in H.
    exact (proj1 (Forall_forall _ _) Tx k H). }
  assert (S1 : StronglySorted before (map fst (pd.sort_keys (pd.group_sums kvs)))).
  { destruct (keys_group_sums kvs) as [Hnd Hk].
    apply sort_keys_sorted; [|exact Hnd].
    apply Forall_forall. intros k H. apply Kin. now apply Hk. }
  assert (S2 : StronglySorted before (map fst (pd.sort_keys (pd.group_values kvs)))).
  { destruct (keys_group_values kvs) as [Hnd Hk].
    apply sort_keys_sorted; [|exact Hnd].
    apply Forall_forall. intros k H. apply Kin. now apply Hk. }
  assert (C1 : pd.column 0 (sums_frame "category" "sum rub"
                 (pd.sum_table (pd.column i df) (map num_of (pd.column j df))))
               = map fst (pd.sort_keys (pd.group_sums kvs))).
  { unfold pd.column at 1. cbn [sums_frame rows]. now rewrite column0_number_rows. }
  assert (C2 : pd.column 0 (mean_median_frame
                 (pd.values_table (pd.column i df) (map num_of (pd.column j df))))
               = map fst (pd.sort_keys (pd.group_values kvs))).
  { unfold pd.column at 1. cbn [mean_median_frame rows].
    rewrite <- (map_map cells (fun cs => nth 0 cs Null)), cells_number_rows.
    rewrite map_map. reflexivity. }
  eexists. eexists.
  split.
  { unfold DataProcessor.get_category_summary.
    rewrite (bind_Ok _ _ _ _ _ (the_data_Some dp log df Hd)).
    unfold lift. rewrite (groupby_sum_Ok df _ _ i j Hi Hj Hx Hc). reflexivity. }
  split; [rewrite (mean_median_run dp df log i j Hd Hi Hj Hx Hc); reflexivity|].
  rewrite C1, C2. split; [exact S1|]. split; [exact S2|]. split.
  - apply keys_sort_keys_eq, keys_group_values_sums.
  - intros c H. apply in_map_iff in H. destruct H as [[k t] [<- H]].
    apply (proj1 (In_sort_keys _ _)) in H. apply Kin.
    destruct (keys_group_sums kvs) as [_ Hk]. apply Hk.
    apply in_map_iff. now exists (k, t).
Qed.

End Order.

(* ================================================================== *)
(** * Nothing is lost in the summary *)
Section Conservation.

Context {Sc : Scalars} {Un : Unspecified Sc} {Ex : ExactSum Sc}.
Variable api : google_api.

(** The sum of the numbers of a column, in the order of the rows. *)
Definition column_total (j : nat) (df : frame) : num :=
  fold_left add_cell (pd.column j df) zero.

Lemma fold_addv_num_of (col : list cell) :
  forall z, fold_left pd.addv (map num_of col) z = fold_left add_cell col z.
Proof.
  induction col as [|c col IH]; intro z; [reflexivity|].
  cbn [map fold_left]. rewrite IH. now destruct c.
Qed.

(** X12.  The summary by category loses and repeats nothing: on a
    processor made of a constructed reader, with [category] and
    [sum rub] once each and amounts that add exactly, the totals of the
    summary add up to the sum of the whole column [sum rub]. *)
Theorem category_totals_add_up_to_the_column_total
    (cf sid rng : string) (log0 log1 log2 log3 log : list log_entry)
    (r : GoogleSheetsReader.t) (dp : DataProcessor.t) (df : frame) (i j : nat) :
  GoogleSheetsReader.new api cf sid rng log0 = (Ok r, log1) ->
  DataProcessor.new (reader_object r) log2 = (Ok dp, log3) ->
  DataProcessor.data dp = Some df ->
  pd.positions "category" (columns df) = [i] ->
  pd.positions "sum rub" (columns df) = [j] ->
  exists summary,
    fst (DataProcessor.get_category_summary (dp, log)) = Ok summary
    /\ sum_of_totals summary = column_total j df.
Proof.
  intros Hr Hp Hd Hi Hj.
  destruct (pipeline_facts api cf sid rng log0 log1 log2 log3 r dp df Hr Hp Hd)
    as [R [I [T N]]].
  assert (Hx : pd.index_is df "category" = false)
    by (unfold pd.index_is; now rewrite I).
  pose proof (typed_amounts df "sum rub" j T (or_introl eq_refl)
                (In_singleton _ _ Hj)) as Hc.
  eexists. split.
  { unfold DataProcessor.get_category_summary.
    rewrite (bind_Ok _ _ _ _ _ (the_data_Some dp log df Hd)).
    unfold lift. rewrite (groupby_sum_Ok df _ _ i j Hi Hj Hx Hc). reflexivity. }
  unfold sums_frame. rewrite sum_of_totals_table.
  unfold pd.sum_table. rewrite grand_total_sort_keys.
  unfold pd.group_sums. rewrite grand_total_fold.
  - rewrite combine_columns. unfold keyed. rewrite map_map. cbn [snd].
    rewrite <- (map_map (fun r0 => nth j (cells r0) Null) num_of).
    fold (pd.column j df). cbn [grand_total fold_right].
    apply fold_addv_num_of.
  - intros [k v] H. apply (in_map fst) in H. rewrite combine_columns, keys_keyed in H.
    cbn [fst] in H |- *. unfold pd.column in H. apply in_map_iff in H.
    destruct H as [row [<- Hrow]]. apply (N row); [exact Hrow|].
    exact (proj2 (column_cell df "category" i row R (In_singleton _ _ Hi) Hrow)).
Qed.

End Conservation.

(* ================================================================== *)
(** * After a column was made the index *)
Section IndexMore.

Context {Sc : Scalars} {Un : Unspecified Sc}.

(** The position in a list of the element that is at [j] once the
    element at [i] is removed. *)
Definition skip (i j : nat) : nat := if Nat.ltb j i then j else S j.

Lemma skip_S (i j : nat) : skip (S i) (S j) = S (skip i j).
Proof.
  unfold skip. change (Nat.ltb (S j) (S i)) with (Nat.ltb j i).
  now destruct (Nat.ltb j i).
Qed.

Lemma nth_remove_nth {A : Type} (d : A) :
  forall (i : nat) (l : list A) (j : nat),
    nth j (pd.remove_nth i l) d = nth (skip i j) l d.
Proof.
  induction i as [|i IH]; intros [|x l] j.
  - generalize (skip 0 j). intro k. now destruct j, k.
  - reflexivity.
  - generalize (skip (S i) j). intro k. now destruct j, k.
  - destruct j as [|j]; [reflexivity|].
    rewrite skip_S. cbn [pd.remove_nth nth]. apply IH.
Qed.

Lemma positions_from_S (name : string) (l : list string) :
  forall o, pd.positions_from (S o) name l = map S (pd.positions_from o name l).
Proof.
  induction l as [|c l IH]; intro o; [reflexivity|]. cbn [pd.positions_from].
  rewrite IH. now destruct (String.eqb c name).
Qed.

Lemma positions_cons (name c : string) (l : list string) :
  pd.positions name (c :: l)
  = (if String.eqb c name then [0] else []) ++ map S (pd.positions name l).
Proof.
  unfold pd.positions. cbn [pd.positions_from]. rewrite positions_from_S.
  now destruct (String.eqb c name).
Qed.

Lemma positions_remove (name key : string) :
  forall (i : nat) (cols : list string),
    nth_error cols i = Some key -> key <> name ->
    pd.positions name cols = map (skip i) (pd.positions name (pd.remove_nth i cols)).
Proof.
  intros i cols Hn Hk. revert cols Hn.
  induction i as [|i IH]; intros [|c cols] Hn; try discriminate.
  - injection Hn as ->. apply String.eqb_neq in Hk.
    rewrite positions_cons, Hk. reflexivity.
  - cbn [pd.remove_nth]. rewrite !positions_cons, map_app, (IH cols Hn), !map_map.
    f_equal; [now destruct (String.eqb c name)|].
    apply map_ext. intro p. now rewrite skip_S.
Qed.

Lemma positions_removed (name : string) :
  forall (cols : list string) (i : nat),
    pd.positions name cols = [i] -> pd.positions name (pd.remove_nth i cols) = [].
Proof.
  induction cols as [|c cols IH]; intros i H; [discriminate|].
  rewrite positions_cons in H. destruct (String.eqb c name) eqn:E.
  - injection H as <- H. cbn [pd.remove_nth].
    now destruct (pd.positions name cols).
  - cbn [app] in H. destruct (pd.positions name cols) as [|p [|q rest]] eqn:P;
      try discriminate.
    injection H as <-. cbn [pd.remove_nth]. rewrite positions_cons, E.
    now rewrite (IH p eq_refl).
Qed.

Lemma column_indexed (i j : nat) (name : string) (df : frame) :
  pd.column j (indexed_by i name df) = pd.column (skip i j) df.
Proof.
  unfold pd.column, indexed_by. cbn [rows]. rewrite map_map. cbn [cells].
  apply map_ext. intro r. apply nth_remove_nth.
Qed.

Lemma summands_indexed (i : nat) (name : string) (df : frame) (js : list nat) :
  mapM (fun j => mapM pd.summand (pd.column j (indexed_by i name df))) js
  = mapM (fun j => mapM pd.summand (pd.column j df)) (map (skip i) js).
Proof.
  induction js as [|j js IH]; [reflexivity|].
  cbn [mapM map]. now rewrite IH, column_indexed.
Qed.

Lemma grouper_indexed (i : nat) (key : string) (df : frame) :
  pd.positions key (columns df) = [i] ->
  pd.index_is df key = false ->
  pd.grouper (indexed_by i key df) key = pd.grouper df key.
Proof.
  intros Hi Hx. unfold pd.grouper. rewrite Hi, Hx.
  cbn [indexed_by columns]. rewrite (positions_removed key _ i Hi).
  unfold pd.index_is, indexed_by. cbn [index_name]. rewrite String.eqb_refl.
  unfold pd.column. cbn [rows]. now rewrite map_map.
Qed.

Lemma select_values_indexed (i : nat) (key val : string) (df : frame) :
  pd.positions key (columns df) = [i] ->
  key <> val ->
  pd.select_values df val
  = match pd.select_values (indexed_by i key df) val with
    | Ok js => Ok (map (skip i) js)
    | Raise e => Raise e
    end.
Proof.
  intros Hi Hk. unfold pd.select_values. cbn [indexed_by columns].
  rewrite (positions_remove val key i (columns df)); [|
    apply positions_nth_error; rewrite Hi; now left | exact Hk].
  now destruct (pd.positions val (pd.remove_nth i (columns df))).
Qed.

(** Grouping by a column that has become the index gives what grouping
    by the column gave. *)
Lemma groupby_sum_indexed (i : nat) (key val : string) (df : frame) :
  pd.positions key (columns df) = [i] ->
  pd.index_is df key = false ->
  key <> val ->
  pd.groupby_sum (indexed_by i key df) key val = pd.groupby_sum df key val.
Proof.
  intros Hi Hx Hk. unfold pd.groupby_sum.
  rewrite (grouper_indexed i key df Hi Hx), (select_values_indexed i key val df Hi Hk).
  destruct (pd.grouper df key) as [ks|e]; [|reflexivity]. cbn [obind].
  destruct (pd.select_values (indexed_by i key df) val) as [js|e]; [|reflexivity].
  cbn [obind]. rewrite summands_indexed.
  destruct (mapM _ (map (skip i) js)) as [vss|e]; [|reflexivity].
  cbn [obind]. now rewrite map_map.
Qed.

Lemma groupby_mean_median_indexed (i : nat) (key val : string) (df : frame) :
  pd.positions key (columns df) = [i] ->
  pd.index_is df key = false ->
  key <> val ->
  pd.groupby_mean_median (indexed_by i key df) key val
  = pd.groupby_mean_median df key val.
Proof.
  intros Hi Hx Hk. unfold pd.groupby_mean_median.
  rewrite (grouper_indexed i key df Hi Hx), (select_values_indexed i key val df Hi Hk).
  destruct (pd.grouper df key) as [ks|e]; [|reflexivity]. cbn [obind].
  destruct (pd.select_values (indexed_by i key df) val) as [js|e]; [|reflexivity].
  cbn [obind]. rewrite summands_indexed.
  destruct (mapM _ (map (skip i) js)) as [vss|e]; [|reflexivity].
  cbn [obind]. do 2 f_equal.
  destruct (map _ vss); [reflexivity|]. do 3 f_equal.
  clear. induction js as [|j js IH]; [reflexivity|]. cbn. now rewrite IH.
Qed.

Lemma set_index_run
    (dp : DataProcessor.t) (df : frame) (log : list log_entry) (name : string) (i : nat) :
  DataProcessor.data dp = Some df ->
  pd.positions name (columns df) = [i] ->
  DataProcessor.set_index name (dp, log)
  = (Ok tt,
     (DataProcessor.with_table dp (indexed_by i name df),
      log ++ [(INFO, String.append "Column '" (String.append name "' set as index."))])).
Proof.
  intros Hd Hi.
  assert (Hin : In name (columns df)).
  { destruct (in_dec string_dec name (columns df)) as [H|H]; [exact H|].
    apply positions_nil in H. congruence. }
  rewrite (set_index_present dp df log name Hd Hin).
  unfold pd.set_index. rewrite Hi. reflexivity.
Qed.

(** X13.  A column can be made the index once: the call takes it out of
    the columns, so the same call again finds no such column, logs the
    error and raises [ValueError], and the table stays as the first call
    left it. *)
Theorem set_index_again_raises
    (dp : DataProcessor.t) (df : frame) (log : list log_entry) (name : string) (i : nat) :
  DataProcessor.data dp = Some df ->
  pd.positions name (columns df) = [i] ->
  exists dp1 log1,
    DataProcessor.set_index name (dp, log) = (Ok tt, (dp1, log1))
    /\ DataProcessor.data dp1 = Some (indexed_by i name df)
    /\ DataProcessor.set_index name (dp1, log1)
       = (Raise (ValueError (not_found name)),
          (dp1, log1 ++ [(ERROR, not_found name)])).
Proof.
  intros Hd Hi. eexists. eexists.
  split; [exact (set_index_run dp df log name i Hd Hi)|].
  split; [exact (data_with_table _ _ _ Hd)|].
  apply (set_index_absent _ (indexed_by i name df)); [exact (data_with_table _ _ _ Hd)|].
  cbn [indexed_by columns]. apply positions_nil. now apply positions_removed.
Qed.

(** X14.  Once [category] is the index, the filter by category and the
    summary by subcategory raise [KeyError], since they look the column
    up; the summary by category and the means and medians group by the
    index and return what they returned before. *)
Theorem category_as_index_breaks_filters_only
    (dp : DataProcessor.t) (df : frame) (log : list log_entry) (i : nat) :
  DataProcessor.data dp = Some df ->
  pd.positions "category" (columns df) = [i] ->
  pd.index_is df "category" = false ->
  exists st1,
    DataProcessor.set_index "category" (dp, log) = (Ok tt, st1)
    /\ (forall c,
          DataProcessor.filter_by_category c st1 = (Raise (KeyError "category"), st1))
    /\ (forall c,
          DataProcessor.get_subcategory_summary c st1
          = (Raise (KeyError "category"), st1))
    /\ fst (DataProcessor.get_category_summary st1)
       = fst (DataProcessor.get_category_summary (dp, log))
    /\ fst (DataProcessor.get_category_mean_median st1)
       = fst (DataProcessor.get_category_mean_median (dp, log)).
Proof.
  intros Hd Hi Hx. eexists.
  split; [exact (set_index_run dp df log "category" i Hd Hi)|].
  set (dp1 := DataProcessor.with_table dp (indexed_by i "category" df)).
  set (log1 := log ++ _).
  assert (Hd1 : DataProcessor.data dp1 = Some (indexed_by i "category" df))
    by exact (data_with_table _ _ _ Hd).
  assert (F : forall c,
            DataProcessor.filter_by_category c (dp1, log1)
            = (Raise (KeyError "category"), (dp1, log1))).
  { intro c. unfold DataProcessor.filter_by_category.
    rewrite (bind_Ok _ _ _ _ _ (the_data_Some dp1 log1 _ Hd1)).
    rewrite bind_lift. unfold pd.getitem. cbn [indexed_by columns].
    now rewrite (positions_removed "category" _ i Hi). }
  split; [exact F|]. split; [|split].
  - intro c. unfold DataProcessor.get_subcategory_summary.
    now rewrite (bind_Raise _ _ _ _ _ (F c)).
  - unfold DataProcessor.get_category_summary.
    rewrite (bind_Ok _ _ _ _ _ (the_data_Some dp1 log1 _ Hd1)).
    rewrite (bind_Ok _ _ _ _ _ (the_data_Some dp log df Hd)).
    unfold lift. cbn [fst].
    apply groupby_sum_indexed; [exact Hi|exact Hx|discriminate].
  - unfold DataProcessor.get_category_mean_median, try_except.
    rewrite (bind_Ok _ _ _ _ _ (the_data_Some dp1 log1 _ Hd1)).
    rewrite (bind_Ok _ _ _ _ _ (the_data_Some dp log df Hd)).
    rewrite !bind_lift.
    rewrite (groupby_mean_median_indexed i "category" "sum rub" df Hi Hx
               ltac:(discriminate)).
    destruct (pd.groupby_mean_median df "category" "sum rub") as [summary|e];
      [|reflexivity].
    rewrite !bind_lift. destruct (pd.set_columns summary _); reflexivity.
Qed.

End IndexMore.

(* ================================================================== *)
(** * The monthly summary and the table *)
Section MonthlyMore.

Context {Sc : Scalars} {Un : Unspecified Sc}.

Lemma set_at_idem (name : string) (v : cell) (cols : list string) :
  forall cs, pd.set_at name cols (pd.set_at name cols cs v) v = pd.set_at name cols cs v.
Proof.
  induction cols as [|c cols IH]; intros [|x cs]; try reflexivity.
  cbn [pd.set_at]. rewrite IH. now destruct (String.eqb c name).
Qed.

Lemma set_at_appended (name : string) (v : cell) (cols : list string) :
  forall cs,
    ~ In name cols -> List.length cs = List.length cols ->
    pd.set_at name (cols ++ [name]) (cs ++ [v]) v = cs ++ [v].
Proof.
  induction cols as [|c cols IH]; intros [|x cs] Hn L; try discriminate.
  - cbn. now rewrite String.eqb_refl.
  - cbn [app pd.set_at].
    assert (E : String.eqb c name = false).
    { apply String.eqb_neq. intros ->. apply Hn. now left. }
    rewrite E. f_equal. apply IH; [|now injection L].
    intro H. apply Hn. now right.
Qed.

Lemma combine_map_combine {A B C : Type} (g : A * B -> C) (l : list A) :
  forall l' : list B,
    combine (map g (combine l l')) l' = map (fun p => (g p, snd p)) (combine l l').
Proof.
  induction l as [|x l IH]; intros [|y l']; try reflexivity.
  cbn. now rewrite IH.
Qed.

(** Assigning the same values to the same label again changes nothing. *)
Lemma setitem_idem (df : frame) (name : string) (values : list cell) :
  rectangular df ->
  pd.setitem (pd.setitem df name values) name values = pd.setitem df name values.
Proof.
  intro R. unfold pd.setitem at 1.
  assert (C : pd.contains name (pd.setitem df name values) = true)
    by (apply contains_In, contains_setitem).
  rewrite C. unfold pd.setitem. destruct (pd.contains name df) eqn:C0;
    cbn [columns index_name rows]; f_equal.
  - rewrite combine_map_combine, map_map. apply map_ext.
    intros [r v]. cbn [fst snd label cells]. now rewrite set_at_idem.
  - rewrite combine_map_combine, map_map. apply map_ext_in.
    intros [r v] H. cbn [fst snd label cells]. f_equal.
    apply set_at_appended.
    + apply Bool.not_true_iff_false in C0. intro Hin. apply C0. now apply contains_In.
    + apply in_combine_l in H. exact (proj1 (Forall_forall _ _) R r H).
Qed.

(** X15.  [get_monthly_summary] can be asked again: after a call that
    returned, on a rectangular table, the next call returns the same
    summary and leaves the table, which now has its months, as it
    is. *)
Theorem monthly_summary_is_repeatable
    (dp dp1 : DataProcessor.t) (df : frame) (log log1 : list log_entry)
    (result : frame) :
  DataProcessor.data dp = Some df ->
  rectangular df ->
  DataProcessor.get_monthly_summary (dp, log) = (Ok result, (dp1, log1)) ->
  DataProcessor.get_monthly_summary (dp1, log1) = (Ok result, (dp1, log1)).
Proof.
  intros Hd R H.
  destruct (monthly_Ok dp df log result (dp1, log1) Hd H)
    as [i [dates [mt [months [formatted [Pi [Dt [St [G [GM [F ->]]]]]]]]]]].
  injection St as -> ->.
  set (df1 := pd.setitem df "month" (month_values dates)) in *.
  assert (L : List.length (month_values dates) = List.length (rows df)).
  { unfold month_values, pd.dt_to_period_M. rewrite !length_map.
    rewrite (mapM_length _ _ _ Dt). unfold pd.column. now rewrite length_map. }
  destruct (setitem_other df "month" "date" (month_values dates) i R L
              ltac:(discriminate) Pi) as [Pi1 Ci1]. fold df1 in Pi1, Ci1.
  unfold DataProcessor.get_monthly_summary.
  rewrite (bind_Ok _ _ _ _ _
             (the_data_Some (DataProcessor.with_table dp df1) log df1
               (data_with_table _ _ _ Hd))).
  rewrite bind_lift. unfold pd.getitem at 1. rewrite Pi1.
  rewrite bind_lift. cbn [pd.to_datetime]. rewrite Ci1, Dt.
  fold (month_values dates).
  unfold bind at 1. unfold DataProcessor.set_data at 1.
  unfold bind at 1. unfold get_self at 1, set_self at 1.
  cbn [fst snd]. rewrite with_table_twice.
  unfold df1 at 1. rewrite (setitem_idem df "month" (month_values dates) R). fold df1.
  rewrite (bind_Ok _ _ _ _ _
             (the_data_Some (DataProcessor.with_table dp df1) log df1
               (data_with_table _ _ _ Hd))).
  rewrite bind_lift, G, bind_lift, GM, bind_lift, F. reflexivity.
Qed.

(** X16.  A call of [get_monthly_summary] that raises can still have
    changed the table.  On a rectangular table under the default index
    with [date] once, readable dates, [month] at most once, and no
    [sum rub], it raises [KeyError] for [sum rub], and the column
    [month] has been assigned all the same. *)
Theorem monthly_summary_assigns_months_before_it_raises
    (dp : DataProcessor.t) (df : frame) (log : list log_entry) (i : nat)
    (dates : list (option Z)) :
  DataProcessor.data dp = Some df ->
  rectangular df ->
  index_name df = None ->
  pd.positions "date" (columns df) = [i] ->
  mapM pd.to_datetime_raise1 (pd.column i df) = Ok dates ->
  at_most_once "month" df ->
  ~ In "sum rub" (columns df) ->
  DataProcessor.get_monthly_summary (dp, log)
  = (Raise (KeyError "Column not found: sum rub"),
     (DataProcessor.with_table dp (pd.setitem df "month" (month_values dates)), log))
  /\ In "month" (columns (pd.setitem df "month" (month_values dates))).
Proof.
  intros Hd R I Pi Dt Hm Hs.
  set (df1 := pd.setitem df "month" (month_values dates)).
  assert (L : List.length (month_values dates) = List.length (rows df)).
  { unfold month_values, pd.dt_to_period_M. rewrite !length_map.
    rewrite (mapM_length _ _ _ Dt). unfold pd.column. now rewrite length_map. }
  destruct (setitem_column df "month" (month_values dates) R L Hm) as [m [Pm _]].
  fold df1 in Pm.
  assert (Ps : pd.positions "sum rub" (columns df1) = []).
  { apply positions_nil. unfold df1.
    destruct (setitem_columns df "month" (month_values dates)) as [_ [->|[_ ->]]];
      [exact Hs|].
    intro H. apply in_app_or in H. destruct H as [H|[H|[]]];
      [contradiction|discriminate]. }
  split; [|apply contains_setitem].
  unfold DataProcessor.get_monthly_summary.
  rewrite (bind_Ok _ _ _ _ _ (the_data_Some dp log df Hd)).
  rewrite bind_lift. unfold pd.getitem at 1. rewrite Pi.
  rewrite bind_lift. cbn [pd.to_datetime]. rewrite Dt.
  fold (month_values dates). fold df1.
  unfold bind at 1. unfold DataProcessor.set_data at 1.
  unfold bind at 1. unfold get_self at 1, set_self at 1. cbn [fst snd].
  rewrite (bind_Ok _ _ _ _ _
             (the_data_Some (DataProcessor.with_table dp df1) log df1
               (data_with_table _ _ _ Hd))).
  rewrite bind_lift.
  unfold pd.groupby_sum, pd.grouper, pd.select_values. rewrite Pm, Ps.
  unfold pd.index_is. unfold df1 at 1.
  rewrite (proj1 (setitem_columns df "month" (month_values dates))), I.
  reflexivity.
Qed.

End MonthlyMore.

(* ================================================================== *)
(** * The dashboard *)
Section Dashboard.

Context {Sc : Scalars} {Un : Unspecified Sc} {Pl : Plotly Sc} {Py : Interpreter}.

Lemma on_processor_the_data
    (v : FinancialVisualizer.t) (log : list log_entry) (df : frame) :
  DataProcessor.data (FinancialVisualizer.processor v) = Some df ->
  FinancialVisualizer.on_processor DataProcessor.the_data (v, log) = (Ok df, (v, log)).
Proof.
  destruct v as [dp a]. cbn [FinancialVisualizer.processor]. intro H.
  unfold FinancialVisualizer.on_processor.
  cbn [fst snd FinancialVisualizer.processor FinancialVisualizer.app].
  now rewrite (the_data_Some dp log df H).
Qed.

(** The options a dropdown is given for column [i]. *)
Definition options (i : nat) (df : frame) : list dropdown_option :=
  map (fun c => mkOption c c) (unique_from [] (pd.column i df)).

Definition no_unique : exn :=
  AttributeError "'DataFrame' object has no attribute 'unique'".

Lemma options_of_run
    (v : FinancialVisualizer.t) (log : list log_entry) (df : frame) (name : string) :
  DataProcessor.data (FinancialVisualizer.processor v) = Some df ->
  FinancialVisualizer.options_of name (v, log)
  = match pd.positions name (columns df) with
    | [] => (Raise (KeyError name), (v, log))
    | [i] => (Ok (options i df), (v, log))
    | _ => (Raise no_unique, (v, log))
    end.
Proof.
  intro Hd. unfold FinancialVisualizer.options_of.
  rewrite (bind_Ok _ _ _ _ _ (on_processor_the_data v log df Hd)).
  rewrite bind_lift. unfold pd.getitem.
  destruct (pd.positions name (columns df)) as [|i [|i' rest]]; [reflexivity| |];
    rewrite bind_lift; reflexivity.
Qed.

(** The layout [setup_layout] builds around the options of the two
    dropdowns. *)
Definition dashboard (categories periods : list dropdown_option) : component :=
  Div [ H1 "Financial Dashboard" "header";
        Div [ Div [Dropdown "category_dropdown" categories "Select a category"
                     "dropdown-dark"] "dropdown-container";
              Div [Dropdown "period_dropdown" periods "Select a period"
                     "dropdown-dark"] "dropdown-container" ]
            "flex-around";
        Div [ Div [Graph "category_pie_chart"] "graph-container";
              Div [Graph "monthly_bar_chart"] "graph-container" ]
            "flex-container";
        Div [ Div [Graph "comparison_chart"] "graph-container" ] "flex-container" ]
      "container".

(** The callbacks [setup_callbacks] registers: output, input, function. *)
Definition wiring : list FinancialVisualizer.registration :=
  [ FinancialVisualizer.mkRegistration
      (mkDependency "category_pie_chart" "figure")
      (mkDependency "category_dropdown" "value")
      FinancialVisualizer.update_pie_chart_f;
    FinancialVisualizer.mkRegistration
      (mkDependency "monthly_bar_chart" "figure")
      (mkDependency "period_dropdown" "value")
      FinancialVisualizer.update_bar_chart_f;
    FinancialVisualizer.mkRegistration
      (mkDependency "category_dropdown" "value")
      (mkDependency "category_pie_chart" "clickData")
      FinancialVisualizer.update_category_on_click_f;
    FinancialVisualizer.mkRegistration
      (mkDependency "period_dropdown" "value")
      (mkDependency "monthly_bar_chart" "clickData")
      FinancialVisualizer.update_period_on_click_f;
    FinancialVisualizer.mkRegistration
      (mkDependency "comparison_chart" "figure")
      (mkDependency "category_dropdown" "value")
      FinancialVisualizer.update_comparison_chart_f ].

Definition greeting (df : frame) : log_entry :=
  if is_empty df
  then (WARNING, "No data available for visualization.")
  else (INFO, "Data loaded successfully for visualization.").

Lemma visualizer_new_run (dp : DataProcessor.t) (df : frame) (log : list log_entry) :
  DataProcessor.data dp = Some df ->
  FinancialVisualizer.new dp log
  = match pd.positions "category" (columns df) with
    | [] => (Raise (KeyError "category"), log ++ [greeting df])
    | [i] =>
        match pd.positions "period" (columns df) with
        | [] => (Raise (KeyError "period"), log ++ [greeting df])
        | [k] =>
            (Ok (FinancialVisualizer.mk dp
                   (FinancialVisualizer.mkDash
                      (Some (dashboard (options i df) (options k df))) wiring)),
             log ++ [greeting df])
        | _ => (Raise no_unique, log ++ [greeting df])
        end
    | _ => (Raise no_unique, log ++ [greeting df])
    end.
Proof.
  intro Hd. unfold FinancialVisualizer.new, FinancialVisualizer.__post_init__.
  set (v0 := FinancialVisualizer.mk dp (FinancialVisualizer.mkDash None [])).
  assert (Hv : DataProcessor.data (FinancialVisualizer.processor v0) = Some df)
    by exact Hd.
  rewrite (bind_Ok _ _ _ _ _ (on_processor_the_data v0 log df Hd)).
  assert (G : (if is_empty df
               then @logging FinancialVisualizer.t WARNING
                      "No data available for visualization."
               else logging INFO "Data loaded successfully for visualization.")
                (v0, log)
              = (Ok tt, (v0, log ++ [greeting df]))).
  { unfold greeting. destruct (is_empty df); reflexivity. }
  rewrite (bind_Ok _ _ _ _ _ G).
  unfold FinancialVisualizer.setup_layout.
  unfold bind at 1. rewrite (options_of_run v0 _ df "category" Hv).
  destruct (pd.positions "category" (columns df)) as [|i [|i' rest]];
    [reflexivity| |reflexivity].
  unfold bind at 1. rewrite (options_of_run v0 _ df "period" Hv).
  destruct (pd.positions "period" (columns df)) as [|k [|k' rest]];
    [reflexivity| |reflexivity].
  reflexivity.
Qed.

(** X17.  [FinancialVisualizer(processor)] returns exactly when the
    table of the processor has the labels [category] and [period] once
    each.  Without [category] it raises [KeyError] for it, and with it
    but without [period], for that; the contents of the table play no
    part. *)
Theorem visualizer_is_constructed_iff
    (dp : DataProcessor.t) (df : frame) (log : list log_entry) :
  DataProcessor.data dp = Some df ->
  ((exists v log', FinancialVisualizer.new dp log = (Ok v, log'))
   <-> (exists i, pd.positions "category" (columns df) = [i])
       /\ (exists k, pd.positions "period" (columns df) = [k]))
  /\ (~ In "category" (columns df) ->
      fst (FinancialVisualizer.new dp log) = Raise (KeyError "category"))
  /\ (In "category" (columns df) -> at_most_once "category" df ->
      ~ In "period" (columns df) ->
      fst (FinancialVisualizer.new dp log) = Raise (KeyError "period")).
Proof.
  intro Hd. rewrite (visualizer_new_run dp df log Hd). split; [|split].
  - split.
    + intros [v [log' H]].
      destruct (pd.positions "category" (columns df)) as [|i [|i' rest]];
        try discriminate.
      destruct (pd.positions "period" (columns df)) as [|k [|k' rest']];
        try discriminate.
      eauto.
    + intros [[i ->] [k ->]]. eauto.
  - intro H. apply positions_nil in H. now rewrite H.
  - intros Hc Ha Hp. unfold at_most_once in Ha.
    destruct (pd.positions "category" (columns df)) as [|i [|i' rest]] eqn:P.
    + apply positions_nil in P. contradiction.
    + apply positions_nil in Hp. now rewrite Hp.
    + cbn [List.length] in Ha. lia.
Qed.

(** ** [unique] *)

Lemma unique_from_spec (vs : list cell) :
  forall seen,
    NoDup (unique_from seen vs)
    /\ (forall c, In c (unique_from seen vs) <-> In c vs /\ ~ In c seen).
Proof.
  induction vs as [|v vs IH]; intro seen; cbn [unique_from].
  - split; [constructor|]. intro c. cbn. tauto.
  - destruct (existsb (cell_eqb v) seen) eqn:E.
    + apply existsb_exists in E. destruct E as [x [Hx E]].
      apply cell_eqb_eq in E. subst x.
      destruct (IH seen) as [H1 H2]. split; [exact H1|].
      intro c. rewrite H2. cbn [In]. split; [tauto|].
      intros [[<-|H] Hn]; [contradiction|tauto].
    + assert (Hv : ~ In v seen).
      { intro H. apply Bool.not_true_iff_false in E. apply E.
        apply existsb_exists. exists v. split; [exact H|apply cell_eqb_refl]. }
      destruct (IH (v :: seen)) as [H1 H2]. split.
      * constructor; [|exact H1]. rewrite H2. cbn [In]. tauto.
      * intro c. cbn [In]. rewrite H2. cbn [In].
        destruct (cell_eq_dec v c) as [->|N]; tauto.
Qed.

(** X18.  A dashboard that was constructed holds the processor it was
    given, the layout with the two dropdowns and the three graphs, and
    the five callbacks.  Each dropdown offers the distinct values of its
    column, every value once, as label and as value. *)
Theorem dropdowns_offer_the_distinct_values
    (dp : DataProcessor.t) (df : frame) (log log' : list log_entry)
    (v : FinancialVisualizer.t) :
  DataProcessor.data dp = Some df ->
  FinancialVisualizer.new dp log = (Ok v, log') ->
  exists i k categories periods,
    pd.positions "category" (columns df) = [i]
    /\ pd.positions "period" (columns df) = [k]
    /\ FinancialVisualizer.processor v = dp
    /\ FinancialVisualizer.layout (FinancialVisualizer.app v)
       = Some (dashboard (map (fun c => mkOption c c) categories)
                         (map (fun c => mkOption c c) periods))
    /\ FinancialVisualizer.callback_map (FinancialVisualizer.app v) = wiring
    /\ NoDup categories /\ (forall c, In c categories <-> In c (pd.column i df))
    /\ NoDup periods /\ (forall c, In c periods <-> In c (pd.column k df)).
Proof.
  intros Hd H. rewrite (visualizer_new_run dp df log Hd) in H.
  destruct (pd.positions "category" (columns df)) as [|i [|i' rest]];
    try discriminate.
  destruct (pd.positions "period" (columns df)) as [|k [|k' rest']];
    try discriminate.
  injection H as <- _.
  exists i, k, (unique_from [] (pd.column i df)), (unique_from [] (pd.column k df)).
  destruct (unique_from_spec (pd.column i df) []) as [N1 M1].
  destruct (unique_from_spec (pd.column k df) []) as [N2 M2].
  repeat split; try reflexivity; try assumption.
  - intro Hc. now apply M1.
  - intro Hc. apply M1. split; [exact Hc|intros []].
  - intro Hc. now apply M2.
  - intro Hc. apply M2. split; [exact Hc|intros []].
Qed.

(** X19.  A reader that was left with the empty table (a request that
    failed, or a range without values) still gives a processor, but no
    dashboard: [FinancialVisualizer] logs its warning and then raises
    [KeyError] for [category]. *)
Theorem empty_table_gives_no_dashboard
    (r : GoogleSheetsReader.t) (log : list log_entry) :
  GoogleSheetsReader.data r = Some pd.empty ->
  exists dp log1 log2,
    DataProcessor.new (reader_object r) log = (Ok dp, log1)
    /\ DataProcessor.data dp = Some pd.empty
    /\ FinancialVisualizer.new dp log1 = (Raise (KeyError "category"), log2)
    /\ In (WARNING, "No data available for visualization.") log2.
Proof.
  intro Hd. exists (constructed r pd.empty).
  eexists. eexists.
  split; [rewrite (new_run r pd.empty log Hd); reflexivity|].
  split; [reflexivity|].
  split; [rewrite (visualizer_new_run (constructed r pd.empty) pd.empty _ eq_refl);
          reflexivity|].
  apply in_or_app. right. now left.
Qed.

End Dashboard.

(* ================================================================== *)
(** * From the sheet to the dashboard *)
Section Startup.

Context {Sc : Scalars} {Un : Unspecified Sc}.
Variable api : google_api.

Lemma NoDup_at_most_once (name : string) (df : frame) :
  NoDup (columns df) -> at_most_once name df.
Proof. intro H. exact (positions_from_NoDup 0 name (columns df) H). Qed.

Lemma NoDup_once (name : string) (cols : list string) :
  NoDup cols -> In name cols -> exists i, pd.positions name cols = [i].
Proof.
  intros Hnd Hin. destruct (positions_cases name cols Hnd) as [[H _]|[_ H]];
    [contradiction|exact H].
Qed.

(** X20.  A sheet starts the dashboard when its header row names
    [category] and [period], repeats no label, and no row is longer than
    the header while one is as long (or there are no rows under the
    header): the reader, the processor and the visualizer are all
    constructed.  Under a header without rows the visualizer logs its
    warning and starts with empty dropdowns. *)
Theorem well_formed_sheet_starts_the_dashboard
    (cf sid rng : string) (log : list log_entry) (svc : service)
    (header : list string) (body : list (list string)) :
  authorize_outcome api cf = Ok svc ->
  execute api svc sid rng = Ok (Some (header :: body)) ->
  Forall (fun r => List.length r <= List.length header) body ->
  body = [] \/ Exists (fun r => List.length r = List.length header) body ->
  NoDup header ->
  In "category" header ->
  In "period" header ->
  exists r log1 dp log2 v log3 df,
    GoogleSheetsReader.new api cf sid rng log = (Ok r, log1)
    /\ DataProcessor.new (reader_object r) log1 = (Ok dp, log2)
    /\ DataProcessor.data dp = Some df
    /\ columns df = header
    /\ List.length (rows df) = List.length body
    /\ FinancialVisualizer.new dp log2 = (Ok v, log3)
    /\ FinancialVisualizer.processor v = dp
    /\ In (match body with
           | [] => (WARNING, "No data available for visualization.")
           | _ :: _ => (INFO, "Data loaded successfully for visualization.")
           end) log3.
Proof.
  intros Ha He Hall Hex Hnd Hcat Hper.
  destruct (new_authorized api cf sid rng log svc Ha) as [entry [Hnew _]].
  rewrite He in Hnew. cbn [fetched] in Hnew.
  set (df0 := mkFrame header None
                (pd.number_rows 0
                   (map (fun r => pd.pad (List.length header) (map Str r)) body))).
  assert (D : pd.DataFrame body header = Ok df0).
  { unfold pd.DataFrame, df0. destruct body as [|r0 body]; [reflexivity|].
    destruct Hex as [Hex|Hex]; [discriminate|].
    rewrite (width_of_widest _ _ Hall Hex). now rewrite Nat.eqb_refl. }
  rewrite D in Hnew.
  assert (Hnd0 : NoDup (columns df0)) by exact Hnd.
  pose proof (new_run (GoogleSheetsReader.mk cf sid rng (Some svc) (Some df0)) df0
                (((log ++ [(INFO, "Credentials successfully loaded.")])
                    ++ [(INFO, "Authorization successful.")]) ++ [entry])
                eq_refl) as Hproc.
  rewrite (coercion_Ok df0 (NoDup_at_most_once _ _ Hnd0) (NoDup_at_most_once _ _ Hnd0)
             (NoDup_at_most_once _ _ Hnd0)), fillna0_converted in Hproc.
  destruct (NoDup_once "category" header Hnd Hcat) as [i Pi].
  destruct (NoDup_once "period" header Hnd Hper) as [k Pk].
  pose proof (visualizer_new_run
                (constructed (GoogleSheetsReader.mk cf sid rng (Some svc) (Some df0))
                   (processed df0))
                (processed df0)
                (((((log ++ [(INFO, "Credentials successfully loaded.")])
                     ++ [(INFO, "Authorization successful.")]) ++ [entry])
                   ++ [(INFO, "Data types checked and converted where necessary.")])
                  ++ [(INFO, "NaN values replaced with zeros in the DataFrame.")])
                eq_refl) as Hvis.
  cbn [processed columns] in Hvis. change (columns df0) with header in Hvis.
  rewrite Pi, Pk in Hvis.
  eexists. eexists. eexists. eexists. eexists. eexists. exists (processed df0).
  split; [exact Hnew|]. split; [exact Hproc|]. split; [reflexivity|].
  split; [reflexivity|].
  split.
  { cbn [processed rows df0]. rewrite length_map.
    rewrite <- (length_map label), label_number_rows.
    now rewrite length_map, length_seq, length_map. }
  split; [exact Hvis|]. split; [reflexivity|].
  apply in_or_app. right. left. unfold greeting, is_empty.
  cbn [processed columns rows df0].
  destruct header as [|h header']; [contradiction|].
  now destruct body.
Qed.

End Startup.

(* ================================================================== *)
(** * The callbacks of the dashboard *)
Section Callbacks.

Context {Sc : Scalars} {Un : Unspecified Sc} {Pl : Plotly Sc} {Py : Interpreter}.
Variable api : google_api.

(** The three callbacks that answer with a figure. *)
Inductive chart : Type := PieChart | BarChart | ComparisonChart.

Definition run_chart (c : chart) : option string -> M FinancialVisualizer.t figure :=
  match c with
  | PieChart => FinancialVisualizer.update_pie_chart
  | BarChart => FinancialVisualizer.update_bar_chart
  | ComparisonChart => FinancialVisualizer.update_comparison_chart
  end.

Lemma guarded {S : Type} (body : M S figure) (msg : string) (st : S * list log_entry) :
  exists fig log',
    try_except body
      (fun e => logging ERROR (String.append msg (exn_str e)) ;;; ret go_Figure)%py st
    = (Ok fig, (fst (snd (body st)), log'))
    /\ match fst (body st) with
       | Ok f => fig = f /\ log' = snd (snd (body st))
       | Raise e =>
           fig = go_Figure
           /\ log' = snd (snd (body st)) ++ [(ERROR, String.append msg (exn_str e))]
       end.
Proof.
  unfold try_except. destruct (body st) as [[f|e] [s l]]; cbn [fst snd].
  - eexists. eexists. split; [reflexivity|now split].
  - eexists. eexists. split; [reflexivity|now split].
Qed.

Lemma state_bind_pure {S A B : Type} (m : M S A) (k : A -> M S B) (st : S * list log_entry) :
  (forall a, preserves (k a)) -> fst (snd (bind m k st)) = fst (snd (m st)).
Proof.
  intro H. unfold bind. destruct (m st) as [[a|e] st']; [apply H|reflexivity].
Qed.

Lemma on_processor_state {A : Type} (m : M DataProcessor.t A)
    (v : FinancialVisualizer.t) (log : list log_entry) :
  fst (snd (FinancialVisualizer.on_processor m (v, log)))
  = FinancialVisualizer.mk
      (fst (snd (m (FinancialVisualizer.processor v, log))))
      (FinancialVisualizer.app v).
Proof.
  unfold FinancialVisualizer.on_processor. cbn [fst snd].
  now destruct (m (FinancialVisualizer.processor v, log)) as [o [dp l]].
Qed.

Lemma on_processor_preserved {A : Type} (m : M DataProcessor.t A)
    (v : FinancialVisualizer.t) (log : list log_entry) :
  preserves m ->
  fst (snd (FinancialVisualizer.on_processor m (v, log))) = v.
Proof.
  intro H. rewrite on_processor_state, (H (FinancialVisualizer.processor v, log)).
  now destruct v.
Qed.

Lemma monthly_change (dp : DataProcessor.t) (log : list log_entry) :
  fst (snd (DataProcessor.get_monthly_summary (dp, log))) = dp
  \/ exists df values,
       DataProcessor.data dp = Some df
       /\ List.length values = List.length (rows df)
       /\ fst (snd (DataProcessor.get_monthly_summary (dp, log)))
          = DataProcessor.with_table dp (pd.setitem df "month" values).
Proof.
  destruct (DataProcessor.data dp) as [df|] eqn:Hd.
  - destruct (monthly_state dp df log Hd) as [H|[values [L H]]]; [now left|].
    right. exists df, values. auto.
  - left. unfold DataProcessor.get_monthly_summary.
    now rewrite (bind_Raise _ _ _ _ _ (the_data_None dp log Hd)).
Qed.

Create HintDb pure_step.

#[local] Hint Resolve preserves_ret preserves_raise preserves_lift preserves_logging
  preserves_get_self preserves_the_data : pure_step.

Ltac pure_steps :=
  repeat first
    [ solve [auto with pure_step]
    | apply preserves_bind; [|intro]
    | apply preserves_try_except; [|intro] ].

(** X21.  No callback that draws a chart raises, whatever the table and
    the selection: each answers with a figure.  None of them touches the
    layout or the callbacks, and only the bar chart without a selected
    period, which asks for the monthly summary, can change the table of
    the processor: it assigns the column [month].  The table is the one
    the reader holds, so the data of the reader changes with it, and
    nothing else of the reader does. *)
Theorem chart_callbacks_never_raise
    (c : chart) (arg : option string) (v : FinancialVisualizer.t)
    (log : list log_entry) :
  exists fig v' log',
    run_chart c arg (v, log) = (Ok fig, (v', log'))
    /\ FinancialVisualizer.app v' = FinancialVisualizer.app v
    /\ (FinancialVisualizer.processor v' = FinancialVisualizer.processor v
        \/ (c = BarChart /\ selected arg = None
            /\ exists df values,
                 DataProcessor.data (FinancialVisualizer.processor v) = Some df
                 /\ List.length values = List.length (rows df)
                 /\ FinancialVisualizer.processor v'
                    = DataProcessor.with_table (FinancialVisualizer.processor v)
                        (pd.setitem df "month" values)
                 /\ DataProcessor.data (FinancialVisualizer.processor v')
                    = Some (pd.setitem df "month" values)
                 /\ DataProcessor.sheets_reader (FinancialVisualizer.processor v')
                    = holding (DataProcessor.sheets_reader (FinancialVisualizer.processor v))
                        (pd.setitem df "month" values))).
Proof.
  set (changed := fun v' : FinancialVisualizer.t =>
         FinancialVisualizer.processor v' = FinancialVisualizer.processor v
         \/ (c = BarChart /\ selected arg = None
             /\ exists df values,
                  DataProcessor.data (FinancialVisualizer.processor v) = Some df
                  /\ List.length values = List.length (rows df)
                  /\ FinancialVisualizer.processor v'
                     = DataProcessor.with_table (FinancialVisualizer.processor v)
                         (pd.setitem df "month" values)
                  /\ DataProcessor.data (FinancialVisualizer.processor v')
                     = Some (pd.setitem df "month" values)
                  /\ DataProcessor.sheets_reader (FinancialVisualizer.processor v')
                     = holding (DataProcessor.sheets_reader (FinancialVisualizer.processor v))
                         (pd.setitem df "month" values))).
  assert (G : forall (body : M FinancialVisualizer.t figure) msg,
            (fst (snd (body (v, log))) = v
             \/ (c = BarChart /\ selected arg = None
                 /\ fst (snd (body (v, log)))
                    = FinancialVisualizer.mk
                        (fst (snd (DataProcessor.get_monthly_summary
                                     (FinancialVisualizer.processor v, log))))
                        (FinancialVisualizer.app v))) ->
            exists fig v' log',
              try_except body
                (fun e => logging ERROR (String.append msg (exn_str e)) ;;;
                          ret go_Figure)%py (v, log)
              = (Ok fig, (v', log'))
              /\ FinancialVisualizer.app v' = FinancialVisualizer.app v
              /\ changed v').
  { intros body msg Hst. destruct (guarded body msg (v, log)) as [fig [log' [Hrun _]]].
    exists fig, (fst (snd (body (v, log)))), log'. split; [exact Hrun|].
    destruct Hst as [->|[Hc [Hs ->]]].
    - split; [reflexivity|]. now left.
    - cbn [FinancialVisualizer.app FinancialVisualizer.processor].
      split; [reflexivity|]. unfold changed. cbn [FinancialVisualizer.processor].
      destruct (monthly_change (FinancialVisualizer.processor v) log)
        as [->|[df [values [Hd [L ->]]]]]; [now left|].
      right. split; [exact Hc|]. split; [exact Hs|].
      exists df, values. split; [exact Hd|]. split; [exact L|].
      split; [reflexivity|]. split; [exact (data_with_table _ _ _ Hd)|reflexivity]. }
  destruct c; cbn [run_chart].
  - apply G. left. unfold FinancialVisualizer.update_pie_chart.
    rewrite state_bind_pure by (intro; pure_steps).
    destruct (selected arg) as [category|].
    + rewrite state_bind_pure by (intro; pure_steps).
      apply on_processor_preserved, preserves_get_subcategory_summary.
    + rewrite state_bind_pure by (intro; pure_steps).
      apply on_processor_preserved, preserves_get_category_summary.
  - apply G. unfold FinancialVisualizer.update_bar_chart.
    rewrite state_bind_pure by (intro; pure_steps).
    destruct (selected arg) as [period|].
    + left. rewrite state_bind_pure by (intro; pure_steps).
      apply on_processor_preserved, preserves_filter_by_period.
    + right. split; [reflexivity|]. split; [reflexivity|].
      rewrite state_bind_pure by (intro; pure_steps).
      apply on_processor_state.
  - apply G. left. unfold FinancialVisualizer.update_comparison_chart.
    rewrite state_bind_pure by (intro; pure_steps).
    apply on_processor_preserved, preserves_get_category_mean_median.
Qed.

Lemma filter_by_period_Ok
    (dp : DataProcessor.t) (df : frame) (log : list log_entry) (arg : string) (k : nat) :
  DataProcessor.data dp = Some df ->
  pd.positions "period" (columns df) = [k] ->
  DataProcessor.filter_by_period arg (dp, log)
  = (Ok (mkFrame (columns df) (index_name df) (matching_rows k arg df)), (dp, log)).
Proof.
  intros Hd Hk. unfold DataProcessor.filter_by_period.
  rewrite (bind_Ok _ _ _ _ _ (the_data_Some dp log df Hd)).
  rewrite bind_lift_lift. unfold lift.
  now rewrite (filter_on_label df "period" arg k Hk).
Qed.

(** X22.  With a period selected, the bar chart plots the table of the
    processor summed by category over the rows of that period: on a
    processor made of a constructed reader, with [period], [category] and
    [sum rub] once each, [px.bar] is given one row per category that
    occurs in the period, with the sum of its amounts there.  The
    callback returns the figure Plotly makes of it, and the empty figure
    with a logged error when Plotly raises. *)
Theorem bar_chart_plots_the_period_by_category
    (cf sid rng : string) (log0 log1 log2 log3 log : list log_entry)
    (r : GoogleSheetsReader.t) (dp : DataProcessor.t) (df : frame)
    (a : FinancialVisualizer.Dash) (p : string) (k i j : nat) :
  GoogleSheetsReader.new api cf sid rng log0 = (Ok r, log1) ->
  DataProcessor.new (reader_object r) log2 = (Ok dp, log3) ->
  DataProcessor.data dp = Some df ->
  pd.positions "period" (columns df) = [k] ->
  pd.positions "category" (columns df) = [i] ->
  pd.positions "sum rub" (columns df) = [j] ->
  p <> "" ->
  exists data,
    columns data = ["category"; "sum rub"]
    /\ (forall row, In row (rows df) -> nth k (cells row) Null = Str p ->
          In [nth i (cells row) Null;
              Num (sum_both k i j (Str p) (nth i (cells row) Null) df)]
             (map cells (rows data)))
    /\ (forall row', In row' (rows data) ->
          exists row, In row (rows df)
                      /\ nth k (cells row) Null = Str p
                      /\ cells row'
                         = [nth i (cells row) Null;
                            Num (sum_both k i j (Str p) (nth i (cells row) Null) df)])
    /\ NoDup (pd.column 0 data)
    /\ FinancialVisualizer.update_bar_chart (Some p) (FinancialVisualizer.mk dp a, log)
       = match obind (px_bar data "category" "sum rub"
                        (String.append "Expenses for " p) "plotly_dark")
                     (fun fig => update_layout fig FinancialVisualizer.bar_layout)
         with
         | Ok fig => (Ok fig, (FinancialVisualizer.mk dp a, log))
         | Raise e =>
             (Ok go_Figure,
              (FinancialVisualizer.mk dp a,
               log ++ [(ERROR, String.append "Failed to update bar chart: "
                                 (exn_str e))]))
         end.
Proof.
  intros Hr Hp Hd Hk Hi Hj Hne.
  destruct (pipeline_facts api cf sid rng log0 log1 log2 log3 r dp df Hr Hp Hd)
    as [R [I [T N]]].
  destruct (groupby_sum_matching df p "category" k i j R I T N Hi Hj)
    as [data [G [H1 [H2 [H3 [H4 _]]]]]].
  exists data. repeat (split; [assumption|]).
  unfold FinancialVisualizer.update_bar_chart, try_except, selected.
  rewrite (proj2 (String.eqb_neq p "") Hne).
  unfold bind, lift, ret, logging, FinancialVisualizer.on_processor.
  cbn [fst snd FinancialVisualizer.processor FinancialVisualizer.app].
  rewrite (filter_by_period_Ok dp df log p k Hd Hk), G.
  destruct (px_bar data "category" "sum rub" (String.append "Expenses for " p)
              "plotly_dark") as [fig|e]; cbn [obind]; [|reflexivity].
  destruct (update_layout fig FinancialVisualizer.bar_layout); reflexivity.
Qed.

(** X23.  On a table without [category] or without [sum rub] (labels
    that do not repeat, default index), the comparison chart fails twice
    over, and silently for the user: [get_category_mean_median] logs its
    error and hands out the empty table, in which the callback then
    finds no [category], so that it logs [KeyError] for it and answers
    with the empty figure. *)
Theorem comparison_chart_of_a_failed_summary_is_empty
    (v : FinancialVisualizer.t) (df : frame) (log : list log_entry)
    (arg : option string) :
  DataProcessor.data (FinancialVisualizer.processor v) = Some df ->
  NoDup (columns df) ->
  index_name df = None ->
  ~ In "category" (columns df) \/ ~ In "sum rub" (columns df) ->
  exists key,
    FinancialVisualizer.update_comparison_chart arg (v, log)
    = (Ok go_Figure,
       (v, (log ++ [(ERROR, String.append "Failed to calculate mean and median expenses: "
                              (exn_str (KeyError key)))])
             ++ [(ERROR, "Failed to update comparison chart: 'category'")])).
Proof.
  intros Hd Hnd Hx Hmiss. destruct v as [dp a].
  cbn [FinancialVisualizer.processor] in Hd.
  assert (E : exists key,
            pd.groupby_mean_median df "category" "sum rub" = Raise (KeyError key)).
  { destruct Hmiss as [H|H].
    - exact (groupby_mean_median_missing df "category" "sum rub" "category"
               Hnd Hx (or_introl eq_refl) H).
    - exact (groupby_mean_median_missing df "category" "sum rub" "sum rub"
               Hnd Hx (or_intror eq_refl) H). }
  destruct E as [key E]. exists key.
  assert (Q : DataProcessor.get_category_mean_median (dp, log)
              = (Ok pd.empty,
                 (dp, log ++ [(ERROR,
                               String.append "Failed to calculate mean and median expenses: "
                                 (exn_str (KeyError key)))]))).
  { unfold DataProcessor.get_category_mean_median, try_except.
    rewrite (bind_Ok _ _ _ _ _ (the_data_Some dp log df Hd)).
    rewrite bind_lift, E. reflexivity. }
  unfold FinancialVisualizer.update_comparison_chart, try_except.
  unfold bind at 1. unfold FinancialVisualizer.on_processor at 1.
  cbn [fst snd FinancialVisualizer.processor FinancialVisualizer.app].
  rewrite Q. rewrite bind_lift. reflexivity.
Qed.

(** ** Clicks *)

(** X24.  The two click handlers answer with a value other than [None]
    only for a click whose data is a dict with a list under [points]
    that starts with a dict: for the pie chart what that dict has under
    [label], for the bar chart the first seven characters of the string
    it has under [x] (or the first seven items of a list).  Every other
    click, and no click, is answered with [None]. *)
Theorem clicks_select_from_the_first_point
    (clickData v : pyval) (log : list log_entry) :
  v <> PNone ->
  (fst (FinancialVisualizer.update_category_on_click clickData log) = v
   <-> exists d p rest,
         clickData = PDict d
         /\ lookup_item "points" d = Some (PList (PDict p :: rest))
         /\ lookup_item "label" p = Some v)
  /\ (fst (FinancialVisualizer.update_period_on_click clickData log) = v
      <-> exists d p rest x,
            clickData = PDict d
            /\ lookup_item "points" d = Some (PList (PDict p :: rest))
            /\ lookup_item "x" p = Some x
            /\ slice_to x 7 = inl v).
Proof.
  intro Hv. split; split.
  - unfold FinancialVisualizer.update_category_on_click.
    destruct (truthy clickData) eqn:Tr; [|cbn [fst]; congruence].
    repeat (cbn [subscript sbind fst]; try congruence;
            match goal with
            | |- context [match lookup_item ?k ?d with _ => _ end] =>
                destruct (lookup_item k d) eqn:?
            | |- context [match String.get ?n ?s with _ => _ end] =>
                destruct (String.get n s)
            | |- context [subscript ?x _] => is_var x; destruct x
            | |- context [nth_error ?l 0] => is_var l; destruct l; cbn [nth_error]
            end).
    intros <-. do 3 eexists. repeat split; eassumption.
  - intros [d [p [rest [-> [L L']]]]].
    unfold FinancialVisualizer.update_category_on_click.
    assert (Tr : truthy (PDict d) = true) by (destruct d; [discriminate|reflexivity]).
    rewrite Tr. cbn [subscript sbind]. rewrite L. cbn [subscript sbind nth_error].
    now rewrite L'.
  - unfold FinancialVisualizer.update_period_on_click.
    destruct (truthy clickData) eqn:Tr; [|cbn [fst]; congruence].
    repeat (cbn [subscript sbind fst]; try congruence;
            match goal with
            | |- context [match lookup_item ?k ?d with _ => _ end] =>
                destruct (lookup_item k d) eqn:?
            | |- context [match String.get ?n ?s with _ => _ end] =>
                destruct (String.get n s)
            | |- context [match slice_to ?x ?n with _ => _ end] =>
                destruct (slice_to x n) eqn:?
            | |- context [subscript ?x _] => is_var x; destruct x
            | |- context [nth_error ?l 0] => is_var l; destruct l; cbn [nth_error]
            end).
    intros <-. do 4 eexists. repeat split; eassumption.
  - intros [d [p [rest [x [-> [L [L' Sl]]]]]]].
    unfold FinancialVisualizer.update_period_on_click.
    assert (Tr : truthy (PDict d) = true) by (destruct d; [discriminate|reflexivity]).
    rewrite Tr. cbn [subscript sbind]. rewrite L. cbn [subscript sbind nth_error].
    rewrite L'. cbn [sbind]. now rewrite Sl.
Qed.

End Callbacks.

(* ================================================================== *)
(** * The model on concrete sheets *)

Import Sample.

(** The processed table of [Sample.sheet]. *)
Definition raw_table : frame :=
  Eval vm_compute in fetched (Ok (Some sheet)).

Definition sample_service : service :=
  Resource "sheets" "v4" (Credentials "credentials.json" scope).

Definition reader : GoogleSheetsReader.t :=
  GoogleSheetsReader.mk "credentials.json" "sheet-id" "A1:F6"
    (Some sample_service) (Some raw_table).

Definition table : frame := Eval vm_compute in processed raw_table.

(** The processor made of [reader]: its table is the one the reader
    holds, which is now the processed one. *)
Definition processor : DataProcessor.t := constructed reader table.

(** The reader of a sheet, as [GoogleSheetsReader.new] returns it from
    the service that answers the sheet, and the processor made of it. *)
Definition reader_of (range : string) (values : list (list string))
  : GoogleSheetsReader.t :=
  GoogleSheetsReader.mk "credentials.json" "sheet-id" range
    (Some sample_service) (Some (fetched (Ok (Some values)))).

(** A sheet that has a column [month] of its own. *)
Definition month_sheet : list (list string) :=
  [ ["date"; "sum rub"; "month"];
    ["2024-01-15"; "100"; "January"] ].

Definition month_reader : GoogleSheetsReader.t :=
  Eval vm_compute in reader_of "A1:C2" month_sheet.

Definition month_table : frame :=
  Eval vm_compute in processed (fetched (Ok (Some month_sheet))).

Definition month_processor : DataProcessor.t := constructed month_reader month_table.

(** A sheet whose header names [date] twice. *)
Definition twice_dated_sheet : list (list string) :=
  [ ["date"; "date"; "sum rub"];
    ["2024-01-15"; "2024-01-16"; "100"] ].

(** A sheet whose header names [period] twice. *)
Definition twice_period_sheet : list (list string) :=
  [ ["period"; "period"; "sum rub"];
    ["p1"; "p2"; "100"] ].

Definition twice_period_reader : GoogleSheetsReader.t :=
  Eval vm_compute in reader_of "A1:C2" twice_period_sheet.

Definition twice_period_table : frame :=
  Eval vm_compute in processed (fetched (Ok (Some twice_period_sheet))).

Definition twice_period_processor : DataProcessor.t :=
  constructed twice_period_reader twice_period_table.

(** A sheet without categories. *)
Definition bare_sheet : list (list string) :=
  [ ["date"; "sum rub"];
    ["2024-01-15"; "100"] ].

Definition bare_reader : GoogleSheetsReader.t :=
  Eval vm_compute in reader_of "A1:B2" bare_sheet.

Definition bare_table : frame :=
  Eval vm_compute in processed (fetched (Ok (Some bare_sheet))).

Definition bare_processor : DataProcessor.t := constructed bare_reader bare_table.

Example month_processor_of_sheet :
  fst (GoogleSheetsReader.new (online (Some month_sheet))
         "credentials.json" "sheet-id" "A1:C2" []) = Ok month_reader
  /\ fst (DataProcessor.new (reader_object month_reader) []) = Ok month_processor.
Proof. split; reflexivity. Qed.

Example bare_processor_of_sheet :
  fst (GoogleSheetsReader.new (online (Some bare_sheet))
         "credentials.json" "sheet-id" "A1:B2" []) = Ok bare_reader
  /\ fst (DataProcessor.new (reader_object bare_reader) []) = Ok bare_processor.
Proof. split; reflexivity. Qed.

Example reader_of_sheet :
  GoogleSheetsReader.new (online (Some sheet)) "credentials.json" "sheet-id" "A1:F6" []
  = (Ok reader,
     [(INFO, "Credentials successfully loaded.");
      (INFO, "Authorization successful.");
      (INFO, "Data successfully retrieved from Google Sheets.")]).
Proof. reflexivity. Qed.

Example processor_of_reader :
  fst (DataProcessor.new (reader_object reader) []) = Ok processor.
Proof. reflexivity. Qed.

Example category_summary_of_sheet :
  map cells (rows (match fst (DataProcessor.get_category_summary (processor, [])) with
                   | Ok summary => summary
                   | Raise _ => pd.empty
                   end))
  = [ [Str "food"; Num 400%Z]; [Str "rent"; Num 900%Z] ].
Proof. reflexivity. Qed.

(** The row of the sheet whose date is malformed has the date 0 after
    filling, which [get_monthly_summary] reads as the epoch. *)
Example monthly_summary_of_sheet :
  map cells (rows (match fst (DataProcessor.get_monthly_summary (processor, [])) with
                   | Ok summary => summary
                   | Raise _ => pd.empty
                   end))
  = [ [Str "1970-01"; Num 0%Z]; [Str "2024-01"; Num 350%Z]; [Str "2024-02"; Num 950%Z] ].
Proof. reflexivity. Qed.

Example offline_reader_is_empty :
  fst (GoogleSheetsReader.new offline "credentials.json" "sheet-id" "A1:F6" [])
  = Ok (GoogleSheetsReader.mk "credentials.json" "sheet-id" "A1:F6"
          (Some sample_service) (Some pd.empty)).
Proof. reflexivity. Qed.

(** C1, refuted as stated: with a credentials file that cannot be loaded
    the error reaches the caller, and no reader with an empty table is
    returned. *)
Lemma authorization_failure_is_raised :
  fst (GoogleSheetsReader.new no_credentials "credentials.json" "sheet-id" "A1:F6" [])
  = Raise (ApiError "No such file or directory").
Proof. reflexivity. Qed.

(** C3, refuted as stated: on a table that has a column [month],
    [get_monthly_summary] overwrites that column. *)
Lemma monthly_summary_overwrites_month :
  nth_error (columns month_table) 2 = Some "month"
  /\ pd.column 2 month_table = [Str "January"]
  /\ option_map (pd.column 2)
       (DataProcessor.data
          (fst (snd (DataProcessor.get_monthly_summary (month_processor, [])))))
     = Some [Period 648].
Proof. repeat split. Qed.

(** C6, refuted as stated: the reader delivers the table of a sheet whose
    header names [date] twice, and constructing the processor on it
    raises from the coercion of the dates. *)
Lemma coercion_raises_on_repeated_label :
  exists r log,
    GoogleSheetsReader.new (online (Some twice_dated_sheet))
      "credentials.json" "sheet-id" "A1:C2" [] = (Ok r, log)
    /\ DataProcessor.new (reader_object r) log
       = (Raise (ValueError "cannot assemble with duplicate keys"), log).
Proof. eexists. eexists. split; reflexivity. Qed.

(** C7, refuted as stated: on a table without the column [category],
    [get_category_mean_median] raises nothing and returns the empty
    table. *)
Lemma mean_median_returns_empty_without_category :
  ~ In "category" (columns bare_table)
  /\ fst (DataProcessor.get_category_mean_median (bare_processor, [])) = Ok pd.empty.
Proof.
  split.
  - simpl. intuition discriminate.
  - reflexivity.
Qed.

(** C9, refuted as stated: the reader delivers the table of a sheet whose
    header names [period] twice, and the processor is constructed on it.
    The column is present, and [set_index] raises [ValueError] all the
    same, from pandas; no column becomes the index. *)
Lemma set_index_raises_on_repeated_label :
  fst (GoogleSheetsReader.new (online (Some twice_period_sheet))
         "credentials.json" "sheet-id" "A1:C2" []) = Ok twice_period_reader
  /\ fst (DataProcessor.new (reader_object twice_period_reader) [])
     = Ok twice_period_processor
  /\ DataProcessor.data twice_period_processor = Some twice_period_table
  /\ In "period" (columns twice_period_table)
  /\ index_name twice_period_table = None
  /\ DataProcessor.set_index "period" (twice_period_processor, [])
     = (Raise (ValueError "Index data must be 1-dimensional"),
        (twice_period_processor, [])).
Proof.
  split; [reflexivity|]. split; [reflexivity|]. split; [reflexivity|].
  split; [simpl; tauto|]. split; reflexivity.
Qed.

(** ** The theorems at the sample *)

Definition category_summary : frame :=
  Eval vm_compute in
    match fst (DataProcessor.get_category_summary (processor, [])) with
    | Ok summary => summary
    | Raise _ => pd.empty
    end.

Definition food_subcategories : frame :=
  Eval vm_compute in
    match fst (DataProcessor.get_subcategory_summary "food" (processor, [])) with
    | Ok summary => summary
    | Raise _ => pd.empty
    end.

Lemma sample_table_has_no_null :
  exists r df0 df,
    reader_object reader = reader_object r
    /\ GoogleSheetsReader.data r = Some df0
    /\ DataProcessor.data processor = Some df
    /\ columns df = columns df0
    /\ index_name df = index_name df0
    /\ Forall2 (fun r0 r1 => label r1 = label r0 /\ Forall2 filled (cells r0) (cells r1))
         (rows df0) (rows df)
    /\ (forall r1 c, In r1 (rows df) -> In c (cells r1) -> c <> Null).
Proof.
  exact (no_null_after_construction (reader_object reader) []
           [(INFO, "Data types checked and converted where necessary.");
            (INFO, "NaN values replaced with zeros in the DataFrame.")]
           processor eq_refl).
Defined.

Lemma food_total_is_sum_of_food_rows :
  In [Str "food"; Num (sum_where 1 4 (Str "food") table)]
     (map cells (rows category_summary)).
Proof.
  destruct (summary_totals_are_row_sums processor table [] 4 eq_refl eq_refl) as [H _].
  destruct (H 1 category_summary (processor, []) eq_refl eq_refl) as [_ [H1 _]].
  apply H1; [discriminate|simpl; tauto].
Defined.

Lemma food_rows_are_filtered :
  DataProcessor.filter_by_category "food" (processor, [])
  = (Ok (mkFrame (columns table) (index_name table) (matching_rows 1 "food" table)),
     (processor, [])).
Proof.
  exact (proj1 (filters_return_matching_rows processor table [] "category" "food" 1
                  eq_refl eq_refl) eq_refl).
Defined.

Lemma sample_reader_is_processed :
  fst (DataProcessor.new (reader_object reader) [])
  = Ok (constructed reader (processed raw_table)).
Proof.
  assert (H1 : at_most_once "date" raw_table) by (unfold at_most_once; simpl; lia).
  assert (H2 : at_most_once "sum rub" raw_table) by (unfold at_most_once; simpl; lia).
  assert (H3 : at_most_once "sum currency" raw_table) by (unfold at_most_once; simpl; lia).
  rewrite (proj1 (coercion_never_raises_on_single_labels reader raw_table []
                    eq_refl H1 H2 H3)).
  reflexivity.
Defined.

Lemma category_summary_needs_category :
  exists k,
    fst (run_query CategorySummary (bare_processor, [])) = Raise (KeyError k).
Proof.
  apply (missing_column_raises_except_mean_median CategorySummary bare_processor
           bare_table [] "category" eq_refl).
  - repeat constructor; simpl; intuition discriminate.
  - reflexivity.
  - simpl. tauto.
  - simpl. intuition discriminate.
Defined.

Lemma month_sheet_is_read_with_its_header :
  exists r log' df,
    GoogleSheetsReader.new (online (Some month_sheet))
      "credentials.json" "sheet-id" "A1:C2" [] = (Ok r, log')
    /\ GoogleSheetsReader.data r = Some df
    /\ columns df = ["date"; "sum rub"; "month"]
    /\ map cells (rows df) = map (map Str) [["2024-01-15"; "100"; "January"]]
    /\ index_name df = None
    /\ map label (rows df) = map Pos (seq 0 (List.length [["2024-01-15"; "100"; "January"]])).
Proof.
  apply (first_row_is_header (online (Some month_sheet))
           "credentials.json" "sheet-id" "A1:C2" [] sample_service
           ["date"; "sum rub"; "month"] [["2024-01-15"; "100"; "January"]]).
  - reflexivity.
  - reflexivity.
  - repeat constructor.
Defined.

Lemma period_becomes_the_index :
  DataProcessor.set_index "period" (processor, [])
  = (Ok tt,
     (DataProcessor.with_table processor (indexed_by 3 "period" table),
      [(INFO, "Column 'period' set as index.")])).
Proof.
  exact (proj2 (proj2 (proj2 (proj2
           (set_index_raises_unless_one_column processor table [] "period" eq_refl))))
           3 eq_refl).
Defined.

Lemma food_subcategories_add_up :
  In [Str "food"; Num (sum_of_totals food_subcategories)]
     (map cells (rows category_summary))
  /\ sum_of_totals food_subcategories = sum_where 1 4 (Str "food") table.
Proof.
  apply (subcategory_totals_add_up_to_category_total processor table [] "food" 1 2 4
           food_subcategories category_summary (processor, []) (processor, [])).
  - reflexivity.
  - reflexivity.
  - reflexivity.
  - reflexivity.
  - intros r H. simpl in H.
    repeat (destruct H as [<-|H]; [discriminate|]). destruct H.
  - simpl. tauto.
  - reflexivity.
  - reflexivity.
Defined.

Lemma offline_reader_has_empty_table :
  exists r log',
    GoogleSheetsReader.new offline "credentials.json" "sheet-id" "A1:F6" [] = (Ok r, log')
    /\ (forall e,
          execute offline sample_service "sheet-id" "A1:F6" = Raise e ->
          GoogleSheetsReader.data r = Some pd.empty
          /\ In (ERROR, String.append "Failed to retrieve data from Google Sheets: "
                          (exn_str e)) log')
    /\ (execute offline sample_service "sheet-id" "A1:F6" = Ok None
        \/ execute offline sample_service "sheet-id" "A1:F6" = Ok (Some []) ->
        GoogleSheetsReader.data r = Some pd.empty
        /\ In (WARNING, "No data found in the specified range.") log')
    /\ (forall header body e,
          execute offline sample_service "sheet-id" "A1:F6" = Ok (Some (header :: body)) ->
          pd.DataFrame body header = Raise e ->
          GoogleSheetsReader.data r = Some pd.empty
          /\ In (ERROR, String.append "Failed to retrieve data from Google Sheets: "
                          (exn_str e)) log').
Proof.
  exact (reader_swallows_fetch_failures_only offline
           "credentials.json" "sheet-id" "A1:F6" []).
Defined.

Lemma monthly_summary_keeps_other_columns :
  exists df',
    DataProcessor.data (fst (snd (run_query MonthlySummary (processor, [])))) = Some df'
    /\ fst (snd (run_query MonthlySummary (processor, [])))
       = DataProcessor.with_table processor df'
    /\ DataProcessor.sheets_reader (fst (snd (run_query MonthlySummary (processor, []))))
       = holding (DataProcessor.sheets_reader processor) df'
    /\ index_name df' = index_name table
    /\ map label (rows df') = map label (rows table)
    /\ (columns df' = columns table
        \/ (~ In "month" (columns table) /\ columns df' = columns table ++ ["month"]))
    /\ (forall j name,
          nth_error (columns table) j = Some name -> name <> "month" ->
          nth_error (columns df') j = Some name
          /\ pd.column j df' = pd.column j table).
Proof.
  apply (queries_change_only_month MonthlySummary processor [] table eq_refl).
  unfold rectangular. simpl. repeat constructor.
Defined.

(* ================================================================== *)
(** * The further theorems at the sample *)

Example processor_of_reader_logged :
  DataProcessor.new (reader_object reader) []
  = (Ok processor,
     [(INFO, "Data types checked and converted where necessary.");
      (INFO, "NaN values replaced with zeros in the DataFrame.")]).
Proof. reflexivity. Qed.

Lemma sample_reader_holds_a_rectangular_table :
  exists svc df,
    authorize_outcome (online (Some sheet)) "credentials.json" = Ok svc
    /\ reader = GoogleSheetsReader.mk "credentials.json" "sheet-id" "A1:F6"
                  (Some svc) (Some df)
    /\ rectangular df
    /\ index_name df = None
    /\ (forall row c, In row (rows df) -> In c (cells row) ->
          c = Null \/ exists s, c = Str s).
Proof.
  exact (constructed_reader_invariants (online (Some sheet))
           "credentials.json" "sheet-id" "A1:F6" [] _ reader reader_of_sheet).
Defined.

Lemma sample_sheet_is_padded :
  exists r log' df,
    GoogleSheetsReader.new (online (Some sheet)) "credentials.json" "sheet-id" "A1:F6" []
    = (Ok r, log')
    /\ GoogleSheetsReader.data r = Some df
    /\ columns df = hd [] sheet
    /\ map cells (rows df)
       = map (fun r => map Str r
                       ++ repeat Null (List.length (hd [] sheet) - List.length r))
           (tl sheet).
Proof.
  apply (reader_pads_short_rows (online (Some sheet))
           "credentials.json" "sheet-id" "A1:F6" [] sample_service
           (hd [] sheet) (tl sheet)).
  - reflexivity.
  - reflexivity.
  - repeat constructor; simpl; lia.
  - apply Exists_cons_hd. reflexivity.
Defined.

(** A sheet whose last column is empty in every row: the API leaves the
    trailing empty cells out. *)
Definition narrow_sheet : list (list string) :=
  [ ["date"; "category"; "sum rub"];
    ["2024-01-15"; "food"];
    ["2024-01-20"; "rent"] ].

Lemma narrow_sheet_is_dropped :
  exists r log' msg,
    GoogleSheetsReader.new (online (Some narrow_sheet))
      "credentials.json" "sheet-id" "A1:C3" [] = (Ok r, log')
    /\ GoogleSheetsReader.data r = Some pd.empty
    /\ In (ERROR, String.append "Failed to retrieve data from Google Sheets: " msg) log'.
Proof.
  apply (reader_drops_sheet_on_width_mismatch (online (Some narrow_sheet))
           "credentials.json" "sheet-id" "A1:C3" [] sample_service
           (hd [] narrow_sheet) (tl narrow_sheet)).
  - reflexivity.
  - reflexivity.
  - discriminate.
  - left. repeat constructor; simpl; lia.
Defined.

Lemma sample_columns_are_typed :
  exists df,
    DataProcessor.data processor = Some df
    /\ forall r name c,
         In r (rows df) -> In (name, c) (combine (columns df) (cells r)) ->
         (name = "date" -> c = Num zero \/ exists ns, c = Timestamp ns)
         /\ (name = "sum rub" \/ name = "sum currency" -> exists x, c = Num x).
Proof.
  exact (constructed_columns_are_typed (reader_object reader) [] _ processor
           processor_of_reader_logged).
Defined.

Lemma sample_category_summary_returns :
  exists summary,
    DataProcessor.get_category_summary (processor, []) = (Ok summary, (processor, []))
    /\ columns summary = ["category"; "sum rub"]
    /\ index_name summary = None
    /\ map label (rows summary) = map Pos (seq 0 (List.length (rows summary)))
    /\ (forall c, In c (pd.column 0 summary) <-> In c (pd.column 1 table)).
Proof.
  exact (category_summary_succeeds (online (Some sheet))
           "credentials.json" "sheet-id" "A1:F6" [] _ [] _ [] reader processor table 1 4
           reader_of_sheet processor_of_reader_logged eq_refl eq_refl eq_refl).
Defined.

Lemma sample_means_and_medians :
  exists result,
    DataProcessor.get_category_mean_median (processor, [])
    = (Ok result,
       (processor, [(INFO, "Calculated mean and median expenses by category.")]))
    /\ columns result = ["category"; "mean_expense"; "median_expense"]
    /\ (forall c, In c (pd.column 1 table) ->
          values_where 1 4 c table <> []
          /\ In [c; Num (mean (values_where 1 4 c table));
                    Num (median (values_where 1 4 c table))]
                (map cells (rows result)))
    /\ (forall row, In row (rows result) ->
          exists c, In c (pd.column 1 table)
                    /\ cells row = [c; Num (mean (values_where 1 4 c table));
                                       Num (median (values_where 1 4 c table))])
    /\ NoDup (pd.column 0 result).
Proof.
  exact (mean_median_are_taken_by_category (online (Some sheet))
           "credentials.json" "sheet-id" "A1:F6" [] _ [] _ [] reader processor table 1 4
           reader_of_sheet processor_of_reader_logged eq_refl eq_refl eq_refl).
Defined.

Lemma sample_food_by_subcategory :
  exists sub,
    DataProcessor.get_subcategory_summary "food" (processor, [])
    = (Ok sub, (processor, []))
    /\ columns sub = ["subcategory"; "sum rub"]
    /\ (forall row, In row (rows table) -> nth 1 (cells row) Null = Str "food" ->
          In [nth 2 (cells row) Null;
              Num (sum_both 1 2 4 (Str "food") (nth 2 (cells row) Null) table)]
             (map cells (rows sub)))
    /\ (forall row', In row' (rows sub) ->
          exists row, In row (rows table)
                      /\ nth 1 (cells row) Null = Str "food"
                      /\ cells row'
                         = [nth 2 (cells row) Null;
                            Num (sum_both 1 2 4 (Str "food")
                                   (nth 2 (cells row) Null) table)])
    /\ NoDup (pd.column 0 sub)
    /\ (~ In (Str "food") (pd.column 1 table) -> rows sub = []).
Proof.
  exact (subcategory_summary_sums_rows_of_the_category (online (Some sheet))
           "credentials.json" "sheet-id" "A1:F6" [] _ [] _ [] reader processor table
           "food" 1 2 4
           reader_of_sheet processor_of_reader_logged eq_refl eq_refl eq_refl eq_refl).
Defined.

Lemma month_sheet_has_a_monthly_summary :
  exists result,
    DataProcessor.get_monthly_summary (month_processor, [])
    = (Ok result,
       (DataProcessor.with_table month_processor
          (pd.setitem month_table "month"
             (map (fun c => pd.of_period (option_map to_period_M (stamp c)))
                (pd.column 0 month_table))),
        []))
    /\ columns result = ["month"; "sum rub"]
    /\ (forall ns, In (Timestamp ns) (pd.column 0 month_table) ->
          In (Str (strftime_Ym (to_period_M ns))) (pd.column 0 result))
    /\ (forall c, In c (pd.column 0 result) ->
          exists ns, In (Timestamp ns) (pd.column 0 month_table)
                     /\ c = Str (strftime_Ym (to_period_M ns))).
Proof.
  eapply (monthly_summary_succeeds_on_read_dates (online (Some month_sheet))
            "credentials.json" "sheet-id" "A1:C2" [] _ [] _ []
            month_reader month_processor month_table 0 1).
  - reflexivity.
  - reflexivity.
  - reflexivity.
  - reflexivity.
  - reflexivity.
  - unfold at_most_once. simpl. lia.
  - intros c H. simpl in H. destruct H as [<-|[]]. eauto.
Defined.

Lemma period_is_made_the_index_once :
  exists dp1 log1,
    DataProcessor.set_index "period" (processor, []) = (Ok tt, (dp1, log1))
    /\ DataProcessor.data dp1 = Some (indexed_by 3 "period" table)
    /\ DataProcessor.set_index "period" (dp1, log1)
       = (Raise (ValueError (not_found "period")),
          (dp1, log1 ++ [(ERROR, not_found "period")])).
Proof.
  exact (set_index_again_raises processor table [] "period" 3 eq_refl eq_refl).
Defined.

Lemma sample_indexed_by_category :
  exists st1,
    DataProcessor.set_index "category" (processor, []) = (Ok tt, st1)
    /\ (forall c,
          DataProcessor.filter_by_category c st1 = (Raise (KeyError "category"), st1))
    /\ (forall c,
          DataProcessor.get_subcategory_summary c st1
          = (Raise (KeyError "category"), st1))
    /\ fst (DataProcessor.get_category_summary st1)
       = fst (DataProcessor.get_category_summary (processor, []))
    /\ fst (DataProcessor.get_category_mean_median st1)
       = fst (DataProcessor.get_category_mean_median (processor, [])).
Proof.
  exact (category_as_index_breaks_filters_only processor table [] 1
           eq_refl eq_refl eq_refl).
Defined.

(** ** The dashboard of the sample *)

Lemma bare_table_gives_no_dashboard :
  fst (FinancialVisualizer.new bare_processor []) = Raise (KeyError "category").
Proof.
  apply (visualizer_is_constructed_iff bare_processor bare_table [] eq_refl).
  simpl. intuition discriminate.
Defined.

Definition sample_dashboard : FinancialVisualizer.t :=
  FinancialVisualizer.mk processor
    (FinancialVisualizer.mkDash
       (Some (dashboard (options 1 table) (options 3 table))) wiring).

Example dashboard_of_processor :
  FinancialVisualizer.new processor []
  = (Ok sample_dashboard, [(INFO, "Data loaded successfully for visualization.")]).
Proof. reflexivity. Qed.

Example sample_dropdowns :
  options 1 table
  = [mkOption (Str "food") (Str "food"); mkOption (Str "rent") (Str "rent")]
  /\ options 3 table
     = [mkOption (Str "p1") (Str "p1"); mkOption (Str "p2") (Str "p2")].
Proof. split; reflexivity. Qed.

Lemma sample_dashboard_offers_its_categories :
  exists i k categories periods,
    pd.positions "category" (columns table) = [i]
    /\ pd.positions "period" (columns table) = [k]
    /\ FinancialVisualizer.processor sample_dashboard = processor
    /\ FinancialVisualizer.layout (FinancialVisualizer.app sample_dashboard)
       = Some (dashboard (map (fun c => mkOption c c) categories)
                         (map (fun c => mkOption c c) periods))
    /\ FinancialVisualizer.callback_map (FinancialVisualizer.app sample_dashboard)
       = wiring
    /\ NoDup categories /\ (forall c, In c categories <-> In c (pd.column i table))
    /\ NoDup periods /\ (forall c, In c periods <-> In c (pd.column k table)).
Proof.
  exact (dropdowns_offer_the_distinct_values processor table [] _ sample_dashboard
           eq_refl dashboard_of_processor).
Defined.

Definition offline_reader : GoogleSheetsReader.t :=
  GoogleSheetsReader.mk "credentials.json" "sheet-id" "A1:F6"
    (Some sample_service) (Some pd.empty).

Lemma offline_reader_gives_no_dashboard :
  fst (GoogleSheetsReader.new offline "credentials.json" "sheet-id" "A1:F6" [])
  = Ok offline_reader
  /\ exists dp log1 log2,
       DataProcessor.new (reader_object offline_reader) [] = (Ok dp, log1)
       /\ DataProcessor.data dp = Some pd.empty
       /\ FinancialVisualizer.new dp log1 = (Raise (KeyError "category"), log2)
       /\ In (WARNING, "No data available for visualization.") log2.
Proof.
  split; [reflexivity|].
  exact (empty_table_gives_no_dashboard offline_reader [] eq_refl).
Defined.

(** Figures that record what they were asked to draw, and an
    interpreter that prints no detail. *)
Record sketch : Type := mkSketch {
  plotted : option frame;
  bars : list (pd.selection * pd.selection * string * string);
  settings : list (string * pyval)
}.

Definition sketch_of (data : frame) (a b title template : string) : outcome sketch :=
  if andb (pd.contains a data) (pd.contains b data)
  then Ok (mkSketch (Some data) [] [("title", PStr title); ("template", PStr template)])
  else Raise (ValueError "Value is not the name of a column in 'data_frame'").

#[global] Instance sketches : Plotly scalars := {|
  figure := sketch;
  trace := (pd.selection * pd.selection * string * string)%type;
  go_Figure := mkSketch None [] [];
  px_pie := sketch_of;
  px_bar := sketch_of;
  go_Bar := fun x y name color => Ok (x, y, name, color);
  add_trace := fun fig t => Ok (mkSketch (plotted fig) (bars fig ++ [t]) (settings fig));
  update_traces := fun fig kw => Ok (mkSketch (plotted fig) (bars fig) (settings fig ++ kw));
  update_layout := fun fig kw => Ok (mkSketch (plotted fig) (bars fig) (settings fig ++ kw))
|}.

#[global] Instance terse : Interpreter := {|
  error_text := fun e =>
    match e with
    | SubscriptError _ (Name s) => String.append "'" (String.append s "'")
    | SubscriptError _ (Index _) => "index out of range"
    | SliceError _ _ => "object is not subscriptable"
    end;
  repr := fun _ => "<value>"
|}.

Definition click : pyval :=
  PDict [("points", PList [PDict [("label", PStr "food"); ("x", PStr "2024-01-15")]])].

Lemma click_selects_food_and_january :
  fst (FinancialVisualizer.update_category_on_click click []) = PStr "food"
  /\ fst (FinancialVisualizer.update_period_on_click click []) = PStr "2024-01".
Proof.
  split.
  - apply (proj1 (clicks_select_from_the_first_point click (PStr "food") []
                    ltac:(discriminate))).
    do 3 eexists. repeat split; reflexivity.
  - apply (proj2 (clicks_select_from_the_first_point click (PStr "2024-01") []
                    ltac:(discriminate))).
    do 4 eexists. repeat split; reflexivity.
Defined.

Lemma sample_bar_chart_of_a_period :
  exists data,
    columns data = ["category"; "sum rub"]
    /\ (forall row, In row (rows table) -> nth 3 (cells row) Null = Str "p1" ->
          In [nth 1 (cells row) Null;
              Num (sum_both 3 1 4 (Str "p1") (nth 1 (cells row) Null) table)]
             (map cells (rows data)))
    /\ (forall row', In row' (rows data) ->
          exists row, In row (rows table)
                      /\ nth 3 (cells row) Null = Str "p1"
                      /\ cells row'
                         = [nth 1 (cells row) Null;
                            Num (sum_both 3 1 4 (Str "p1")
                                   (nth 1 (cells row) Null) table)])
    /\ NoDup (pd.column 0 data)
    /\ FinancialVisualizer.update_bar_chart (Some "p1") (sample_dashboard, [])
       = match obind (px_bar data "category" "sum rub"
                        (String.append "Expenses for " "p1") "plotly_dark")
                     (fun fig => update_layout fig FinancialVisualizer.bar_layout)
         with
         | Ok fig => (Ok fig, (sample_dashboard, []))
         | Raise e =>
             (Ok go_Figure,
              (sample_dashboard,
               [] ++ [(ERROR, String.append "Failed to update bar chart: "
                                (exn_str e))]))
         end.
Proof.
  apply (bar_chart_plots_the_period_by_category (online (Some sheet))
           "credentials.json" "sheet-id" "A1:F6" [] _ [] _ [] reader processor table
           (FinancialVisualizer.app sample_dashboard) "p1" 3 1 4
           reader_of_sheet processor_of_reader_logged eq_refl eq_refl eq_refl eq_refl).
  discriminate.
Defined.

Lemma bare_comparison_chart_is_empty :
  exists key,
    FinancialVisualizer.update_comparison_chart None
      (FinancialVisualizer.mk bare_processor (FinancialVisualizer.mkDash None []), [])
    = (Ok go_Figure,
       (FinancialVisualizer.mk bare_processor (FinancialVisualizer.mkDash None []),
        ([] ++ [(ERROR, String.append "Failed to calculate mean and median expenses: "
                          (exn_str (KeyError key)))])
          ++ [(ERROR, "Failed to update comparison chart: 'category'")])).
Proof.
  apply (comparison_chart_of_a_failed_summary_is_empty
           (FinancialVisualizer.mk bare_processor (FinancialVisualizer.mkDash None []))
           bare_table [] None eq_refl).
  - repeat constructor; simpl; intuition discriminate.
  - reflexivity.
  - left. simpl. intuition discriminate.
Defined.

Definition monthly_summary : frame :=
  Eval vm_compute in
    match fst (DataProcessor.get_monthly_summary (processor, [])) with
    | Ok summary => summary
    | Raise _ => pd.empty
    end.

Definition processor_with_months : DataProcessor.t :=
  Eval vm_compute in fst (snd (DataProcessor.get_monthly_summary (processor, []))).

Lemma sample_months_can_be_asked_again :
  DataProcessor.get_monthly_summary (processor_with_months, [])
  = (Ok monthly_summary, (processor_with_months, [])).
Proof.
  apply (monthly_summary_is_repeatable processor processor_with_months table [] []
           monthly_summary eq_refl).
  - unfold rectangular. simpl. repeat constructor.
  - reflexivity.
Defined.

(** The reader and the processor share the table: after the monthly
    summary, the data of the reader the processor was made of has the
    column [month], and the processor's [data] is that very frame. *)
Example reader_sees_the_months :
  GoogleSheetsReader.data reader = Some raw_table
  /\ columns raw_table
     = ["date"; "category"; "subcategory"; "period"; "sum rub"; "sum currency"]
  /\ fst (snd (DataProcessor.get_monthly_summary (processor, []))) = processor_with_months
  /\ match DataProcessor.sheets_reader processor_with_months with
     | reader_object r =>
         option_map columns (GoogleSheetsReader.data r)
         = Some ["date"; "category"; "subcategory"; "period"; "sum rub"; "sum currency";
                 "month"]
         /\ GoogleSheetsReader.data r = DataProcessor.data processor_with_months
     | other_object => False
     end.
Proof. repeat split. Qed.

(** A sheet of dates without amounts. *)
Definition dated_sheet : list (list string) :=
  [ ["date"; "category"];
    ["2024-01-15"; "food"] ].

Definition dated_reader : GoogleSheetsReader.t :=
  Eval vm_compute in reader_of "A1:B2" dated_sheet.

Definition dated_table : frame :=
  Eval vm_compute in processed (fetched (Ok (Some dated_sheet))).

Definition dated_processor : DataProcessor.t := constructed dated_reader dated_table.

Example dated_processor_of_sheet :
  fst (GoogleSheetsReader.new (online (Some dated_sheet))
         "credentials.json" "sheet-id" "A1:B2" []) = Ok dated_reader
  /\ fst (DataProcessor.new (reader_object dated_reader) []) = Ok dated_processor.
Proof. split; reflexivity. Qed.

Lemma dated_sheet_gets_its_months_and_raises :
  exists dates,
    DataProcessor.get_monthly_summary (dated_processor, [])
    = (Raise (KeyError "Column not found: sum rub"),
       (DataProcessor.with_table dated_processor
          (pd.setitem dated_table "month" (month_values dates)), []))
    /\ In "month" (columns (pd.setitem dated_table "month" (month_values dates))).
Proof.
  eexists.
  apply (monthly_summary_assigns_months_before_it_raises dated_processor dated_table
           [] 0 _ eq_refl).
  - unfold rectangular. simpl. repeat constructor.
  - reflexivity.
  - reflexivity.
  - reflexivity.
  - unfold at_most_once. simpl. lia.
  - simpl. intuition discriminate.
Defined.

Lemma sample_summaries_are_in_order :
  exists summary result,
    fst (DataProcessor.get_category_summary (processor, [])) = Ok summary
    /\ fst (DataProcessor.get_category_mean_median (processor, [])) = Ok result
    /\ StronglySorted before (pd.column 0 summary)
    /\ StronglySorted before (pd.column 0 result)
    /\ pd.column 0 result = pd.column 0 summary
    /\ (forall c, In c (pd.column 0 summary) -> text c).
Proof.
  exact (summaries_list_categories_in_order (online (Some sheet))
           "credentials.json" "sheet-id" "A1:F6" [] _ [] _ [] reader processor table 1 4
           reader_of_sheet processor_of_reader_logged eq_refl eq_refl eq_refl).
Defined.

Lemma sample_totals_add_up :
  exists summary,
    fst (DataProcessor.get_category_summary (processor, [])) = Ok summary
    /\ sum_of_totals summary = column_total 4 table.
Proof.
  exact (category_totals_add_up_to_the_column_total (online (Some sheet))
           "credentials.json" "sheet-id" "A1:F6" [] _ [] _ [] reader processor table 1 4
           reader_of_sheet processor_of_reader_logged eq_refl eq_refl eq_refl).
Defined.

Lemma sample_sheet_starts_the_dashboard :
  exists r log1 dp log2 v log3 df,
    GoogleSheetsReader.new (online (Some sheet)) "credentials.json" "sheet-id" "A1:F6" []
    = (Ok r, log1)
    /\ DataProcessor.new (reader_object r) log1 = (Ok dp, log2)
    /\ DataProcessor.data dp = Some df
    /\ columns df = hd [] sheet
    /\ List.length (rows df) = List.length (tl sheet)
    /\ FinancialVisualizer.new dp log2 = (Ok v, log3)
    /\ FinancialVisualizer.processor v = dp
    /\ In (INFO, "Data loaded successfully for visualization.") log3.
Proof.
  apply (well_formed_sheet_starts_the_dashboard (online (Some sheet))
           "credentials.json" "sheet-id" "A1:F6" [] sample_service
           (hd [] sheet) (tl sheet)).
  - reflexivity.
  - reflexivity.
  - repeat constructor; simpl; lia.
  - right. apply Exists_cons_hd. reflexivity.
  - repeat constructor; simpl; intuition discriminate.
  - simpl. tauto.
  - simpl. tauto.
Defined.
